(** * Quantus: model wrapper, explanation function and localisation metrics

    A shallow embedding of

    - [quantus/helpers/pytorch_model.py] (class [PyTorchModel]),
    - [xai_quantification_toolbox/helpers/explanation_func.py] (function
      [explain]),
    - the Top-K Intersection and Focus metrics exercised by
      [tests/metrics/test_localisation_metrics.py], with the mosaic fixture
      and the mini-batch loop of that file.

    Floating point numbers are idealised as rationals ([Q]); Python
    integers are exact, and what the libraries do to them (64-bit ranges,
    overflow checks, conversion to float32) is written out.  A tensor is a
    shape together with its flattened (row-major) values.  Calls into torch
    modules, captum, scipy, cv2 and the random number generator are
    collaborators of the code: they are the variables of the sections that
    define [predict], [shape_input] and [explain], and every statement below
    holds whatever they compute.  In [predict] the transfer to a device,
    the forward pass and the softmax may each raise; in [explain] device
    placement is transparent. *)

From Stdlib Require Import ZArith QArith Qabs Qminmax List String Lia Permutation.
From stdpp Require Import gmap strings list.

Open Scope string_scope.

(* ===================================================================== *)
(** ** Python values, exceptions, keyword arguments *)
(* ===================================================================== *)

Module Py.

(** The exceptions the modelled code can raise. *)
Inductive exn : Type :=
| AssertionError (msg : string)
| AttributeError (msg : string)
| ValueError (msg : string)
| KeyError (msg : string)
| TypeError (msg : string)
| RuntimeError (msg : string)
| OverflowError (msg : string)
| IndexError (msg : string)
| ShapeMismatch (msg : string)
| MissingModel (msg : string).

(** Outcome of a call: a value or a raised exception. *)
Inductive result (A : Type) : Type :=
| Ok (a : A)
| Raise (e : exn).
Arguments Ok {A} a.
Arguments Raise {A} e.

Definition is_ok {A} (r : result A) : bool :=
  match r with Ok _ => true | Raise _ => false end.

Definition rbind {A B} (r : result A) (k : A -> result B) : result B :=
  match r with
  | Ok a => k a
  | Raise e => Raise e
  end.

(** Values that travel through [**kwargs].  [PyObj] is any other object
    (a layer handle, a baseline tensor), known by identity only. *)
Inductive pyval : Type :=
| PyNone
| PyBool (b : bool)
| PyInt (z : Z)
| PyFloat (q : Q)
| PyStr (s : string)
| PyPair (a b : Z)
| PyObj (id : nat).

(** Python truthiness, as used by [if v:] and [x if v else y]. *)
Definition truthy (v : pyval) : bool :=
  match v with
  | PyNone => false
  | PyBool b => b
  | PyInt z => negb (z =? 0)%Z
  | PyFloat q => negb (Qeq_bool q 0)
  | PyStr s => negb (String.eqb s "")
  | PyPair _ _ => true
  | PyObj _ => true
  end.

(** [kwargs.get(key, default)]. *)
Definition kwargs_get (kwargs : gmap string pyval) (key : string)
           (dflt : pyval) : pyval :=
  default dflt (kwargs !! key).

(** [key in kwargs]. *)
Definition kwargs_in (key : string) (kwargs : gmap string pyval) : bool :=
  match kwargs !! key with Some _ => true | None => false end.

(** [kwargs[key]]: raises [KeyError] on a missing key. *)
Definition kwargs_item (kwargs : gmap string pyval) (key : string)
  : result pyval :=
  match kwargs !! key with
  | Some v => Ok v
  | None => Raise (KeyError key)
  end.

(** An argument used where the libraries expect an integer ([bool] is a
    subclass of [int] in Python). *)
Definition as_int (v : pyval) : result Z :=
  match v with
  | PyInt z => Ok z
  | PyBool b => Ok (Z.b2z b)
  | _ => Raise (TypeError "an integer is required")
  end.

End Py.
Export Py.

(* ===================================================================== *)
(** ** Arrays and tensors *)
(* ===================================================================== *)

Module Tensor.

(** A numpy array: its shape and its values in row-major order. *)
Record ndarray : Type := mk_ndarray {
  shape : list nat;
  data : list Q
}.

(** A torch tensor: an array together with its autograd flag. *)
Record tensor : Type := mk_tensor {
  values : ndarray;
  requires_grad : bool
}.

(** What [isinstance(v, torch.Tensor)] distinguishes. *)
Inductive array : Type :=
| NdArray (a : ndarray)
| TorchTensor (t : tensor).

Definition numel (sh : list nat) : nat := fold_right Nat.mul 1%nat sh.

(** The array holds as many values as its shape announces. *)
Definition wf (a : ndarray) : Prop := length (data a) = numel (shape a).

(** [torch.Tensor(a)]: a fresh tensor that does not require gradients. *)
Definition torch_Tensor (a : ndarray) : tensor :=
  {| values := a; requires_grad := false |}.

Definition detach (t : tensor) : tensor :=
  {| values := values t; requires_grad := false |}.

(** [t.cpu()], and the [t.to(device)] of [explain], where placement is
    transparent. *)
Definition cpu (t : tensor) : tensor := t.
Definition to_device (t : tensor) (device : pyval) : tensor := t.

(** [t.numpy()]: refused on a tensor that requires gradients. *)
Definition numpy (t : tensor) : result ndarray :=
  if requires_grad t
  then Raise (RuntimeError "Can't call numpy() on Tensor that requires grad.")
  else Ok (values t).

Definition map_values (f : Q -> Q) (a : ndarray) : ndarray :=
  {| shape := shape a; data := map f (data a) |}.

Definition tmap (f : Q -> Q) (t : tensor) : tensor :=
  {| values := map_values f (values t); requires_grad := requires_grad t |}.

(** [torch.zeros_like(t)]. *)
Definition zeros_like (t : tensor) : tensor :=
  {| values := map_values (fun _ => 0%Q) (values t); requires_grad := false |}.

(** A Python number handed to torch as a [Scalar]: an [int] (a [bool]
    counts as one) or a [float]. *)
Inductive scalar : Type :=
| IntScalar (z : Z)
| FloatScalar (q : Q).

(** The float32 value nearest to the integer [z], ties going to the even
    significand: integers of up to 24 bits are kept, longer ones lose their
    low bits.  Integers that fit a [Scalar] are far below the largest
    float32. *)
Definition float32_of_int (z : Z) : Z :=
  let a := Z.abs z in
  let bits := (Z.log2 a + 1)%Z in
  if (bits <=? 24)%Z then z
  else
    let shift := (bits - 24)%Z in
    let q := Z.shiftr a shift in
    let r := Z.land a (Z.ones shift) in
    let half := Z.shiftl 1 (shift - 1) in
    let q' := if ((half <? r) || ((r =? half) && Z.odd q))%Z
              then (q + 1)%Z else q in
    (Z.sgn z * Z.shiftl q' shift)%Z.

(** The tensor of shape [size] whose every entry is [v]. *)
Definition full (size : list nat) (v : Q) : tensor :=
  {| values := {| shape := size; data := repeat v (numel size) |};
     requires_grad := false |}.

(** [torch.Tensor().new_full(size, fill_value)]: a float32 tensor.  An
    [int] must fit a [Scalar], signed or unsigned 64-bit, and is converted
    to float32.  A [float] is kept as the rational that stands for it, as
    floats are throughout this development. *)
Definition new_full (size : list nat) (fill_value : scalar) : result tensor :=
  match fill_value with
  | IntScalar z =>
      if (z <? - 2 ^ 63)%Z
      then Raise (OverflowError "can't convert negative int to unsigned")
      else if (2 ^ 64 <=? z)%Z
           then Raise (OverflowError "int too big to convert")
           else Ok (full size (inject_Z (float32_of_int z)))
  | FloatScalar q => Ok (full size q)
  end.

(** *** torch's reshape

    [infer_size] is torch's rule: one dimension may be given as [-1] and is
    then inferred, any other negative dimension is refused, and the product
    of the requested dimensions must match the number of elements.
    Whatever is refused raises the exception that [mk] builds, a
    [RuntimeError].  Sizes are taken as mathematical integers. *)

Definition known_product (dims : list Z) : Z :=
  fold_right (fun d acc => if (d =? -1)%Z then acc else (d * acc)%Z) 1%Z dims.

Definition count_inferred (dims : list Z) : nat :=
  length (List.filter (fun d => (d =? -1)%Z) dims).

Definition infer_size (n : Z) (dims : list Z) : option (list nat) :=
  if existsb (fun d => (d <? -1)%Z) dims then None
  else
    let p := known_product dims in
    match count_inferred dims with
    | O => if (p =? n)%Z then Some (map Z.to_nat dims) else None
    | S O =>
        if (p =? 0)%Z then None
        else if (n mod p =? 0)%Z
             then Some (map (fun d => if (d =? -1)%Z
                                      then Z.to_nat (n / p)
                                      else Z.to_nat d) dims)
             else None
    | _ => None
    end.

Definition reshape (mk : string -> exn) (dims : list Z) (a : ndarray)
  : result ndarray :=
  match infer_size (Z.of_nat (numel (shape a))) dims with
  | Some sh => Ok {| shape := sh; data := data a |}
  | None => Raise (mk "cannot reshape array into the requested shape")
  end.

Definition torch_reshape (dims : list Z) (t : tensor) : result tensor :=
  rbind (reshape RuntimeError dims (values t))
        (fun a => Ok {| values := a; requires_grad := requires_grad t |}).

(** *** numpy's reshape

    [ndarray.reshape] reads every requested dimension into a signed 64-bit
    [npy_intp].  [_fix_unknown_dimension] then takes any negative dimension,
    not only [-1], as the one to infer, refuses a second one, and multiplies
    the others from left to right with an overflow check.  The array built
    for the result is refused when its size in bytes, counted over the
    dimensions that are not zero, exceeds [NPY_MAX_INTP].  Every refusal is
    a [ValueError].  [itemsize] is the size in bytes of one element, which
    the array record does not carry. *)

Definition NPY_MAX_INTP : Z := 2 ^ 63 - 1.
Definition NPY_MIN_INTP : Z := - 2 ^ 63.

(** [npy_mul_sizes_with_overflow], on sizes that are not negative. *)
Definition mul_sizes (a b : Z) : option Z :=
  if (a * b <=? NPY_MAX_INTP)%Z then Some (a * b)%Z else None.

Definition size_mismatch : exn :=
  ValueError "cannot reshape array into the requested shape".

(** The loop of [_fix_unknown_dimension] over the requested dimensions:
    [unknown] tells whether a negative dimension was met, [s_known] is the
    product of the others so far. *)
Fixpoint fix_unknown_loop (dims : list Z) (unknown : bool) (s_known : Z)
  : result (bool * Z) :=
  match dims with
  | [] => Ok (unknown, s_known)
  | d :: rest =>
      if (d <? 0)%Z then
        if unknown
        then Raise (ValueError "can only specify one unknown dimension")
        else fix_unknown_loop rest true s_known
      else
        match mul_sizes s_known d with
        | Some s => fix_unknown_loop rest unknown s
        | None => Raise size_mismatch
        end
  end.

Definition fix_unknown_dimension (s_original : Z) (dims : list Z)
  : result (list Z) :=
  rbind (fix_unknown_loop dims false 1%Z) (fun found =>
  let s_known := snd found in
  if fst found : bool then
    if ((s_known =? 0) || negb (s_original mod s_known =? 0))%Z
    then Raise size_mismatch
    else Ok (map (fun d => if (d <? 0)%Z then (s_original / s_known)%Z else d)
                 dims)
  else
    if (s_original =? s_known)%Z then Ok dims else Raise size_mismatch).

(** The size check of the array constructor: [nbytes] starts as the item
    size and is multiplied by every dimension that is not zero. *)
Fixpoint check_nbytes (dims : list Z) (nbytes : Z) : result unit :=
  match dims with
  | [] => Ok tt
  | d :: rest =>
      if (d =? 0)%Z then check_nbytes rest nbytes
      else
        match mul_sizes nbytes d with
        | Some b => check_nbytes rest b
        | None =>
            Raise (ValueError
                     "array is too big; `arr.size * arr.dtype.itemsize` is larger than the maximum possible size.")
        end
  end.

(** [a.reshape(dims)], for a list of dimensions as short as the ones this
    code asks for. *)
Definition np_reshape (itemsize : Z) (dims : list Z) (a : ndarray)
  : result ndarray :=
  if existsb (fun d => (d <? NPY_MIN_INTP)%Z || (NPY_MAX_INTP <? d)%Z) dims
  then Raise (ValueError "Maximum allowed dimension exceeded")
  else
    rbind (fix_unknown_dimension (Z.of_nat (numel (shape a))) dims) (fun sh =>
    rbind (check_nbytes sh itemsize) (fun _ =>
    Ok {| shape := map Z.to_nat sh; data := data a |})).

(** A dimension as the size check counts it. *)
Definition nonzero (d : Z) : Z := if (d =? 0)%Z then 1%Z else d.

(** *** Reductions and indexing *)

(** The first [n] consecutive blocks of [m] values. *)
Fixpoint chunk (n m : nat) (l : list Q) : list (list Q) :=
  match n with
  | O => []
  | S n' => take m l :: chunk n' m (drop m l)
  end.

(** Pointwise sum of [blocks], each of [r] values. *)
Definition vsum (r : nat) (blocks : list (list Q)) : list Q :=
  fold_right (zip_with Qplus) (repeat 0%Q r) blocks.

(** [a.sum(axis=1)]: the second axis is summed away. *)
Definition sum_axis1 (a : ndarray) : result ndarray :=
  match shape a with
  | n :: c :: rest =>
      let r := numel rest in
      Ok {| shape := n :: rest;
            data := concat (map (fun blk => vsum r (chunk c r blk))
                                (chunk n (c * r) (data a))) |}
  | _ => Raise (IndexError "Dimension out of range")
  end.

Definition tsum_axis1 (t : tensor) : result tensor :=
  rbind (sum_axis1 (values t))
        (fun a => Ok {| values := a; requires_grad := requires_grad t |}).

(** [a.mean(axis=0)]: the first axis is averaged away. *)
Definition mean_axis0 (a : ndarray) : result ndarray :=
  match shape a with
  | c :: rest =>
      let r := numel rest in
      Ok {| shape := rest;
            data := map (fun s => (s / inject_Z (Z.of_nat c))%Q)
                        (vsum r (chunk c r (data a))) |}
  | [] => Raise (IndexError "axis 0 is out of bounds for array of dimension 0")
  end.

(** [np.clip(a, lo, hi)]. *)
Definition clip (lo hi : Q) (a : ndarray) : ndarray :=
  map_values (fun x => if Qlt_le_dec x lo then lo
                       else if Qlt_le_dec hi x then hi else x) a.

(** [t[i]] for [0 <= i < len(t)]. *)
Definition index0 (t : tensor) (i : nat) : tensor :=
  let slot := numel (tail (shape (values t))) in
  {| values := {| shape := tail (shape (values t));
                  data := take slot (drop (i * slot) (data (values t))) |};
     requires_grad := requires_grad t |}.

(** The values of an [a x b] array broadcast to [H x W]. *)
Definition broadcast2 (a b H W : nat) (vd : list Q) : list Q :=
  flat_map (fun h =>
    map (fun w => nth ((if (a =? 1)%nat then 0 else h) * b
                       + (if (b =? 1)%nat then 0 else w))%nat vd 0%Q)
        (seq 0 W))
    (seq 0 H).

(** [t[i] = v] for a two-dimensional [v]: the value is broadcast over the
    leading axes of the slot, and refused when its extents fit neither the
    last two axes of the slot nor 1. *)
Definition setitem0 (t : tensor) (i : nat) (v : tensor) : result tensor :=
  let slot_shape := tail (shape (values t)) in
  let slot := numel slot_shape in
  match shape (values v), rev slot_shape with
  | [a; b], W :: H :: lead =>
      if (((a =? H)%nat || (a =? 1)%nat) && ((b =? W)%nat || (b =? 1)%nat))%bool
      then
        let plane := broadcast2 a b H W (data (values v)) in
        let filled := concat (repeat plane (numel lead)) in
        Ok {| values :=
                {| shape := shape (values t);
                   data := take (i * slot) (data (values t)) ++ filled
                           ++ drop ((i + 1) * slot) (data (values t)) |};
              requires_grad := requires_grad t |}
      else Raise (RuntimeError "The expanded size of the tensor must match")
  | _, _ => Raise (RuntimeError "The expanded size of the tensor must match")
  end.

(** [t.min()] and [t.max()]: refused on a tensor without elements. *)
Definition tmin (t : tensor) : result Q :=
  match data (values t) with
  | [] => Raise (RuntimeError "min(): Expected reduction dim to be specified")
  | x :: l => Ok (fold_left Qmin l x)
  end.

Definition tmax (t : tensor) : result Q :=
  match data (values t) with
  | [] => Raise (RuntimeError "max(): Expected reduction dim to be specified")
  | x :: l => Ok (fold_left Qmax l x)
  end.

(** [t.abs()], [t[t < 0] = 0.0] and [t[t > 0] = 0.0]. *)
Definition tabs (t : tensor) : tensor := tmap Qabs t.

Definition zero_negatives (t : tensor) : tensor :=
  tmap (fun x => if Qlt_le_dec x 0 then 0%Q else x) t.

Definition zero_positives (t : tensor) : tensor :=
  tmap (fun x => if Qlt_le_dec 0 x then 0%Q else x) t.

End Tensor.
Export Tensor.

(* ===================================================================== *)
(** ** The torch module and the state the code runs in *)
(* ===================================================================== *)

Module Torch.

(** A [torch.nn.Module]: its mode flag and its parameters. *)
Record Module : Type := mk_Module {
  training : bool;
  state_dict : list (string * ndarray)
}.

(** [module.eval()] switches the module to evaluation mode. *)
Definition eval (m : Module) : Module :=
  {| training := false; state_dict := state_dict m |}.

(** What the code can touch while it runs: the torch module (one object,
    shared by the wrapper's [self.model] and by the [model] argument of
    [explain]) and torch's global autograd switch. *)
Record world : Type := mk_world {
  net : Module;
  grad_enabled : bool
}.

Definition set_grad (b : bool) (w : world) : world :=
  {| net := net w; grad_enabled := b |}.

Definition set_net (m : Module) (w : world) : world :=
  {| net := m; grad_enabled := grad_enabled w |}.

(** Computations over the world that may raise. *)
Definition M (A : Type) : Type := world -> world * result A.

Definition ret {A} (a : A) : M A := fun w => (w, Ok a).
Definition raise {A} (e : exn) : M A := fun w => (w, Raise e).
Definition lift {A} (r : result A) : M A := fun w => (w, r).
Definition bind {A B} (c : M A) (k : A -> M B) : M B :=
  fun w => match c w with
           | (w', Ok a) => k a w'
           | (w', Raise e) => (w', Raise e)
           end.

(** [model.eval()] on the shared module. *)
Definition model_eval : M unit := fun w => (set_net (eval (net w)) w, Ok tt).

(** [model.training]. *)
Definition model_training : M bool := fun w => (w, Ok (training (net w))).

(** The two context managers [predict] chooses between. *)
Inductive context : Type :=
| no_grad     (* torch.no_grad() *)
| suppress.   (* contextlib.suppress() with no exception classes *)

(** [with ctx: body].  [torch.no_grad()] switches autograd off on entry
    and restores the previous setting on exit, also when the body raises
    or returns; [suppress()] without arguments changes nothing and
    swallows nothing. *)
Definition with_ {A} (ctx : context) (body : M A) : M A :=
  match ctx with
  | no_grad =>
      fun w =>
        let prev := grad_enabled w in
        let (w', r) := body (set_grad false w) in
        (set_grad prev w', r)
  | suppress => body
  end.

End Torch.
Export Torch.

Notation "x <- c ;; k" := (bind c (fun x => k))
  (at level 100, c at next level, right associativity).

(* ===================================================================== *)
(** ** quantus/helpers/pytorch_model.py *)
(* ===================================================================== *)

Module PyTorchModel.

(** The wrapper object.  [ModelInterface.__init__] stores the module and
    the channel convention; the module itself lives in the [world]. *)
Record PyTorchModel : Type := mk_PyTorchModel {
  channel_first : bool
}.

Section Predict.

(** The library calls [predict] makes, each of which may raise: the
    transfer [torch.Tensor(x).to(device)], the forward pass of the wrapped
    module under the autograd setting in force at the call, and
    [torch.nn.Softmax()].  [on_cpu] tells whether the memory of a tensor is
    on the host, which [numpy()] needs and the tensor record does not
    carry. *)
Variable to_ : tensor -> pyval -> result tensor.
Variable forward : Module -> bool -> tensor -> result tensor.
Variable Softmax : tensor -> result tensor.
Variable on_cpu : tensor -> bool.

(** [self.model(t)]. *)
Definition call_model (t : tensor) : M tensor :=
  fun w => (w, forward (net w) (grad_enabled w) t).

(** [pred.numpy()] on a tensor that was not moved to the host first. *)
Definition host_numpy (pred : tensor) : result ndarray :=
  if on_cpu pred then numpy pred
  else Raise (TypeError
                "can't convert device type tensor to numpy. Use Tensor.cpu() to copy the tensor to host memory first.").

Definition predict (self : PyTorchModel) (x : ndarray) (softmax_act : bool)
           (kwargs : gmap string pyval) : M ndarray :=
  training <- model_training ;;
  if training : bool then
    raise (AttributeError "Torch model needs to be in the evaluation mode.")
  else
    let device := kwargs_get kwargs "device" PyNone in
    let grad := kwargs_get kwargs "grad" (PyBool false) in
    let grad_context := if truthy grad then no_grad else suppress in
    with_ grad_context
      (input <- lift (to_ (torch_Tensor x) device) ;;
       pred <- call_model input ;;
       pred <- (if softmax_act then lift (Softmax pred) else ret pred) ;;
       if requires_grad pred
       then lift (numpy (cpu (detach pred)))
       else lift (host_numpy pred)).

(** The body of the [with] block as a whole, when the forward pass sees
    the autograd setting [seen]: the scores, or the exception of the first
    library call that raises. *)
Definition forward_outcome (m : Module) (seen : bool) (x : ndarray)
           (softmax_act : bool) (device : pyval) : result ndarray :=
  rbind (to_ (torch_Tensor x) device) (fun input =>
  rbind (forward m seen input) (fun raw =>
  rbind (if softmax_act then Softmax raw else Ok raw) (fun pred =>
  if requires_grad pred then Ok (values pred)
  else if on_cpu pred then Ok (values pred)
       else Raise (TypeError
                     "can't convert device type tensor to numpy. Use Tensor.cpu() to copy the tensor to host memory first.")))).

End Predict.

Section ShapeInput.

(** [x.itemsize], the size in bytes of one element of [x]. *)
Variable itemsize : ndarray -> Z.

Definition shape_input (self : PyTorchModel) (x : ndarray)
           (img_size nr_channels : Z) : M ndarray :=
  x <- lift (np_reshape (itemsize x)
                        [1%Z; nr_channels; img_size; img_size] x) ;;
  if channel_first self then ret x
  else raise (ValueError "Channel first order expected for a torch model.").

End ShapeInput.

Definition get_model (self : PyTorchModel) : M Module :=
  fun w => (w, Ok (net w)).

End PyTorchModel.

(* ===================================================================== *)
(** ** xai_quantification_toolbox/helpers/explanation_func.py *)
(* ===================================================================== *)

Module Explain.

(** [s.lower()] on ASCII letters. *)
Definition lower_ascii (c : Ascii.ascii) : Ascii.ascii :=
  let n := Ascii.nat_of_ascii c in
  if ((65 <=? n)%nat && (n <=? 90)%nat)%bool
  then Ascii.ascii_of_nat (n + 32) else c.

Fixpoint lower (s : string) : string :=
  match s with
  | EmptyString => EmptyString
  | String c s' => String (lower_ascii c) (lower s')
  end.

(** [v == s] for a string literal [s]. *)
Definition str_eq (v : pyval) (s : string) : bool :=
  match v with
  | PyStr s' => String.eqb s' s
  | _ => false
  end.

(** [kwargs.get("baseline", torch.zeros_like(inputs))]. *)
Inductive baseline : Type :=
| GivenBaseline (v : pyval)
| ZeroBaseline (t : tensor).

(** The captum algorithms [explain] instantiates, with the arguments it
    passes to them besides [inputs] and [target]. *)
Inductive captum : Type :=
| GradientShap (baselines : baseline)
| IntegratedGradients (baselines : baseline) (n_steps : Z) (method : string)
| InputXGradient
| Saliency (abs : bool)
| Occlusion (sliding_window_shapes : pyval)
| FeatureAblation
| LayerGradCam (layer : pyval).

Definition assert_msg_explanation_func : string :=
  "To run RobustnessTest specify 'explanation_func' (str) e.g., 'Gradient'.".

Section Explain.

(** [Algorithm(model).attribute(inputs=..., target=..., ...)]. *)
Variable attribute : captum -> Module -> tensor -> tensor -> result tensor.
(** [scipy.ndimage.sobel] and [cv2.resize(a, dsize=(w, h))]. *)
Variable sobel : ndarray -> ndarray.
Variable cv2_resize : ndarray -> pyval -> pyval -> result ndarray.
(** [normalize_heatmap], imported from [.utils]. *)
Variable normalize_heatmap : tensor -> result array.
(** The draws of [random.random()] and, inside [random.uniform], of the
    generator. *)
Variable random_random : Q.
Variable random_uniform_draw : Q.

Definition random_uniform (a b : Q) : Q := (a + (b - a) * random_uniform_draw)%Q.

(** [torch.reshape(input=t, shape=(img_size, img_size))]. *)
Definition reshape_img (kwargs : gmap string pyval) (t : tensor)
  : result tensor :=
  rbind (as_int (kwargs_get kwargs "img_size" (PyInt 224))) (fun h =>
  rbind (as_int (kwargs_get kwargs "img_size" (PyInt 224))) (fun w =>
  torch_reshape [h; w] t)).

(** [torch.Tensor(np.clip(sobel(t.cpu().numpy()), 0, 1).mean(axis=0))]
    reshaped to [(img_size, img_size)]. *)
Definition sobel_map (kwargs : gmap string pyval) (t : tensor)
  : result tensor :=
  rbind (numpy (cpu t)) (fun a =>
  rbind (mean_axis0 (clip 0 1 (sobel a))) (fun m =>
  reshape_img kwargs (torch_Tensor m))).

(** The loop [for i in range(len(explanation)): explanation[i] = ...]. *)
Definition sobel_loop (kwargs : gmap string pyval) (inputs : tensor)
           (explanation : tensor) : result tensor :=
  fold_left
    (fun acc i =>
       rbind acc (fun explanation =>
       rbind (sobel_map kwargs (index0 inputs i)) (fun v =>
       setitem0 explanation i v)))
    (seq 0 (hd 0%nat (shape (values explanation))))
    (Ok explanation).

(** The [fill_value] of the "Control Var. Constant" branch.  The dictionary
    [fill_dict] is built in full (so [min] and [max] are taken) before the
    value is looked at. *)
Definition fill_value_of (kwargs : gmap string pyval) (explanation : tensor)
  : result scalar :=
  let r := random_random in
  rbind (tmin explanation) (fun lo =>
  rbind (tmax explanation) (fun hi =>
  let u := random_uniform lo hi in
  rbind (tmin explanation) (fun black =>
  rbind (tmax explanation) (fun white =>
  rbind (kwargs_item kwargs "fill_value") (fun fv =>
  match fv with
  | PyFloat q => Ok (FloatScalar q)
  | PyInt z => Ok (IntScalar z)
  | PyBool b => Ok (IntScalar (Z.b2z b))
  | PyStr s =>
      let key := lower s in
      if String.eqb key "random" then Ok (FloatScalar r)
      else if String.eqb key "uniform" then Ok (FloatScalar u)
      else if String.eqb key "black" then Ok (FloatScalar black)
      else if String.eqb key "white" then Ok (FloatScalar white)
      else Raise (KeyError key)
  | _ => Raise (AttributeError "object has no attribute 'lower'")
  end))))).

(** The chain [if explanation_func == ...: ... elif ...: ... else: raise],
    run on the converted [inputs] and [targets] with
    [explanation = torch.zeros_like(inputs)]. *)
Definition explain_method (model : Module) (explanation_func : pyval)
           (inputs targets explanation : tensor)
           (kwargs : gmap string pyval) : result tensor :=
  let base :=
    match kwargs !! "baseline" with
    | Some v => GivenBaseline v
    | None => ZeroBaseline (zeros_like inputs)
    end in
  if str_eq explanation_func "GradientShap" then
    rbind (attribute (GradientShap base) model inputs targets) tsum_axis1
  else if str_eq explanation_func "IntegratedGradients" then
    rbind (attribute (IntegratedGradients base 10 "riemann_trapezoid")
                     model inputs targets) tsum_axis1
  else if str_eq explanation_func "InputXGradient" then
    rbind (attribute InputXGradient model inputs targets) tsum_axis1
  else if str_eq explanation_func "Saliency" then
    rbind (attribute (Saliency true) model inputs targets) tsum_axis1
  else if str_eq explanation_func "Gradient" then
    rbind (attribute (Saliency false) model inputs targets) tsum_axis1
  else if str_eq explanation_func "Occlusion" then
    if negb (kwargs_in "sliding_window" kwargs) then
      Raise (AssertionError
        "Provide kwargs, 'oc_sliding_window' e.g., (4, 4) to compute an Occlusion explanation.")
    else
      rbind (kwargs_item kwargs "oc_sliding_window") (fun sw =>
      rbind (attribute (Occlusion sw) model inputs targets) tsum_axis1)
  else if str_eq explanation_func "FeatureAblation" then
    rbind (attribute FeatureAblation model inputs targets) tsum_axis1
  else if str_eq explanation_func "GradCam" then
    if negb (kwargs_in "gc_layer" kwargs) then
      Raise (AssertionError
        "Provide kwargs, 'gc_layer' e.g., list(model.named_modules())[1][1][-6] to run GradCam.")
    else
      rbind (kwargs_item kwargs "gc_layer") (fun layer =>
      rbind (attribute (LayerGradCam layer) model inputs targets) (fun a =>
      rbind (tsum_axis1 a) (fun explanation =>
      rbind (cv2_resize (values (cpu explanation))
                        (kwargs_get kwargs "img_size" (PyInt 224))
                        (kwargs_get kwargs "img_size" (PyInt 224)))
            (fun r => Ok (torch_Tensor r)))))
  else if str_eq explanation_func "Control Var. Sobel Filter" then
    if (length (shape (values explanation)) =? 4)%nat
    then sobel_loop kwargs inputs explanation
    else sobel_map kwargs inputs
  else if str_eq explanation_func "Control Var. Constant" then
    if negb (kwargs_in "fill_value" kwargs) then
      Raise (AssertionError
        "Specify a 'fill_value' e.g., 0.0 or 'black' for pixel replacement.")
    else
      rbind (fill_value_of kwargs explanation) (fun fill_value =>
      new_full (shape (values explanation)) fill_value)
  else Raise (KeyError "Specify a XAI method that exists.").

(** The statements after the method chain, up to [normalize_heatmap]. *)
Definition apply_abs (kwargs : gmap string pyval) (explanation : tensor)
  : tensor :=
  if truthy (kwargs_get kwargs "abs" (PyBool false))
  then tabs explanation else explanation.

Definition apply_pos_only (kwargs : gmap string pyval) (explanation : tensor)
  : tensor :=
  if truthy (kwargs_get kwargs "pos_only" (PyBool false))
  then zero_negatives explanation else explanation.

Definition apply_neg_only (kwargs : gmap string pyval) (explanation : tensor)
  : tensor :=
  if truthy (kwargs_get kwargs "neg_only" (PyBool false))
  then zero_positives explanation else explanation.

Definition apply_normalize (kwargs : gmap string pyval) (explanation : tensor)
  : result array :=
  if truthy (kwargs_get kwargs "normalize" (PyBool true))
  then normalize_heatmap explanation else Ok (TorchTensor explanation).

(** The final [isinstance(explanation, torch.Tensor)] conversion. *)
Definition to_ndarray (explanation : array) : result ndarray :=
  match explanation with
  | TorchTensor t =>
      if requires_grad t then numpy (detach (cpu t)) else numpy (cpu t)
  | NdArray a => Ok a
  end.

(** Lines 166-182 of the source: the value transforms and the return. *)
Definition postprocess (kwargs : gmap string pyval) (explanation : tensor)
  : result ndarray :=
  let explanation := apply_abs kwargs explanation in
  let explanation := apply_pos_only kwargs explanation in
  let explanation := apply_neg_only kwargs explanation in
  rbind (apply_normalize kwargs explanation) to_ndarray.

(** The conversion of [inputs] when it is not yet a torch tensor. *)
Definition convert_inputs (inputs : array) (kwargs : gmap string pyval)
  : result tensor :=
  match inputs with
  | TorchTensor t => Ok t
  | NdArray a =>
      rbind (as_int (kwargs_get kwargs "nr_channels" (PyInt 3))) (fun c =>
      rbind (as_int (kwargs_get kwargs "img_size" (PyInt 224))) (fun h =>
      rbind (as_int (kwargs_get kwargs "img_size" (PyInt 224))) (fun w =>
      rbind (torch_reshape [(-1)%Z; c; h; w] (torch_Tensor a)) (fun t =>
      Ok (to_device t (kwargs_get kwargs "device" PyNone))))))
  end.

Definition convert_targets (targets : array) (kwargs : gmap string pyval)
  : tensor :=
  match targets with
  | TorchTensor t => t
  | NdArray a => to_device (torch_Tensor a) (kwargs_get kwargs "device" PyNone)
  end.

(** Lines 24-164 of the source: the assertion, the switch to evaluation
    mode, the conversions and the method chain.  [dflt] is the default
    handed to [kwargs.get("explanation_func", ...)]. *)
Definition explanation_of (dflt : pyval) (inputs targets : array)
           (kwargs : gmap string pyval) : M tensor :=
  if negb (kwargs_in "explanation_func" kwargs) then
    raise (AssertionError assert_msg_explanation_func)
  else
    let explanation_func := kwargs_get kwargs "explanation_func" dflt in
    _ <- model_eval ;;
    inputs <- lift (convert_inputs inputs kwargs) ;;
    let targets := convert_targets targets kwargs in
    let explanation := zeros_like inputs in
    model <- (fun w => (w, Ok (net w))) ;;
    lift (explain_method model explanation_func inputs targets
                         explanation kwargs).

Definition explain_from (dflt : pyval) (inputs targets : array)
           (kwargs : gmap string pyval) : M ndarray :=
  explanation <- explanation_of dflt inputs targets kwargs ;;
  lift (postprocess kwargs explanation).

(** [explain(model, inputs, targets, **kwargs)]; the [model] argument is the
    module held by the world. *)
Definition explain (inputs targets : array) (kwargs : gmap string pyval)
  : M ndarray :=
  explain_from (PyStr "Gradient") inputs targets kwargs.

End Explain.

End Explain.

(* ===================================================================== *)
(** ** Localisation metrics: Top-K Intersection *)
(* ===================================================================== *)

Module TopKIntersection.

(** Modelled from the spec: the metric classes of [quantus.metrics] are
    imported by the tests but their module is not part of the sources at
    hand.  The order in which pixels are ranked: larger attribution first,
    and among equal attributions the lower flat index first. *)
Definition ranks_before (p q : nat * Q) : bool :=
  if Qlt_le_dec (snd q) (snd p) then true
  else if Qlt_le_dec (snd p) (snd q) then false
  else (fst p <? fst q)%nat.

Fixpoint insert_ranked (p : nat * Q) (l : list (nat * Q)) : list (nat * Q) :=
  match l with
  | [] => [p]
  | q :: l' => if ranks_before p q then p :: q :: l'
               else q :: insert_ranked p l'
  end.

Definition ranking (values : list Q) : list (nat * Q) :=
  fold_right insert_ranked [] (combine (seq 0 (length values)) values).

(** Modelled from the spec: [top_k_indices(values, k)] of section 4.1, the
    indices of the [k] largest values of a flattened array, [k] clamped to
    the array length. *)
Definition top_k_indices (values : list Q) (k : nat) : list nat :=
  take (Nat.min k (length values)) (map fst (ranking values)).

(** Modelled from the spec: [region_membership(indices, mask)] of section
    4.1, the number of [indices] whose flattened mask entry is 1. *)
Definition region_membership (indices : list nat) (mask : list bool) : nat :=
  length (List.filter (fun i => nth i mask false) indices).

Definition mask_size (mask : list bool) : nat :=
  length (List.filter (fun b => b) mask).

Definition ratio (a b : nat) : Q :=
  (inject_Z (Z.of_nat a) / inject_Z (Z.of_nat b))%Q.

(** Modelled from the spec: the Top-K Intersection score of section 4.4,
    [|top_k_indices(attr, k) ∩ mask_on_indices| / k], with [k] clamped to
    the pixel count and the score 0 on an empty mask. *)
Definition top_k_intersection (attr : list Q) (mask : list bool) (k : nat)
  : Q :=
  let k := Nat.min k (length attr) in
  if (mask_size mask =? 0)%nat then 0%Q
  else ratio (region_membership (top_k_indices attr k) mask) k.

End TopKIntersection.

(* ===================================================================== *)
(** ** Localisation metrics: Focus *)
(* ===================================================================== *)

Module Focus.

(** Modelled from the spec: the [Focus] class of [quantus.metrics] is used
    by [test_focus] but is not part of the sources at hand.  Configuration
    of a metric instance (section 3), frozen at construction. *)
Record config : Type := mk_config {
  abs : bool;
  pos_only : bool;
  neg_only : bool;
  normalise : bool;
  return_aggregate : bool
}.

(** Modelled from the spec: a metric instance (section 3), its configuration
    and the accumulated per-sample scores, [last_results]. *)
Record Focus : Type := mk_Focus {
  params : config;
  last_results : list Q
}.

(** A newly constructed instance has accumulated nothing. *)
Definition new (c : config) : Focus := {| params := c; last_results := [] |}.

(** The arguments of one call: mosaics, target labels, attributions and the
    quadrant flags; each may be [None]. *)
Record batch : Type := mk_batch {
  x_batch : option (list ndarray);
  y_batch : option (list Z);
  a_batch : option (list ndarray);
  p_batch : option (list (bool * bool * bool * bool))
}.

(** What a call returns: the scores of this call or their mean. *)
Inductive evaluation : Type :=
| Scores (scores : list Q)
| Aggregate (mean : Q).

(** Modelled from the spec: [normalize(map)] of section 4.1,
    [(x - min) / (max - min)], the map unchanged when its range is zero. *)
Definition normalize (a : ndarray) : ndarray :=
  match data a with
  | [] => a
  | x :: l =>
      let lo := fold_left Qmin l x in
      let hi := fold_left Qmax l x in
      if Qeq_bool lo hi then a
      else map_values (fun v => ((v - lo) / (hi - lo))%Q) a
  end.

(** Modelled from the spec: the value transforms of section 4.2 in their
    fixed order. *)
Definition transform (c : config) (a : ndarray) : ndarray :=
  let a := if abs c then map_values Qabs a else a in
  let a := if pos_only c
           then map_values (fun x => if Qlt_le_dec x 0 then 0%Q else x) a
           else a in
  let a := if neg_only c
           then map_values (fun x => if Qlt_le_dec 0 x then 0%Q else x) a
           else a in
  if normalise c then normalize a else a.

(** Height and width of a map: its last two axes. *)
Definition extents (a : ndarray) : nat * nat :=
  match rev (shape a) with
  | w :: h :: _ => (h, w)
  | _ => (0%nat, 0%nat)
  end.

Definition positive_part (x : Q) : Q := if Qlt_le_dec 0 x then x else 0%Q.

Definition qsum (l : list Q) : Q := fold_right Qplus 0%Q l.

(** The positive attribution mass of the pixels selected by [keep], over
    all leading axes of the map. *)
Definition positive_mass (a : ndarray) (keep : nat -> nat -> bool) : Q :=
  let '(h, w) := extents a in
  qsum (map (fun '(i, v) =>
               if keep ((i / w) mod h)%nat (i mod w)%nat
               then positive_part v else 0%Q)
            (combine (seq 0 (length (data a))) (data a))).

(** Quadrant membership.  The four flags are listed in the order in which
    the mosaic fixture lays out its tiles: top left, bottom left, top
    right, bottom right. *)
Definition in_target (h w : nat) (p : bool * bool * bool * bool)
           (r c : nat) : bool :=
  let '(tl, bl, tr, br) := p in
  let top := (r <? h / 2)%nat in
  let left := (c <? w / 2)%nat in
  if top then (if left then tl else tr) else (if left then bl else br).

(** Modelled from the spec: the Focus score of section 4.4, the fraction of
    the total positive attribution mass that falls in the quadrants of the
    target class. *)
Definition focus_score (a : ndarray) (p : bool * bool * bool * bool) : Q :=
  let '(h, w) := extents a in
  (positive_mass a (in_target h w p) / positive_mass a (fun _ _ => true))%Q.

Definition mean (l : list Q) : Q :=
  (qsum l / inject_Z (Z.of_nat (length l)))%Q.

Section Evaluate.

(** The explanation collaborator handed to the metric, if any: called once
    per batch with the inputs and targets of the call. *)
Variable explain_func : option (list ndarray -> list Z -> result (list ndarray)).

(** Modelled from the spec: the validation layer of section 4.2 for the
    Focus metric.  An absent or empty mosaic batch is a [ValueError];
    differing sample counts are a [ShapeMismatch]; absent attributions
    without an explanation collaborator are a [MissingModel]. *)
Definition prepare (c : config) (b : batch)
  : result (list ndarray * list (bool * bool * bool * bool)) :=
  match x_batch b with
  | None => Raise (ValueError "the mosaic batch is absent")
  | Some [] => Raise (ValueError "the mosaic batch is empty")
  | Some x =>
      match y_batch b, p_batch b with
      | Some y, Some p =>
          if negb ((length y =? length x)%nat && (length p =? length x)%nat)
          then Raise (ShapeMismatch "sample counts differ")
          else
            rbind
              (match a_batch b with
               | Some a => Ok a
               | None =>
                   match explain_func with
                   | Some f => f x y
                   | None => Raise (MissingModel "no attributions")
                   end
               end)
              (fun a =>
                 if negb (length a =? length x)%nat
                 then Raise (ShapeMismatch "sample counts differ")
                 else Ok (map (transform c) a, p))
      | _, _ => Raise (ShapeMismatch "sample counts differ")
      end
  end.

(** The scores of one call, one per sample, in input order. *)
Definition call_scores (c : config) (b : batch) : result (list Q) :=
  rbind (prepare c b)
        (fun '(a, p) => Ok (zip_with focus_score a p)).

(** Modelled from the spec: the operation [evaluate] of section 4.3.  A
    failed call leaves the instance as it was; a successful call appends
    its scores to [last_results] and returns them, or their mean. *)
Definition evaluate (m : Focus) (b : batch) : Focus * result evaluation :=
  match call_scores (params m) b with
  | Raise e => (m, Raise e)
  | Ok scores =>
      ({| params := params m; last_results := last_results m ++ scores |},
       Ok (if return_aggregate (params m)
           then Aggregate (mean scores) else Scores scores))
  end.

(** A sequence of calls on one instance, as the loop of [test_focus] makes
    them; the first failing call ends the sequence. *)
Fixpoint evaluate_all (m : Focus) (calls : list batch) : Focus * result unit :=
  match calls with
  | [] => (m, Ok tt)
  | b :: rest =>
      match evaluate m b with
      | (m', Ok _) => evaluate_all m' rest
      | (m', Raise e) => (m', Raise e)
      end
  end.

End Evaluate.

(** The loop of [test_focus]: while flags remain, the next [n] mosaics,
    targets, attributions and flags form one call.  [fuel] bounds the
    number of rounds; the length of the flag list is enough when [n] is
    positive (the test uses 10). *)
Fixpoint minibatches_from (fuel n : nat) (x : list ndarray) (y : list Z)
         (a : list ndarray) (p : list (bool * bool * bool * bool))
  : list batch :=
  match fuel, p with
  | O, _ => []
  | _, [] => []
  | S fuel', _ =>
      {| x_batch := Some (take n x); y_batch := Some (take n y);
         a_batch := Some (take n a); p_batch := Some (take n p) |}
      :: minibatches_from fuel' n (drop n x) (drop n y) (drop n a) (drop n p)
  end.

Definition minibatches (n : nat) (x : list ndarray) (y : list Z)
           (a : list ndarray) (p : list (bool * bool * bool * bool))
  : list batch :=
  minibatches_from (length p) n x y a p.

End Focus.

(* ===================================================================== *)
(** ** Concrete inputs and collaborators *)
(* ===================================================================== *)

Import PyTorchModel Explain.

(** The message of the mode check in [predict]. *)
Definition training_msg : string :=
  "Torch model needs to be in the evaluation mode.".

(** Collaborators and inputs on which the statements below are exercised. *)
Definition id_to (t : tensor) (device : pyval) : result tensor := Ok t.
Definition id_forward (m : Module) (g : bool) (t : tensor) : result tensor :=
  Ok t.
Definition id_softmax (t : tensor) : result tensor := Ok t.
Definition always_on_cpu (t : tensor) : bool := true.
(** Arrays of [float64]. *)
Definition float64_itemsize (a : ndarray) : Z := 8.
(** No values at all. *)
Definition no_values : ndarray := {| shape := [0%nat]; data := [] |}.
(** A forward pass that reports the autograd setting it ran under. *)
Definition probe_forward (m : Module) (g : bool) (t : tensor)
  : result tensor :=
  Ok {| values := {| shape := [1%nat]; data := [if g then 1%Q else 0%Q] |};
        requires_grad := g |}.
(** A module that takes inputs of one value only, as a layer of fixed
    width does, and raises on any other. *)
Definition strict_forward (m : Module) (g : bool) (t : tensor)
  : result tensor :=
  if decide (shape (values t) = [1%nat]) then Ok t
  else Raise (RuntimeError "mat1 and mat2 shapes cannot be multiplied").
Definition eval_world : world :=
  {| net := {| training := false; state_dict := [] |}; grad_enabled := true |}.
Definition train_world : world :=
  {| net := {| training := true; state_dict := [] |}; grad_enabled := true |}.
Definition wrapper : PyTorchModel := {| channel_first := true |}.
Definition wrapper_last : PyTorchModel := {| channel_first := false |}.
Definition pixel : ndarray := {| shape := [1%nat]; data := [1%Q] |}.
Definition five : ndarray :=
  {| shape := [5%nat]; data := [1%Q; 2%Q; 3%Q; 4%Q; 5%Q] |}.
Definition eight : ndarray :=
  {| shape := [8%nat];
     data := [1%Q; 2%Q; 3%Q; 4%Q; 5%Q; 6%Q; 7%Q; 8%Q] |}.

(** Collaborators that do nothing, for the explanation function. *)
Definition stub_attribute (c : captum) (m : Module) (inputs targets : tensor)
  : result tensor := Ok inputs.
Definition stub_sobel (a : ndarray) : ndarray := a.
Definition stub_resize (a : ndarray) (w h : pyval) : result ndarray := Ok a.
Definition stub_normalize (t : tensor) : result array := Ok (TorchTensor t).

(** Two three-channel 2x2 images, their targets, and options selecting the
    constant control variant without normalisation. *)
Definition batch_2x3x2x2 : ndarray :=
  {| shape := [2; 3; 2; 2]%nat; data := repeat 1%Q 24 |}.
Definition targets_2 : ndarray :=
  {| shape := [2%nat]; data := [0%Q; 1%Q] |}.
Definition constant_kwargs : gmap string pyval :=
  <["explanation_func" := PyStr "Control Var. Constant"]>
  (<["fill_value" := PyFloat (1 # 2)]>
  (<["img_size" := PyInt 2]>
  (<["normalize" := PyBool false]> ∅))).

(** The number of mosaics handed to a call of a metric. *)
Definition batch_size (b : Focus.batch) : nat :=
  match Focus.x_batch b with
  | Some x => length x
  | None => 0%nat
  end.

(** What it means for [scores] to be the scores of the call [b]: the call
    passes validation with attributions [a] and its own flags [p], and the
    i-th score is the Focus score of the i-th attribution under the i-th
    flags; there is one score per mosaic, and attributions supplied by the
    caller are used after the configured transforms. *)
Definition scored
           (explain_func : option (list ndarray -> list Z
                                   -> result (list ndarray)))
           (c : Focus.config) (b : Focus.batch) (scores : list Q) : Prop :=
  exists a p,
    Focus.p_batch b = Some p
    /\ Focus.prepare explain_func c b = Ok (a, p)
    /\ scores = zip_with Focus.focus_score a p
    /\ length scores = batch_size b
    /\ (forall a0, Focus.a_batch b = Some a0
                   -> a = map (Focus.transform c) a0).

(** A Focus configuration without transforms, and the call of [test_focus]
    that passes no data at all. *)
Definition plain_config : Focus.config :=
  {| Focus.abs := false; Focus.pos_only := false; Focus.neg_only := false;
     Focus.normalise := false; Focus.return_aggregate := false |}.
Definition absent_batch : Focus.batch :=
  {| Focus.x_batch := None; Focus.y_batch := None;
     Focus.a_batch := None; Focus.p_batch := None |}.

(** The artificial attributions of the tests, on tiles of one pixel: the
    four values are laid out top left, bottom left, top right, bottom
    right, as [load_artificial_attribution] concatenates them. *)
Definition artificial (i0 i1 i2 i3 : Q) : ndarray :=
  {| shape := [1; 2; 2]%nat; data := [i0; i2; i1; i3] |}.
Definition artificial_attributions : list ndarray :=
  [artificial 0 0 1 1; artificial 1 1 0 0;
   artificial 0 1 0 1; artificial 1 0 1 0].
Definition artificial_flags : list (bool * bool * bool * bool) :=
  [(false, false, true, true); (true, true, false, false);
   (false, true, false, true); (true, false, true, false)].
Definition artificial_complement : list (bool * bool * bool * bool) :=
  [(true, true, false, false); (false, false, true, true);
   (true, false, true, false); (false, true, false, true)].
Definition ones_mosaic : ndarray :=
  {| shape := [1; 2; 2]%nat; data := [1%Q; 1%Q; 1%Q; 1%Q] |}.

(** Three of these mosaics, handed over in mini-batches of two. *)
Definition artificial_calls : list Focus.batch :=
  Focus.minibatches 2 [ones_mosaic; ones_mosaic; ones_mosaic]
                    [1%Z; 1%Z; 1%Z]
                    (take 3 artificial_attributions)
                    (take 3 artificial_flags).

Definition sobel_kwargs : gmap string pyval :=
  <["explanation_func" := PyStr "Control Var. Sobel Filter"]>
  (<["img_size" := PyInt 2]>
  (<["normalize" := PyBool false]> ∅)).

(** The fixture [all_in_gt_1d_3ch] of the tests: a signal of 224 values,
    the mask set on [50, 150), the attribution 1.0 there and small
    elsewhere (1/20 stands for the draws from [uniform(0, 0.1)]). *)
Definition in_region (i : nat) : bool := ((50 <=? i)%nat && (i <? 150)%nat)%bool.
Definition fixture_mask : list bool := map in_region (seq 0 224).
Definition fixture_attr : list Q :=
  map (fun i => if in_region i then 1%Q else (1 # 20)%Q) (seq 0 224).

(** The method names the chain of [explain] knows, and those among them
    that end in [.sum(axis=1)] without a further assertion. *)
Definition supported_methods : list string :=
  ["GradientShap"; "IntegratedGradients"; "InputXGradient"; "Saliency";
   "Gradient"; "Occlusion"; "FeatureAblation"; "GradCam";
   "Control Var. Sobel Filter"; "Control Var. Constant"].

(** A batch of one single-channel pixel, as a torch tensor, and options
    that misspell a method name or give only one of the two window keys. *)
Definition one_pixel : tensor :=
  torch_Tensor {| shape := [1; 1; 1; 1]%nat; data := [1%Q] |}.
Definition lowercase_kwargs : gmap string pyval :=
  <["explanation_func" := PyStr "gradient"]> ∅.
Definition occlusion_checked_key : gmap string pyval :=
  <["explanation_func" := PyStr "Occlusion"]>
  (<["sliding_window" := PyPair 4 4]> ∅).
Definition occlusion_read_key : gmap string pyval :=
  <["explanation_func" := PyStr "Occlusion"]>
  (<["oc_sliding_window" := PyPair 4 4]> ∅).

(** The option [key] read as a flag, as [if kwargs.get(key, dflt):] does. *)
Definition flag (kwargs : gmap string pyval) (key : string) (dflt : bool)
  : bool :=
  truthy (kwargs_get kwargs key (PyBool dflt)).

(** Options that leave the explanation as the method computed it: no value
    transform is requested and normalisation is switched off. *)
Definition untransformed (kwargs : gmap string pyval) : Prop :=
  flag kwargs "abs" false = false
  /\ flag kwargs "pos_only" false = false
  /\ flag kwargs "neg_only" false = false
  /\ flag kwargs "normalize" true = false.

(** The number a [fill_value] stands for when it is a [float] or an [int]
    (which includes [bool]). *)
Definition numeric_value (v : pyval) : option Q :=
  match v with
  | PyFloat q => Some q
  | PyInt z => Some (inject_Z z)
  | PyBool b => Some (inject_Z (Z.b2z b))
  | _ => None
  end.

(** The names [fill_dict] has entries for. *)
Definition fill_names : list string := ["random"; "uniform"; "black"; "white"].

(** Options for the constant control variant: a number, the name "BLACK"
    in capitals, and a name [fill_dict] does not have. *)
Definition constant_number : gmap string pyval :=
  <["explanation_func" := PyStr "Control Var. Constant"]>
  (<["fill_value" := PyInt 7]>
  (<["normalize" := PyBool false]> ∅)).
Definition constant_rounded : gmap string pyval :=
  <["explanation_func" := PyStr "Control Var. Constant"]>
  (<["fill_value" := PyInt 16777217]>
  (<["normalize" := PyBool false]> ∅)).
Definition constant_huge : gmap string pyval :=
  <["explanation_func" := PyStr "Control Var. Constant"]>
  (<["fill_value" := PyInt (2 ^ 64)]>
  (<["normalize" := PyBool false]> ∅)).
Definition constant_black : gmap string pyval :=
  <["explanation_func" := PyStr "Control Var. Constant"]>
  (<["fill_value" := PyStr "BLACK"]>
  (<["normalize" := PyBool false]> ∅)).
Definition constant_grey : gmap string pyval :=
  <["explanation_func" := PyStr "Control Var. Constant"]>
  (<["fill_value" := PyStr "grey"]> ∅).
Definition constant_none : gmap string pyval :=
  <["explanation_func" := PyStr "Control Var. Constant"]>
  (<["fill_value" := PyNone]> ∅).
Definition no_samples : tensor :=
  torch_Tensor {| shape := [0; 3; 2; 2]%nat; data := [] |}.
Definition two_pixels : tensor :=
  torch_Tensor {| shape := [1; 1; 1; 2]%nat; data := [(-3)%Q; 5%Q] |}.

(** Options for the post-processing: both clipping flags at once, and the
    "Gradient" method without transforms. *)
Definition both_clips : gmap string pyval :=
  <["pos_only" := PyBool true]>
  (<["neg_only" := PyBool true]>
  (<["normalize" := PyBool false]> ∅)).
Definition positive_only : gmap string pyval :=
  <["pos_only" := PyBool true]> (<["normalize" := PyBool false]> ∅).

(* ===================================================================== *)
(** ** quantus/helpers/pytorch_model.py: the random layer generator *)
(* ===================================================================== *)

Module RandomLayers.

(** An entry of [model.named_modules()]: the name of a submodule and
    whether it has a [reset_parameters] method. *)
Record named_module : Type := mk_named_module {
  module_name : string;
  has_reset_parameters : bool
}.

(** [self.state_dict()]. *)
Definition get_state_dict (self : PyTorchModel.PyTorchModel)
  : M (list (string * ndarray)) :=
  fun w => (w, Ok (state_dict (net w))).

(** [m.load_state_dict(p)] for parameters [p] taken from a module of the
    same architecture: the values are copied in, the mode is kept. *)
Definition load_state_dict (m : Module) (p : list (string * ndarray))
  : Module :=
  {| training := training m; state_dict := p |}.

Section Generator.

(** The listing [named_modules()] gives, for the wrapped module and for
    its deep copy alike. *)
Variable named_modules : list named_module.
(** [reset_parameters()] of the submodule of that name, as it acts on the
    parameters of the module the submodule belongs to. *)
Variable reset_parameters :
  string -> list (string * ndarray) -> list (string * ndarray).

Definition reset (name : string) (m : Module) : Module :=
  {| training := training m;
     state_dict := reset_parameters name (state_dict m) |}.

(** The generator object [get_random_layer_generator(order)] returns.  Its
    body has not started, or is suspended at the [yield] with the modules
    still to come, or has run to its end.  [random_layer_model] is one
    object throughout: every [yield] hands out a reference to it. *)
Inductive generator : Type :=
| Created (order : string)
| Suspended (order : string) (original_parameters : list (string * ndarray))
            (random_layer_model : Module) (modules : list named_module)
| Finished (random_layer_model : Module).

(** One round of [for module in modules:], up to the [yield]. *)
Definition resume (order : string)
           (original_parameters : list (string * ndarray))
           (random_layer_model : Module) (modules : list named_module)
  : option string * generator :=
  match modules with
  | [] => (None, Finished random_layer_model)
  | module :: rest =>
      let random_layer_model :=
        if String.eqb order "independent"
        then load_state_dict random_layer_model original_parameters
        else random_layer_model in
      let random_layer_model :=
        reset (module_name module) random_layer_model in
      (Some (module_name module),
       Suspended order original_parameters random_layer_model rest)
  end.

(** [next(generator)]: the name yielded, or [None] when the generator is
    exhausted.  The first call runs the body from its start: it reads the
    parameters, copies the model and lists the modules. *)
Definition next (g : generator) (w : world) : option string * generator :=
  match g with
  | Created order =>
      let original_parameters := state_dict (net w) in
      let random_layer_model := net w in
      let modules := List.filter has_reset_parameters named_modules in
      let modules :=
        if String.eqb order "top_down" then rev modules else modules in
      resume order original_parameters random_layer_model modules
  | Suspended order original_parameters random_layer_model modules =>
      resume order original_parameters random_layer_model modules
  | Finished random_layer_model => (None, Finished random_layer_model)
  end.

(** What the object handed out by the yields holds at present. *)
Definition yielded_model (g : generator) : option Module :=
  match g with
  | Created _ => None
  | Suspended _ _ random_layer_model _ => Some random_layer_model
  | Finished random_layer_model => Some random_layer_model
  end.

(** [for name, model in generator:] with a body that looks at the model at
    once: the names, each with the model as it is at that yield. *)
Fixpoint iterate (fuel : nat) (g : generator) (w : world)
  : list (string * Module) :=
  match fuel with
  | O => []
  | S fuel' =>
      match next g w with
      | (Some name, g') =>
          match yielded_model g' with
          | Some m => (name, m) :: iterate fuel' g' w
          | None => []
          end
      | (None, _) => []
      end
  end.

(** The generator after such a loop. *)
Fixpoint exhaust (fuel : nat) (g : generator) (w : world) : generator :=
  match fuel with
  | O => g
  | S fuel' =>
      match next g w with
      | (Some _, g') => exhaust fuel' g' w
      | (None, g') => g'
      end
  end.

(** The modules the body lists, in the order it visits them. *)
Definition visited (order : string) : list named_module :=
  let modules := List.filter has_reset_parameters named_modules in
  if String.eqb order "top_down" then rev modules else modules.

(** The rounds of the loop still to come from a suspended generator: the
    name of each and the model as that round leaves it. *)
Fixpoint rounds (order : string) (original : list (string * ndarray))
         (m : Module) (modules : list named_module)
  : list (string * Module) :=
  match modules with
  | [] => []
  | module :: rest =>
      let m' :=
        reset (module_name module)
              (if String.eqb order "independent"
               then load_state_dict m original else m) in
      (module_name module, m') :: rounds order original m' rest
  end.

End Generator.

(** Resetting one module after the other, each on top of the last. *)
Fixpoint cascade
         (reset_parameters :
            string -> list (string * ndarray) -> list (string * ndarray))
         (m : Module) (names : list string) : list (string * Module) :=
  match names with
  | [] => []
  | name :: rest =>
      let m' := reset reset_parameters name m in
      (name, m') :: cascade reset_parameters m' rest
  end.

End RandomLayers.

(** A small architecture: two of its four modules can be reset; a reset
    puts zeros in the parameters stored under the module's name. *)
Definition small_architecture : list RandomLayers.named_module :=
  [RandomLayers.mk_named_module "" false;
   RandomLayers.mk_named_module "conv" true;
   RandomLayers.mk_named_module "relu" false;
   RandomLayers.mk_named_module "fc" true].
Definition zero_reset (name : string) (p : list (string * ndarray))
  : list (string * ndarray) :=
  map (fun kv => if String.eqb (fst kv) name
                 then (fst kv, map_values (fun _ => 0%Q) (snd kv))
                 else kv) p.
Definition small_world : world :=
  {| net := {| training := false;
               state_dict := [("conv", pixel); ("fc", pixel)] |};
     grad_enabled := true |}.

(* ===================================================================== *)
(** ** tests/metrics/test_localisation_metrics.py: the mosaic fixture *)
(* ===================================================================== *)

Module Fixture.

Definition shape_eqb (s1 s2 : list nat) : bool :=
  if decide (s1 = s2) then true else false.

(** [np.concatenate((a, b), axis)]: the arrays must have the same number
    of axes and agree on all of them but [axis]; in row-major order the
    result takes, for every index of the axes before [axis], the block of
    [a] and then the block of [b]. *)
Definition concatenate (a b : ndarray) (axis : nat) : result ndarray :=
  let sa := shape a in
  let sb := shape b in
  if (length sa <=? axis)%nat then
    Raise (ValueError "axis is out of bounds for array")
  else if negb (shape_eqb (take axis sa) (take axis sb)
                && shape_eqb (drop (S axis) sa) (drop (S axis) sb)) then
    Raise (ValueError
             "all the input array dimensions except for the concatenation axis must match exactly")
  else
    let outer := numel (take axis sa) in
    Ok {| shape := take axis sa
                   ++ (nth axis sa 0 + nth axis sb 0)%nat :: drop (S axis) sa;
          data := concat (zip_with app
                            (chunk outer (numel (drop axis sa)) (data a))
                            (chunk outer (numel (drop axis sb)) (data b))) |}.

(** [images[i]]. *)
Definition image (images : list ndarray) (i : nat) : result ndarray :=
  match images !! i with
  | Some a => Ok a
  | None => Raise (IndexError "list index out of range")
  end.

(** The body of the loop of [load_artificial_attribution]. *)
Definition mosaic_of (images : list ndarray) (indices : nat * nat * nat * nat)
  : result ndarray :=
  let '(i0, i1, i2, i3) := indices in
  rbind (image images i0) (fun a0 =>
  rbind (image images i1) (fun a1 =>
  rbind (concatenate a0 a1 1) (fun first_row =>
  rbind (image images i2) (fun a2 =>
  rbind (image images i3) (fun a3 =>
  rbind (concatenate a2 a3 1) (fun second_row =>
  concatenate first_row second_row 2)))))).

Definition constant_image (v : Q) : ndarray :=
  {| shape := [1; 28; 28]%nat; data := repeat v (28 * 28) |}.

Definition indices_list : list (nat * nat * nat * nat) :=
  [(0, 0, 1, 1); (1, 1, 0, 0); (0, 1, 0, 1); (1, 0, 1, 0)]%nat.

Fixpoint collect {A} (l : list (result A)) : result (list A) :=
  match l with
  | [] => Ok []
  | r :: rest =>
      rbind r (fun a => rbind (collect rest) (fun l' => Ok (a :: l')))
  end.

(** [load_artificial_attribution()]: the four mosaics, in order. *)
Definition load_artificial_attribution : result (list ndarray) :=
  let zeros := constant_image 0 in
  let ones := constant_image 1 in
  let images := [zeros; ones] in
  collect (map (mosaic_of images) indices_list).

End Fixture.

(** Four tiles of two by one values, to exercise the mosaic layout. *)
Definition tile (u v : Q) : ndarray :=
  {| shape := [1; 2; 1]%nat; data := [u; v] |}.
Definition four_tiles : list ndarray :=
  [tile 1 2; tile 3 4; tile 5 6; tile 7 8].

(** Options for the Sobel control variant on images of two by two values,
    and a batch that takes part in autograd. *)
Definition tracked_batch : tensor :=
  {| values := batch_2x3x2x2; requires_grad := true |}.

(** The plane the Sobel control variant computes for sample [i]: the
    output of the filter, clipped to [0, 1] and averaged over the
    channels. *)
Definition sobel_plane (sobel : ndarray -> ndarray) (inputs : tensor)
           (i : nat) : list Q :=
  match mean_axis0 (clip 0 1 (sobel (values (index0 inputs i)))) with
  | Ok m => data m
  | Raise _ => []
  end.

(* ===================================================================== *)
(** * Properties *)
(* ===================================================================== *)

(** ** The wrapper: [predict] and [shape_input] *)

Section PredictFacts.

Variable to_ : tensor -> pyval -> result tensor.
Variable forward : Module -> bool -> tensor -> result tensor.
Variable Softmax : tensor -> result tensor.
Variable on_cpu : tensor -> bool.

Lemma set_grad_restore (w : world) (b : bool) :
  set_grad (grad_enabled w) (set_grad b w) = w.
Proof. destruct w; reflexivity. Qed.

(** What [predict] computes once the mode check has passed. *)
Lemma predict_eval_mode self x softmax_act kwargs w :
  training (net w) = false ->
  predict to_ forward Softmax on_cpu self x softmax_act kwargs w =
  (w, forward_outcome to_ forward Softmax on_cpu (net w)
        (if truthy (kwargs_get kwargs "grad" (PyBool false))
         then false else grad_enabled w)
        x softmax_act (kwargs_get kwargs "device" PyNone)).
Proof.
  intros Hmode.
  unfold predict, forward_outcome, bind, model_training. rewrite Hmode.
  unfold call_model, host_numpy, lift, ret, numpy, cpu, detach.
  destruct (truthy (kwargs_get kwargs "grad" (PyBool false))); cbn;
    (destruct (to_ _ _) as [input|e]; cbn;
     [|rewrite ?set_grad_restore; reflexivity]);
    (destruct (forward _ _ input) as [raw|e]; cbn;
     [|rewrite ?set_grad_restore; reflexivity]);
    (destruct softmax_act; cbn;
     [destruct (Softmax raw) as [pred|e]; cbn;
      [|rewrite ?set_grad_restore; reflexivity]|]);
    match goal with
    | |- context [requires_grad ?p] =>
        destruct (requires_grad p) eqn:Hg; cbn; rewrite ?Hg;
        [|destruct (on_cpu p); cbn; rewrite ?Hg];
        rewrite ?set_grad_restore; reflexivity
    end.
Qed.

Lemma predict_training_mode self x softmax_act kwargs w :
  training (net w) = true ->
  predict to_ forward Softmax on_cpu self x softmax_act kwargs w =
  (w, Raise (AttributeError training_msg)).
Proof.
  intros Hmode. unfold predict, bind, model_training. rewrite Hmode.
  reflexivity.
Qed.

(** [predict] leaves the module and the autograd switch as it found them,
    also when one of its library calls raises. *)
Lemma predict_frame self x softmax_act kwargs w :
  fst (predict to_ forward Softmax on_cpu self x softmax_act kwargs w) = w.
Proof.
  destruct (training (net w)) eqn:Hmode.
  - rewrite predict_training_mode by assumption. reflexivity.
  - rewrite predict_eval_mode by assumption. reflexivity.
Qed.

End PredictFacts.

(** C4, as amended.  In training mode [predict] raises the mode error
    before any library call, whatever those calls would do.  In evaluation
    mode it proceeds, and its result is that of the transfer, the forward
    pass, the optional softmax and the conversion to numpy: the scores, or
    the exception of the first of them that raises.  So [predict] fails
    exactly when the model is in training mode or one of these calls
    raises, and in evaluation mode with all of them succeeding it returns
    the scores. *)
Theorem predict_fails_iff_training_or_call_raises
        (to_ : tensor -> pyval -> result tensor)
        (forward : Module -> bool -> tensor -> result tensor)
        (Softmax : tensor -> result tensor) (on_cpu : tensor -> bool)
        (self : PyTorchModel) (x : ndarray)
        (softmax_act : bool) (kwargs : gmap string pyval) (w : world) :
  let outcome :=
    predict to_ forward Softmax on_cpu self x softmax_act kwargs w in
  let seen := if truthy (kwargs_get kwargs "grad" (PyBool false))
              then false else grad_enabled w in
  let calls :=
    forward_outcome to_ forward Softmax on_cpu (net w) seen x softmax_act
                    (kwargs_get kwargs "device" PyNone) in
  (training (net w) = true ->
   outcome = (w, Raise (AttributeError training_msg)))
  /\ (training (net w) = false -> outcome = (w, calls))
  /\ ((exists e, snd outcome = Raise e)
      <-> training (net w) = true \/ exists e, calls = Raise e)
  /\ (training (net w) = false ->
      forall input raw pred,
        to_ (torch_Tensor x) (kwargs_get kwargs "device" PyNone) = Ok input ->
        forward (net w) seen input = Ok raw ->
        (if softmax_act then Softmax raw else Ok raw) = Ok pred ->
        requires_grad pred = true \/ on_cpu pred = true ->
        snd outcome = Ok (values pred)).
Proof.
  intros outcome seen calls. subst outcome calls seen.
  destruct (training (net w)) eqn:Hmode.
  - rewrite predict_training_mode by assumption. cbn.
    split; [reflexivity|]. split; [discriminate|]. split.
    + split; [intros _; left; reflexivity|].
      intros _. eexists. reflexivity.
    + discriminate.
  - rewrite predict_eval_mode by assumption. cbn [fst snd].
    split; [discriminate|]. split; [reflexivity|]. split.
    + split; [intros H; right; exact H|].
      intros [H|H]; [discriminate|exact H].
    + intros _ input raw pred Hin Hraw Hpred Hhost.
      unfold forward_outcome. rewrite Hin. cbn. rewrite Hraw. cbn.
      rewrite Hpred. cbn.
      destruct (requires_grad pred); [reflexivity|].
      destruct Hhost as [Hhost|Hhost]; [discriminate|].
      rewrite Hhost. reflexivity.
Qed.

Lemma predict_fails_iff_training_or_call_raises_witness :
  (training (net train_world) = true
   /\ predict id_to strict_forward id_softmax always_on_cpu
              wrapper five false ∅ train_world
      = (train_world, Raise (AttributeError training_msg)))
  /\ (training (net eval_world) = false
      /\ snd (predict id_to strict_forward id_softmax always_on_cpu
                      wrapper pixel false ∅ eval_world)
         = Ok pixel).
Proof.
  split.
  - split; [reflexivity|].
    apply (proj1 (predict_fails_iff_training_or_call_raises
                    id_to strict_forward id_softmax always_on_cpu
                    wrapper five false ∅ train_world)).
    reflexivity.
  - split; [reflexivity|].
    apply (proj2 (proj2 (proj2
             (predict_fails_iff_training_or_call_raises
                id_to strict_forward id_softmax always_on_cpu
                wrapper pixel false ∅ eval_world)))
             eq_refl (torch_Tensor pixel) (torch_Tensor pixel)
             (torch_Tensor pixel));
      first [reflexivity | right; reflexivity].
Defined.

(** C4 fails as stated: with the model in evaluation mode, a forward pass
    that rejects its input makes [predict] fail, so a failure does not tell
    that the model is in training mode. *)
Lemma predict_fails_in_evaluation_mode :
  training (net eval_world) = false
  /\ snd (predict id_to strict_forward id_softmax always_on_cpu
                  wrapper five false ∅ eval_world)
     = Raise (RuntimeError "mat1 and mat2 shapes cannot be multiplied")
  /\ ~ ((exists e, snd (predict id_to strict_forward id_softmax always_on_cpu
                                wrapper five false ∅ eval_world) = Raise e)
        <-> training (net eval_world) = true).
Proof.
  split; [reflexivity|]. split; [reflexivity|].
  intros [H _].
  assert (Habs : training (net eval_world) = true).
  { apply H. eexists. reflexivity. }
  discriminate Habs.
Qed.

(** C10.  In [predict] the forward pass runs with autograd switched off
    exactly when the caller's [grad] option is true; under the default
    [grad=False] the context suppresses nothing and the forward pass sees
    the autograd setting in force at the call.  The returned scores are the
    softmax of the raw outputs exactly when [softmax_act] is true. *)
Theorem predict_grad_context_inverted
        (to_ : tensor -> pyval -> result tensor)
        (forward : Module -> bool -> tensor -> result tensor)
        (Softmax : tensor -> result tensor) (on_cpu : tensor -> bool)
        (self : PyTorchModel) (x : ndarray)
        (softmax_act : bool) (kwargs : gmap string pyval) (w : world) :
  training (net w) = false ->
  let scores (seen : bool) :=
    rbind (to_ (torch_Tensor x) (kwargs_get kwargs "device" PyNone))
      (fun input =>
    rbind (forward (net w) seen input) (fun raw =>
    rbind (if softmax_act then Softmax raw else Ok raw) (fun pred =>
    if requires_grad pred then Ok (values pred)
    else host_numpy on_cpu pred))) in
  let outcome :=
    snd (predict to_ forward Softmax on_cpu self x softmax_act kwargs w) in
  let seen := if truthy (kwargs_get kwargs "grad" (PyBool false))
              then false else grad_enabled w in
  outcome = scores seen
  /\ (grad_enabled w = true ->
      seen = false <-> truthy (kwargs_get kwargs "grad" (PyBool false)) = true)
  /\ (kwargs !! "grad" = Some (PyBool true) -> outcome = scores false)
  /\ (kwargs !! "grad" = Some (PyBool false) \/ kwargs !! "grad" = None ->
      outcome = scores (grad_enabled w))
  /\ (forall input raw pred,
        to_ (torch_Tensor x) (kwargs_get kwargs "device" PyNone) = Ok input ->
        forward (net w) seen input = Ok raw ->
        (if softmax_act then Softmax raw else Ok raw) = Ok pred ->
        requires_grad pred = true \/ on_cpu pred = true ->
        outcome = Ok (values pred)).
Proof.
  intros Hmode scores outcome seen. subst outcome seen.
  rewrite predict_eval_mode by assumption. cbn [snd].
  assert (Hsc : forall seen,
             forward_outcome to_ forward Softmax on_cpu (net w) seen x
                             softmax_act (kwargs_get kwargs "device" PyNone)
             = scores seen).
  { intros seen. subst scores. unfold forward_outcome, host_numpy, numpy.
    destruct (to_ _ _) as [input|e]; cbn; [|reflexivity].
    destruct (forward _ _ input) as [raw|e]; cbn; [|reflexivity].
    destruct (if softmax_act then Softmax raw else Ok raw) as [pred|e]; cbn;
      [|reflexivity].
    destruct (requires_grad pred) eqn:Hg; [reflexivity|].
    destruct (on_cpu pred); reflexivity. }
  rewrite Hsc.
  split; [reflexivity|]. split; [|split; [|split]].
  - intros ->. destruct (truthy _); split; congruence.
  - intros Hk. unfold kwargs_get at 1. rewrite Hk. reflexivity.
  - intros Hk. unfold kwargs_get at 1.
    destruct Hk as [Hk|Hk]; rewrite Hk; reflexivity.
  - intros input raw pred Hin Hraw Hpred Hhost.
    subst scores. cbn beta. rewrite Hin. cbn. rewrite Hraw. cbn.
    rewrite Hpred. cbn. unfold host_numpy, numpy.
    destruct (requires_grad pred) eqn:Hg; [reflexivity|].
    destruct Hhost as [Hhost|Hhost]; [discriminate|].
    rewrite Hhost. reflexivity.
Qed.

Lemma predict_grad_context_inverted_witness :
  snd (predict id_to probe_forward id_softmax always_on_cpu wrapper pixel
               false {[ "grad" := PyBool true ]} eval_world)
  = Ok {| shape := [1%nat]; data := [0%Q] |}
  /\ snd (predict id_to probe_forward id_softmax always_on_cpu wrapper pixel
                  false ∅ eval_world)
     = Ok {| shape := [1%nat]; data := [1%Q] |}.
Proof.
  split.
  - apply (proj1 (proj2 (proj2 (predict_grad_context_inverted
                                  id_to probe_forward id_softmax
                                  always_on_cpu wrapper pixel false
                                  {[ "grad" := PyBool true ]} eval_world
                                  eq_refl))));
      reflexivity.
  - apply (proj1 (proj2 (proj2 (proj2 (predict_grad_context_inverted
                                  id_to probe_forward id_softmax
                                  always_on_cpu wrapper pixel false
                                  ∅ eval_world eq_refl))))).
    right. reflexivity.
Defined.

(** The dimensions [(1, c, s, s)] that [shape_input] asks for, when [c] and
    [s] are not negative: numpy accepts them exactly when they account for
    the values and the bytes of the result fit. *)
Lemma np_reshape_image_ok (item : Z) (x : ndarray) (c s : Z) :
  (0 <= c)%Z -> (0 <= s)%Z -> (1 <= item)%Z ->
  Z.of_nat (numel (shape x)) = (c * s * s)%Z ->
  (item * nonzero c * nonzero s * nonzero s <= NPY_MAX_INTP)%Z ->
  np_reshape item [1%Z; c; s; s] x
  = Ok {| shape := [1%nat; Z.to_nat c; Z.to_nat s; Z.to_nat s];
          data := data x |}.
Proof.
  intros Hc Hs Hitem Hn Hfit.
  assert (Hmax : NPY_MAX_INTP = 9223372036854775807%Z) by reflexivity.
  assert (Hmin : NPY_MIN_INTP = (-9223372036854775808)%Z) by reflexivity.
  assert (Hzc : (1 <= nonzero c)%Z /\ (c <= nonzero c)%Z)
    by (unfold nonzero; destruct (Z.eqb_spec c 0); lia).
  assert (Hzs : (1 <= nonzero s)%Z /\ (s <= nonzero s)%Z)
    by (unfold nonzero; destruct (Z.eqb_spec s 0); lia).
  assert (Hcs : (c * s <= nonzero c * nonzero s)%Z) by nia.
  assert (Hcss : (c * s * s <= nonzero c * nonzero s * nonzero s)%Z) by nia.
  assert (Hb1 : (nonzero c <= nonzero c * nonzero s)%Z) by nia.
  assert (Hb2 : (nonzero c * nonzero s
                 <= nonzero c * nonzero s * nonzero s)%Z) by nia.
  assert (Hb3 : (nonzero c * nonzero s * nonzero s
                 <= item * nonzero c * nonzero s * nonzero s)%Z) by nia.
  assert (Hs1 : (nonzero s <= nonzero c * nonzero s)%Z) by nia.
  unfold np_reshape. cbn [existsb].
  replace ((1 <? NPY_MIN_INTP)%Z || (NPY_MAX_INTP <? 1)%Z) with false
    by reflexivity.
  replace ((c <? NPY_MIN_INTP)%Z || (NPY_MAX_INTP <? c)%Z) with false
    by (symmetry; apply orb_false_intro; lia).
  replace ((s <? NPY_MIN_INTP)%Z || (NPY_MAX_INTP <? s)%Z) with false
    by (symmetry; apply orb_false_intro; lia).
  cbn [orb].
  unfold fix_unknown_dimension. cbn [fix_unknown_loop].
  change (1 <? 0)%Z with false. cbv iota.
  replace (c <? 0)%Z with false by lia.
  replace (s <? 0)%Z with false by lia.
  unfold mul_sizes.
  change (1 * 1)%Z with 1%Z. change (1 <=? NPY_MAX_INTP)%Z with true.
  cbv iota.
  replace (1 * c <=? NPY_MAX_INTP)%Z with true by lia.
  replace (1 * c * s <=? NPY_MAX_INTP)%Z with true by lia.
  replace (1 * c * s * s <=? NPY_MAX_INTP)%Z with true by lia.
  cbn [rbind fst snd].
  replace (Z.of_nat (numel (shape x)) =? 1 * c * s * s)%Z with true by lia.
  cbn [rbind check_nbytes map]. unfold mul_sizes.
  change (1 =? 0)%Z with false. cbv iota.
  replace (item * 1 <=? NPY_MAX_INTP)%Z with true by lia.
  unfold nonzero in *.
  destruct (Z.eqb_spec c 0) as [->|Hc0]; destruct (Z.eqb_spec s 0) as [->|Hs0];
    change (0 =? 0)%Z with true; cbv iota;
    repeat match goal with
           | |- context [(?a <=? NPY_MAX_INTP)%Z] =>
               replace (a <=? NPY_MAX_INTP)%Z with true by nia
           end;
    reflexivity.
Qed.

(** The ways in which numpy accepts the dimensions [(1, c, s, s)]: with
    [c] not negative they account for the values; a negative [c], whatever
    its value, is inferred from them.  A negative [s] is never accepted. *)
Lemma np_reshape_image_inv (item : Z) (x r : ndarray) (c s : Z) :
  np_reshape item [1%Z; c; s; s] x = Ok r ->
  let n := Z.of_nat (numel (shape x)) in
  (0 <= s)%Z /\ data r = data x
  /\ ((0 <= c)%Z /\ n = (c * s * s)%Z
      /\ (item * nonzero c * nonzero s * nonzero s <= NPY_MAX_INTP)%Z
      /\ shape r = [1%nat; Z.to_nat c; Z.to_nat s; Z.to_nat s]
      \/ (c < 0)%Z /\ (0 < s)%Z /\ (n mod (s * s) = 0)%Z
         /\ shape r = [1%nat; Z.to_nat (n / (s * s)); Z.to_nat s; Z.to_nat s]).
Proof.
  intros Hr n.
  assert (Hmax : NPY_MAX_INTP = 9223372036854775807%Z) by reflexivity.
  unfold np_reshape in Hr.
  destruct (existsb _ _); [discriminate|].
  unfold fix_unknown_dimension in Hr. cbn [fix_unknown_loop] in Hr.
  change (1 <? 0)%Z with false in Hr. cbv iota in Hr.
  unfold mul_sizes in Hr.
  change (1 * 1)%Z with 1%Z in Hr.
  change (1 <=? NPY_MAX_INTP)%Z with true in Hr. cbv iota in Hr.
  fold n in Hr.
  destruct (Z.ltb_spec c 0) as [Hc|Hc]; destruct (Z.ltb_spec s 0) as [Hs|Hs];
    try discriminate.
  - (* the channel dimension is inferred *)
    destruct (Z.leb_spec (1 * s) NPY_MAX_INTP) as [H1|]; [|discriminate].
    destruct (Z.leb_spec (1 * s * s) NPY_MAX_INTP) as [H2|]; [|discriminate].
    cbn [rbind fst snd] in Hr.
    replace (1 * s * s)%Z with (s * s)%Z in Hr by lia.
    destruct (Z.eqb_spec (s * s) 0) as [|Hp]; [discriminate|].
    destruct (Z.eqb_spec (n mod (s * s)) 0) as [Hmod|]; [|discriminate].
    cbn [orb negb map] in Hr.
    change (1 <? 0)%Z with false in Hr.
    replace (c <? 0)%Z with true in Hr by lia.
    replace (s <? 0)%Z with false in Hr by lia.
    cbn [rbind] in Hr.
    destruct (check_nbytes _ _); [|discriminate].
    cbn [rbind] in Hr. injection Hr as <-. cbn [shape data map].
    split; [exact Hs|]. split; [reflexivity|]. right.
    repeat split; try assumption; try reflexivity. nia.
  - (* a negative size is met twice *)
    destruct (1 * c <=? NPY_MAX_INTP)%Z; discriminate.
  - (* all four dimensions are given *)
    destruct (Z.leb_spec (1 * c) NPY_MAX_INTP) as [H1|]; [|discriminate].
    destruct (Z.leb_spec (1 * c * s) NPY_MAX_INTP) as [H2|]; [|discriminate].
    destruct (Z.leb_spec (1 * c * s * s) NPY_MAX_INTP) as [H3|];
      [|discriminate].
    cbn [rbind fst snd] in Hr.
    destruct (Z.eqb_spec n (1 * c * s * s)) as [Hn|]; [|discriminate].
    assert (Hb := Hr). cbn [rbind check_nbytes] in Hb. unfold mul_sizes in Hb.
    change (1 =? 0)%Z with false in Hb. cbv iota in Hb.
    assert (Hfit : (item * nonzero c * nonzero s * nonzero s
                    <= NPY_MAX_INTP)%Z).
    { unfold nonzero.
      destruct (Z.leb_spec (item * 1) NPY_MAX_INTP); [|discriminate].
      destruct (Z.eqb_spec c 0) as [Hc0|Hc0];
        destruct (Z.eqb_spec s 0) as [Hs0|Hs0];
        repeat match type of Hb with
               | context [(?a <=? NPY_MAX_INTP)%Z] =>
                   destruct (Z.leb_spec a NPY_MAX_INTP); [|discriminate]
               end; lia. }
    assert (Hshape : shape r = [1%nat; Z.to_nat c; Z.to_nat s; Z.to_nat s]
                     /\ data r = data x).
    { cbn [rbind] in Hr.
      destruct (check_nbytes _ _); [|discriminate].
      cbn [rbind] in Hr. injection Hr as <-. split; reflexivity. }
    destruct Hshape as [Hshape Hdata].
    split; [exact Hs|]. split; [exact Hdata|]. left.
    repeat split; try assumption. lia.
Qed.

(** A failed numpy reshape is a [ValueError]. *)
Lemma np_reshape_error item dims x e :
  np_reshape item dims x = Raise e -> exists msg, e = ValueError msg.
Proof.
  assert (Hloop : forall ds u k e',
             fix_unknown_loop ds u k = Raise e' ->
             exists msg, e' = ValueError msg).
  { induction ds as [|d ds IH]; intros u k e'; cbn [fix_unknown_loop].
    - discriminate.
    - destruct (d <? 0)%Z.
      + destruct u; [intros [= <-]; eexists; reflexivity | apply IH].
      + destruct (mul_sizes k d); [apply IH|].
        intros [= <-]. eexists. reflexivity. }
  assert (Hbytes : forall ds b e',
             check_nbytes ds b = Raise e' ->
             exists msg, e' = ValueError msg).
  { induction ds as [|d ds IH]; intros b e'; cbn [check_nbytes].
    - discriminate.
    - destruct (d =? 0)%Z; [apply IH|].
      destruct (mul_sizes b d); [apply IH|].
      intros [= <-]. eexists. reflexivity. }
  unfold np_reshape, fix_unknown_dimension.
  destruct (existsb _ _); [intros [= <-]; eexists; reflexivity|].
  destruct (fix_unknown_loop _ _ _) as [[u k]|e'] eqn:Hl; cbn [rbind fst snd].
  - destruct u.
    + destruct (_ || _)%bool; cbn [rbind].
      * intros [= <-]. eexists. reflexivity.
      * destruct (check_nbytes _ _) eqn:Hb; cbn [rbind]; [discriminate|].
        intros [= <-]. eapply Hbytes, Hb.
    + destruct (_ =? _)%Z; cbn [rbind].
      * destruct (check_nbytes _ _) eqn:Hb; cbn [rbind]; [discriminate|].
        intros [= <-]. eapply Hbytes, Hb.
      * intros [= <-]. eexists. reflexivity.
  - intros [= <-]. eapply Hloop, Hl.
Qed.

Lemma shape_input_channel_last itemsize self x img_size nr_channels w :
  channel_first self = false ->
  exists msg,
    shape_input itemsize self x img_size nr_channels w
    = (w, Raise (ValueError msg)).
Proof.
  intros Hcf. unfold shape_input, bind, lift.
  destruct (np_reshape _ _ x) as [x'|e] eqn:Hr.
  - rewrite Hcf. eexists. reflexivity.
  - destruct (np_reshape_error _ _ _ _ Hr) as [msg ->]. eexists. reflexivity.
Qed.

(** C9, as amended.  [shape_input] raises a [ValueError] on every input when
    the wrapper was built with [channel_first] false.  With [channel_first]
    true and non-negative sizes it returns the input reshaped to
    [(1, nr_channels, img_size, img_size)] when the input holds exactly
    [nr_channels * img_size * img_size] values and the bytes of the result,
    counted by numpy over the dimensions that are not zero, do not exceed
    [NPY_MAX_INTP]; it raises the reshape's [ValueError] when the input
    holds any other number of values or the bytes exceed that bound. *)
Theorem shape_input_reshapes_or_raises
        (itemsize : ndarray -> Z)
        (self : PyTorchModel) (x : ndarray) (img_size nr_channels : Z)
        (w : world) :
  let nbytes := (itemsize x * nonzero nr_channels
                 * nonzero img_size * nonzero img_size)%Z in
  (channel_first self = false ->
   exists msg,
     shape_input itemsize self x img_size nr_channels w
     = (w, Raise (ValueError msg)))
  /\ ((0 <= img_size)%Z -> (0 <= nr_channels)%Z -> (1 <= itemsize x)%Z ->
      channel_first self = true ->
      Z.of_nat (numel (shape x)) = (nr_channels * img_size * img_size)%Z ->
      (nbytes <= NPY_MAX_INTP)%Z ->
      shape_input itemsize self x img_size nr_channels w =
      (w, Ok {| shape := [1%nat; Z.to_nat nr_channels;
                          Z.to_nat img_size; Z.to_nat img_size];
                data := data x |}))
  /\ ((0 <= img_size)%Z -> (0 <= nr_channels)%Z ->
      Z.of_nat (numel (shape x)) <> (nr_channels * img_size * img_size)%Z
      \/ (NPY_MAX_INTP < nbytes)%Z ->
      exists msg,
        shape_input itemsize self x img_size nr_channels w
        = (w, Raise (ValueError msg))).
Proof.
  intros nbytes. subst nbytes.
  split; [apply shape_input_channel_last|]. split.
  - intros Hs Hc Hitem Hcf Hn Hfit.
    unfold shape_input, bind, lift.
    rewrite np_reshape_image_ok by assumption.
    rewrite Hcf. reflexivity.
  - intros Hs Hc Hbad.
    unfold shape_input, bind, lift.
    destruct (np_reshape _ _ x) as [r|e] eqn:Hr.
    + apply np_reshape_image_inv in Hr.
      destruct Hr as (_ & _ & [(_ & Hn & Hfit & _) | (Hneg & _)]); lia.
    + destruct (np_reshape_error _ _ _ _ Hr) as [msg ->].
      eexists. reflexivity.
Qed.

Lemma shape_input_reshapes_or_raises_witness :
  (exists msg,
     shape_input float64_itemsize wrapper_last eight 2 2 eval_world
     = (eval_world, Raise (ValueError msg)))
  /\ shape_input float64_itemsize wrapper eight 2 2 eval_world
     = (eval_world,
        Ok {| shape := [1%nat; 2%nat; 2%nat; 2%nat]; data := data eight |})
  /\ (exists msg,
        shape_input float64_itemsize wrapper five 2 1 eval_world
        = (eval_world, Raise (ValueError msg)))
  /\ (exists msg,
        shape_input float64_itemsize wrapper no_values (2 ^ 31) 0 eval_world
        = (eval_world, Raise (ValueError msg))).
Proof.
  split; [|split; [|split]].
  - apply (proj1 (shape_input_reshapes_or_raises
                    float64_itemsize wrapper_last eight 2 2 eval_world)).
    reflexivity.
  - apply (proj1 (proj2 (shape_input_reshapes_or_raises
                           float64_itemsize wrapper eight 2 2 eval_world)));
      first [reflexivity | lia | discriminate].
  - apply (proj2 (proj2 (shape_input_reshapes_or_raises
                           float64_itemsize wrapper five 2 1 eval_world)));
      [lia | lia | left; discriminate].
  - apply (proj2 (proj2 (shape_input_reshapes_or_raises
                           float64_itemsize wrapper no_values (2 ^ 31) 0
                           eval_world)));
      [lia | lia | right; reflexivity].
Defined.

(** C9 fails as stated: the wrapper is channel-first, yet an input of five
    values is not returned reshaped to [(1, 1, 2, 2)]; the call raises. *)
Lemma shape_input_channel_first_raises :
  channel_first wrapper = true
  /\ shape_input float64_itemsize wrapper five 2 1 eval_world
     = (eval_world,
        Raise (ValueError "cannot reshape array into the requested shape")).
Proof. split; reflexivity. Qed.

(** ** The explanation function *)

Section ExplainFacts.

Variable attribute : captum -> Module -> tensor -> tensor -> result tensor.
Variable sobel : ndarray -> ndarray.
Variable cv2_resize : ndarray -> pyval -> pyval -> result ndarray.
Variable normalize_heatmap : tensor -> result array.
Variable random_random : Q.
Variable random_uniform_draw : Q.

Let explain_from' :=
  explain_from attribute sobel cv2_resize normalize_heatmap
               random_random random_uniform_draw.

Lemma kwargs_in_None key (kwargs : gmap string pyval) :
  kwargs !! key = None -> kwargs_in key kwargs = false.
Proof. unfold kwargs_in. intros ->. reflexivity. Qed.

Lemma kwargs_in_Some key (kwargs : gmap string pyval) v :
  kwargs !! key = Some v -> kwargs_in key kwargs = true.
Proof. unfold kwargs_in. intros ->. reflexivity. Qed.

(** Without the key the assertion fails at once. *)
Lemma explain_from_missing_key dflt inputs targets kwargs w :
  kwargs !! "explanation_func" = None ->
  explain_from' dflt inputs targets kwargs w
  = (w, Raise (AssertionError assert_msg_explanation_func)).
Proof.
  intros Hk. unfold explain_from', explain_from, explanation_of, bind.
  rewrite (kwargs_in_None _ _ Hk). reflexivity.
Qed.

(** With the key present the default of the lookup is never consulted. *)
Lemma explain_from_default_irrelevant d1 d2 inputs targets kwargs w :
  kwargs !! "explanation_func" <> None ->
  explain_from' d1 inputs targets kwargs w
  = explain_from' d2 inputs targets kwargs w.
Proof.
  intros Hk. unfold explain_from', explain_from, explanation_of, kwargs_get.
  destruct (kwargs !! "explanation_func") as [v|] eqn:Hv; [|congruence].
  reflexivity.
Qed.

(** The only change [explain] makes to the world is [model.eval()], and it
    makes it exactly when the assertion passes. *)
Lemma explain_from_world dflt inputs targets kwargs w :
  fst (explain_from' dflt inputs targets kwargs w)
  = if kwargs_in "explanation_func" kwargs
    then set_net (eval (net w)) w else w.
Proof.
  unfold explain_from', explain_from, explanation_of, bind, model_eval, lift.
  destruct (kwargs_in "explanation_func" kwargs); cbn; [|reflexivity].
  destruct (convert_inputs inputs kwargs) as [t|e]; cbn; [|reflexivity].
  destruct (explain_method _ _ _ _ _ _ _ _ _ _ _) as [a|e]; cbn;
    reflexivity.
Qed.

End ExplainFacts.

(** C8.  A call of [explain] whose options lack the key "explanation_func"
    fails with the assertion error before anything is computed or changed;
    so the fallback "Gradient" of the following lookup is never used:
    whatever default the lookup is given, every call behaves the same. *)
Theorem explain_requires_explanation_func
        (attribute : captum -> Module -> tensor -> tensor -> result tensor)
        (sobel : ndarray -> ndarray)
        (cv2_resize : ndarray -> pyval -> pyval -> result ndarray)
        (normalize_heatmap : tensor -> result array)
        (random_random random_uniform_draw : Q)
        (inputs targets : array) (kwargs : gmap string pyval) (w : world) :
  (kwargs !! "explanation_func" = None ->
   explain attribute sobel cv2_resize normalize_heatmap
           random_random random_uniform_draw inputs targets kwargs w
   = (w, Raise (AssertionError assert_msg_explanation_func)))
  /\ (forall dflt : pyval,
        explain_from attribute sobel cv2_resize normalize_heatmap
                     random_random random_uniform_draw
                     dflt inputs targets kwargs w
        = explain attribute sobel cv2_resize normalize_heatmap
                  random_random random_uniform_draw inputs targets kwargs w).
Proof.
  split.
  - intros Hk. apply explain_from_missing_key. assumption.
  - intros dflt. unfold explain.
    destruct (kwargs !! "explanation_func") as [v|] eqn:Hv.
    + apply explain_from_default_irrelevant. congruence.
    + rewrite !explain_from_missing_key by assumption. reflexivity.
Qed.

Lemma explain_requires_explanation_func_witness :
  explain stub_attribute stub_sobel stub_resize stub_normalize 0 0
          (NdArray batch_2x3x2x2) (NdArray targets_2) ∅ train_world
  = (train_world, Raise (AssertionError assert_msg_explanation_func)).
Proof.
  apply (proj1 (explain_requires_explanation_func
                  stub_attribute stub_sobel stub_resize stub_normalize 0 0
                  (NdArray batch_2x3x2x2) (NdArray targets_2) ∅
                  train_world)).
  reflexivity.
Defined.

(** C1, at a failing input.  For a batch of two three-channel 2x2 images
    and the method "Control Var. Constant", [explain] returns a map that
    still has the channel axis: its shape is [(2, 3, 2, 2)], the shape of
    the inputs, and not the channel-collapsed [(2, 2, 2)]. *)
Theorem explain_constant_keeps_channel_axis
        (attribute : captum -> Module -> tensor -> tensor -> result tensor)
        (sobel : ndarray -> ndarray)
        (cv2_resize : ndarray -> pyval -> pyval -> result ndarray)
        (normalize_heatmap : tensor -> result array)
        (random_random random_uniform_draw : Q) (w : world) :
  exists a : ndarray,
    snd (explain attribute sobel cv2_resize normalize_heatmap
                 random_random random_uniform_draw
                 (NdArray batch_2x3x2x2) (NdArray targets_2)
                 constant_kwargs w)
    = Ok a
    /\ shape a = [2; 3; 2; 2]%nat
    /\ shape a <> [2; 2; 2]%nat.
Proof.
  eexists. split; [|split].
  - vm_compute. reflexivity.
  - reflexivity.
  - discriminate.
Qed.

(** C3 fails as stated: handed a model in training mode, [explain] does not
    fail fast; it succeeds and has switched the model to evaluation mode. *)
Lemma explain_switches_training_model :
  training (net train_world) = true
  /\ forall (attribute : captum -> Module -> tensor -> tensor -> result tensor)
            (sobel : ndarray -> ndarray)
            (cv2_resize : ndarray -> pyval -> pyval -> result ndarray)
            (normalize_heatmap : tensor -> result array)
            (random_random random_uniform_draw : Q),
      let run := explain attribute sobel cv2_resize normalize_heatmap
                         random_random random_uniform_draw
                         (NdArray batch_2x3x2x2) (NdArray targets_2)
                         constant_kwargs train_world in
      is_ok (snd run) = true
      /\ training (net (fst run)) = false
      /\ fst run <> train_world.
Proof.
  split; [reflexivity|]. intros. subst run.
  split; [|split].
  - vm_compute. reflexivity.
  - vm_compute. reflexivity.
  - vm_compute. discriminate.
Qed.

(** C3, as amended.  [predict] never changes the model or the autograd
    switch, and fails fast when the model is in training mode.  [explain]
    does not require evaluation mode: when its "explanation_func" assertion
    passes it switches the model to evaluation mode itself and changes
    nothing else; when the assertion fails it changes nothing. *)
Theorem model_mode_effects
        (to_ : tensor -> pyval -> result tensor)
        (forward : Module -> bool -> tensor -> result tensor)
        (Softmax : tensor -> result tensor) (on_cpu : tensor -> bool)
        (attribute : captum -> Module -> tensor -> tensor -> result tensor)
        (sobel : ndarray -> ndarray)
        (cv2_resize : ndarray -> pyval -> pyval -> result ndarray)
        (normalize_heatmap : tensor -> result array)
        (random_random random_uniform_draw : Q)
        (self : PyTorchModel) (x : ndarray) (softmax_act : bool)
        (inputs targets : array) (kwargs : gmap string pyval) (w : world) :
  let after_predict :=
    predict to_ forward Softmax on_cpu self x softmax_act kwargs w in
  let after_explain :=
    explain attribute sobel cv2_resize normalize_heatmap
            random_random random_uniform_draw inputs targets kwargs w in
  fst after_predict = w
  /\ (training (net w) = true ->
      snd after_predict = Raise (AttributeError training_msg))
  /\ fst after_explain
     = (if kwargs_in "explanation_func" kwargs
        then {| net := {| training := false;
                          state_dict := state_dict (net w) |};
                grad_enabled := grad_enabled w |}
        else w).
Proof.
  cbv zeta. split; [|split].
  - apply predict_frame.
  - intros Hmode. rewrite predict_training_mode by assumption. reflexivity.
  - unfold explain. rewrite explain_from_world. reflexivity.
Qed.

Lemma model_mode_effects_witness :
  snd (predict id_to id_forward id_softmax always_on_cpu wrapper pixel
               false ∅ train_world)
  = Raise (AttributeError training_msg).
Proof.
  apply (proj1 (proj2 (model_mode_effects
                         id_to id_forward id_softmax always_on_cpu
                         stub_attribute stub_sobel stub_resize stub_normalize
                         0 0 wrapper pixel false
                         (NdArray batch_2x3x2x2) (NdArray targets_2) ∅
                         train_world))).
  reflexivity.
Defined.

(** ** The value transforms of [explain] *)

Lemma tmap_tmap (f g : Q -> Q) (t : tensor) :
  tmap f (tmap g t) = tmap (fun x => f (g x)) t.
Proof.
  unfold tmap, map_values. cbn. rewrite map_map. reflexivity.
Qed.

Lemma tmap_id (t : tensor) : tmap (fun x => x) t = t.
Proof.
  destruct t as [[sh d] g]. unfold tmap, map_values. cbn.
  rewrite map_id. reflexivity.
Qed.

(** The value transforms, fused into one pass over the values. *)
Lemma postprocess_fused
      (normalize_heatmap : tensor -> result array)
      (kwargs : gmap string pyval) (explanation : tensor) :
  let flag (key : string) (dflt : bool) :=
    truthy (kwargs_get kwargs key (PyBool dflt)) in
  let absolute (x : Q) := if flag "abs" false then Qabs x else x in
  let positive (x : Q) :=
    if flag "pos_only" false
    then (if Qlt_le_dec x 0 then 0%Q else x) else x in
  let negative (x : Q) :=
    if flag "neg_only" false
    then (if Qlt_le_dec 0 x then 0%Q else x) else x in
  let clipped :=
    tmap (fun x => negative (positive (absolute x))) explanation in
  postprocess normalize_heatmap kwargs explanation
  = rbind (if flag "normalize" true
           then normalize_heatmap clipped
           else Ok (TorchTensor clipped))
          to_ndarray.
Proof.
  cbv zeta.
  unfold postprocess, apply_normalize, apply_neg_only, apply_pos_only,
    apply_abs, zero_positives, zero_negatives, tabs.
  destruct (truthy (kwargs_get kwargs "abs" (PyBool false)));
    destruct (truthy (kwargs_get kwargs "pos_only" (PyBool false)));
    destruct (truthy (kwargs_get kwargs "neg_only" (PyBool false)));
    rewrite ?tmap_tmap, ?tmap_id; try reflexivity.
  all: rewrite <- (tmap_id explanation) at 1; reflexivity.
Qed.

(** C5.  Whatever explanation the method chain of [explain] produced, the
    value transforms reach each of its values in the fixed order absolute
    value, zeroing of negatives, zeroing of positives, each only if its
    option is set; the normalisation, unless switched off, is handed the
    values so transformed, and its result is what [explain] returns. *)
Theorem explain_transform_order
        (attribute : captum -> Module -> tensor -> tensor -> result tensor)
        (sobel : ndarray -> ndarray)
        (cv2_resize : ndarray -> pyval -> pyval -> result ndarray)
        (normalize_heatmap : tensor -> result array)
        (random_random random_uniform_draw : Q)
        (inputs targets : array) (kwargs : gmap string pyval) (w : world) :
  let flag (key : string) (dflt : bool) :=
    truthy (kwargs_get kwargs key (PyBool dflt)) in
  let absolute (x : Q) := if flag "abs" false then Qabs x else x in
  let positive (x : Q) :=
    if flag "pos_only" false
    then (if Qlt_le_dec x 0 then 0%Q else x) else x in
  let negative (x : Q) :=
    if flag "neg_only" false
    then (if Qlt_le_dec 0 x then 0%Q else x) else x in
  let clipped (explanation : tensor) :=
    tmap (fun x => negative (positive (absolute x))) explanation in
  explain attribute sobel cv2_resize normalize_heatmap
          random_random random_uniform_draw inputs targets kwargs w
  = match explanation_of attribute sobel cv2_resize
                         random_random random_uniform_draw
                         (PyStr "Gradient") inputs targets kwargs w with
    | (w', Ok explanation) =>
        (w', rbind (if flag "normalize" true
                    then normalize_heatmap (clipped explanation)
                    else Ok (TorchTensor (clipped explanation)))
                   to_ndarray)
    | (w', Raise e) => (w', Raise e)
    end.
Proof.
  cbv zeta. unfold explain, explain_from, bind.
  destruct (explanation_of _ _ _ _ _ _ _ _ _ _) as [w' [explanation|e]];
    [|reflexivity].
  unfold lift. rewrite postprocess_fused. reflexivity.
Qed.

Lemma explain_method_gradient
      (attribute : captum -> Module -> tensor -> tensor -> result tensor)
      (sobel : ndarray -> ndarray)
      (cv2_resize : ndarray -> pyval -> pyval -> result ndarray)
      (random_random random_uniform_draw : Q)
      (model : Module) (inputs targets explanation : tensor)
      (kwargs : gmap string pyval) :
  explain_method attribute sobel cv2_resize random_random random_uniform_draw
                 model (PyStr "Gradient") inputs targets explanation kwargs
  = rbind (attribute (Saliency false) model inputs targets) tsum_axis1.
Proof. reflexivity. Qed.

(** The sibling branches do collapse the channel axis: when captum hands
    back attributions shaped like the inputs, the "Gradient" method returns
    a map without the channel axis. *)
Lemma explain_gradient_collapses_channel
      (attribute : captum -> Module -> tensor -> tensor -> result tensor)
      (sobel : ndarray -> ndarray)
      (cv2_resize : ndarray -> pyval -> pyval -> result ndarray)
      (normalize_heatmap : tensor -> result array)
      (random_random random_uniform_draw : Q)
      (t : tensor) (targets : array) (kwargs : gmap string pyval)
      (w : world) (g : tensor) (n c : nat) (rest : list nat) :
  kwargs !! "explanation_func" = Some (PyStr "Gradient") ->
  kwargs !! "normalize" = Some (PyBool false) ->
  attribute (Saliency false) (eval (net w)) t
            (convert_targets targets kwargs) = Ok g ->
  shape (values g) = n :: c :: rest ->
  exists a : ndarray,
    snd (explain attribute sobel cv2_resize normalize_heatmap
                 random_random random_uniform_draw
                 (TorchTensor t) targets kwargs w)
    = Ok a
    /\ shape a = n :: rest.
Proof.
  intros Hfunc Hnorm Hattr Hshape.
  unfold explain, explain_from, explanation_of, bind, model_eval, lift.
  rewrite (kwargs_in_Some _ _ _ Hfunc).
  replace (kwargs_get kwargs "explanation_func" (PyStr "Gradient"))
    with (PyStr "Gradient") by (unfold kwargs_get; rewrite Hfunc; reflexivity).
  cbn [negb convert_inputs net set_net].
  rewrite explain_method_gradient, Hattr. cbn [rbind].
  unfold tsum_axis1, sum_axis1. rewrite Hshape. cbn [rbind fst snd].
  rewrite postprocess_fused. cbv zeta.
  replace (kwargs_get kwargs "normalize" (PyBool true))
    with (PyBool false) by (unfold kwargs_get; rewrite Hnorm; reflexivity).
  cbn [truthy rbind to_ndarray].
  match goal with
  | |- context [requires_grad ?x] => destruct (requires_grad x) eqn:Hg
  end; unfold numpy, cpu, detach; cbn [requires_grad values]; rewrite ?Hg;
    eexists; (split; [reflexivity|]); reflexivity.
Qed.

(** The Sobel control variant writes its channel-averaged planes back into
    a buffer shaped like the inputs, so the channel axis survives there
    too. *)
Lemma explain_sobel_keeps_channel_axis :
  exists a : ndarray,
    snd (explain stub_attribute stub_sobel stub_resize stub_normalize 0 0
                 (NdArray batch_2x3x2x2) (NdArray targets_2)
                 sobel_kwargs eval_world)
    = Ok a
    /\ shape a = [2; 3; 2; 2]%nat.
Proof. eexists. split; [vm_compute|]; reflexivity. Qed.

(** ** Top-K Intersection *)

Import TopKIntersection.

Lemma insert_ranked_perm p l : Permutation (insert_ranked p l) (p :: l).
Proof.
  induction l as [|q l IH]; cbn.
  - reflexivity.
  - destruct (ranks_before p q).
    + reflexivity.
    + rewrite IH. apply perm_swap.
Qed.

Lemma ranking_perm (values : list Q) :
  Permutation (ranking values) (combine (seq 0 (length values)) values).
Proof.
  unfold ranking.
  induction (combine (seq 0 (length values)) values) as [|p l IH]; cbn.
  - reflexivity.
  - rewrite insert_ranked_perm. apply perm_skip. exact IH.
Qed.

Lemma map_fst_combine_same {A B} (l : list A) (k : list B) :
  length l = length k -> map fst (combine l k) = l.
Proof.
  revert k. induction l as [|a l IH]; intros [|b k] Hlen; cbn in *;
    try reflexivity; try discriminate.
  f_equal. apply IH. lia.
Qed.

(** Ranking a whole map lists every pixel index once. *)
Lemma ranking_indices (values : list Q) :
  Permutation (map fst (ranking values)) (seq 0 (length values)).
Proof.
  rewrite (Permutation_map fst (ranking_perm values)).
  rewrite map_fst_combine_same by (rewrite length_seq; reflexivity).
  reflexivity.
Qed.

Lemma top_k_indices_all (values : list Q) :
  Permutation (top_k_indices values (length values))
              (seq 0 (length values)).
Proof.
  unfold top_k_indices. rewrite Nat.min_id.
  rewrite take_ge.
  - apply ranking_indices.
  - rewrite (Permutation_length (ranking_indices values)), length_seq. lia.
Qed.

Lemma filter_length_perm {A} (f : A -> bool) (l l' : list A) :
  Permutation l l' ->
  length (List.filter f l) = length (List.filter f l').
Proof.
  induction 1 as [|x l l' _ IH|x y l|l l' l'' _ IH1 _ IH2]; cbn.
  - reflexivity.
  - destruct (f x); cbn; lia.
  - destruct (f x), (f y); reflexivity.
  - lia.
Qed.

Lemma filter_seq_shift (f : nat -> bool) (s n : nat) :
  length (List.filter f (seq (S s) n))
  = length (List.filter (fun i => f (S i)) (seq s n)).
Proof.
  revert s. induction n as [|n IH]; intros s; cbn.
  - reflexivity.
  - destruct (f (S s)); cbn; rewrite IH; reflexivity.
Qed.

(** Counting the mask entries that are set, by index or by value. *)
Lemma region_membership_all (mask : list bool) :
  region_membership (seq 0 (length mask)) mask = mask_size mask.
Proof.
  unfold region_membership, mask_size.
  induction mask as [|b mask IH].
  - reflexivity.
  - change (seq 0 (length (b :: mask))) with (0%nat :: seq 1 (length mask)).
    cbn [List.filter nth].
    pose proof (filter_seq_shift (fun i => nth i (b :: mask) false)
                                 0 (length mask)) as Hshift.
    cbn [nth] in Hshift.
    destruct b; cbn [length]; rewrite Hshift, IH; reflexivity.
Qed.

Lemma mask_size_le (mask : list bool) : (mask_size mask <= length mask)%nat.
Proof.
  unfold mask_size.
  induction mask as [|b mask IH]; cbn; [lia|].
  destruct b; cbn; lia.
Qed.

Lemma ratio_one (a b : nat) : b <> 0%nat -> (ratio a b == 1)%Q <-> a = b.
Proof.
  intros Hb. unfold ratio.
  assert (Hnz : ~ (inject_Z (Z.of_nat b) == 0)%Q).
  { change 0%Q with (inject_Z 0). rewrite inject_Z_injective. lia. }
  split.
  - intros H.
    assert (H' : (inject_Z (Z.of_nat a) == inject_Z (Z.of_nat b))%Q).
    { rewrite <- (Qmult_div_r (inject_Z (Z.of_nat a)) _ Hnz).
      rewrite H. ring. }
    apply Nat2Z.inj, inject_Z_injective. exact H'.
  - intros ->. field. exact Hnz.
Qed.

(** C2, as amended.  On a sample whose mask is not empty, Top-K
    Intersection with [k] equal to the pixel count returns the density of
    the mask, the number of mask pixels divided by the pixel count; that
    score is 1.0 exactly when every pixel lies in the mask. *)
Theorem top_k_full_image_is_mask_density
        (attr : list Q) (mask : list bool) :
  length mask = length attr ->
  mask_size mask <> 0%nat ->
  (top_k_intersection attr mask (length attr)
   == ratio (mask_size mask) (length attr))%Q
  /\ ((top_k_intersection attr mask (length attr) == 1)%Q
      <-> mask_size mask = length mask).
Proof.
  intros Hlen Hmask.
  assert (Hscore : top_k_intersection attr mask (length attr)
                   = ratio (mask_size mask) (length attr)).
  { unfold top_k_intersection. rewrite Nat.min_id.
    destruct (Nat.eqb_spec (mask_size mask) 0) as [|_]; [contradiction|].
    f_equal. unfold region_membership.
    rewrite (filter_length_perm _ _ _ (top_k_indices_all attr)).
    rewrite <- Hlen. apply region_membership_all. }
  rewrite Hscore. split; [reflexivity|].
  rewrite <- Hlen. apply ratio_one.
  pose proof (mask_size_le mask). lia.
Qed.

Lemma top_k_full_image_is_mask_density_witness :
  (top_k_intersection [1%Q; 2%Q] [true; false] 2 == ratio 1 2)%Q.
Proof.
  apply (top_k_full_image_is_mask_density [1%Q; 2%Q] [true; false]).
  - reflexivity.
  - discriminate.
Defined.

(** On the fixture of the tests the model gives the expected 0.5 for
    [k = 200]; with [k] the pixel count it gives the mask density 100/224. *)
Example top_k_fixture_200 :
  (top_k_intersection fixture_attr fixture_mask 200 == 1 # 2)%Q.
Proof. vm_compute. reflexivity. Qed.

Example top_k_fixture_all :
  (top_k_intersection fixture_attr fixture_mask 224 == 100 # 224)%Q.
Proof. vm_compute. reflexivity. Qed.

(** C2 fails as stated: the mask of this two-pixel sample is not empty and
    [k] is the pixel count, yet the score is one half, not 1.0. *)
Lemma top_k_full_image_not_one :
  length [true; false] = length [1%Q; 2%Q]
  /\ mask_size [true; false] <> 0%nat
  /\ (top_k_intersection [1%Q; 2%Q] [true; false] 2 == 1 # 2)%Q
  /\ ~ (top_k_intersection [1%Q; 2%Q] [true; false] 2 == 1)%Q.
Proof.
  split; [reflexivity|]. split; [discriminate|].
  split; [reflexivity|]. discriminate.
Qed.

(** ** Focus *)

Import Focus.
Open Scope list_scope.

Section FocusFacts.

Variable explain_func :
  option (list ndarray -> list Z -> result (list ndarray)).

Lemma prepare_missing_mosaics c b :
  x_batch b = None \/ x_batch b = Some [] ->
  exists msg, prepare explain_func c b = Raise (ValueError msg).
Proof.
  unfold prepare. intros [-> | ->]; eexists; reflexivity.
Qed.

(** A successful preparation hands back the flags of the call and one
    attribution map per mosaic; supplied attributions are only
    transformed. *)
Lemma prepare_ok c b a p :
  prepare explain_func c b = Ok (a, p) ->
  p_batch b = Some p
  /\ length a = batch_size b /\ length p = batch_size b
  /\ (forall a0, a_batch b = Some a0 -> a = map (transform c) a0).
Proof.
  unfold prepare, batch_size.
  destruct (x_batch b) as [[|x0 x]|]; try discriminate.
  destruct (y_batch b) as [y|]; try discriminate.
  destruct (p_batch b) as [p'|]; try discriminate.
  destruct (Nat.eqb_spec (length y) (length (x0 :: x))) as [Hy|];
    try discriminate.
  destruct (Nat.eqb_spec (length p') (length (x0 :: x))) as [Hp|];
    try discriminate.
  cbn [andb negb].
  destruct (a_batch b) as [a0|].
  - cbn [rbind].
    destruct (Nat.eqb_spec (length a0) (length (x0 :: x))) as [Ha|];
      try discriminate.
    cbn [negb]. intros [= <- <-]. rewrite length_map.
    repeat split; try assumption. intros a1 [= <-]. reflexivity.
  - destruct (match explain_func with
              | Some f => f (x0 :: x) y
              | None => Raise (MissingModel "no attributions")
              end) as [a0|e]; try discriminate.
    cbn [rbind].
    destruct (Nat.eqb_spec (length a0) (length (x0 :: x))) as [Ha|];
      try discriminate.
    cbn [negb]. intros [= <- <-]. rewrite length_map.
    repeat split; try assumption. discriminate.
Qed.

Lemma prepare_lengths c b a p :
  prepare explain_func c b = Ok (a, p) ->
  length a = batch_size b /\ length p = batch_size b.
Proof.
  intros H. destruct (prepare_ok _ _ _ _ H) as (_ & Ha & Hp & _).
  split; assumption.
Qed.

(** The scores of a successful call are those of its samples, in order. *)
Lemma call_scores_scored c b scores :
  call_scores explain_func c b = Ok scores ->
  scored explain_func c b scores.
Proof.
  unfold call_scores, scored.
  destruct (prepare explain_func c b) as [[a p]|e] eqn:Hprep;
    try discriminate.
  cbn. intros [= <-].
  destruct (prepare_ok _ _ _ _ Hprep) as (Hflags & Ha & Hp & Hgiven).
  exists a, p. repeat split; try assumption.
  rewrite length_zip_with. lia.
Qed.

Lemma call_scores_length c b scores :
  call_scores explain_func c b = Ok scores ->
  length scores = batch_size b.
Proof.
  unfold call_scores.
  destruct (prepare explain_func c b) as [[a p]|e] eqn:Hprep;
    try discriminate.
  cbn. intros [= <-].
  destruct (prepare_lengths _ _ _ _ Hprep) as [Ha Hp].
  rewrite length_zip_with. lia.
Qed.

(** One call: the instance keeps its configuration, and its results grow by
    the scores of the call, or not at all when the call fails. *)
Lemma evaluate_step m b :
  params (fst (evaluate explain_func m b)) = params m
  /\ match snd (evaluate explain_func m b) with
     | Ok _ =>
         exists scores,
           call_scores explain_func (params m) b = Ok scores
           /\ last_results (fst (evaluate explain_func m b))
              = last_results m ++ scores
     | Raise _ => fst (evaluate explain_func m b) = m
     end.
Proof.
  unfold evaluate.
  destruct (call_scores explain_func (params m) b) as [scores|e]; cbn.
  - split; [reflexivity|]. exists scores. split; reflexivity.
  - split; reflexivity.
Qed.

Lemma evaluate_all_accumulates calls : forall m m',
  evaluate_all explain_func m calls = (m', Ok tt) ->
  params m' = params m
  /\ exists per_call : list (list Q),
       Forall2 (scored explain_func (params m)) calls per_call
       /\ last_results m' = last_results m ++ concat per_call.
Proof.
  induction calls as [|b calls IH]; intros m m' Hrun; cbn in Hrun.
  - injection Hrun as <-. split; [reflexivity|].
    exists []. split; [constructor|]. cbn. rewrite app_nil_r. reflexivity.
  - pose proof (evaluate_step m b) as [Hpar Hstep].
    destruct (evaluate explain_func m b) as [m1 [v|e]]; cbn in *;
      [|discriminate].
    destruct Hstep as (scores & Hscores & Hres).
    destruct (IH _ _ Hrun) as (Hpar' & per_call & Hall & Hres').
    split; [congruence|].
    exists (scores :: per_call). split.
    + constructor.
      * apply call_scores_scored. assumption.
      * rewrite Hpar in Hall. exact Hall.
    + rewrite Hres', Hres. cbn. rewrite app_assoc. reflexivity.
Qed.

(** Results are never taken away, whether calls succeed or fail. *)
Lemma evaluate_all_extends calls : forall m,
  exists added,
    last_results (fst (evaluate_all explain_func m calls))
    = last_results m ++ added.
Proof.
  induction calls as [|b calls IH]; intros m; cbn.
  - exists []. rewrite app_nil_r. reflexivity.
  - pose proof (evaluate_step m b) as [_ Hstep].
    destruct (evaluate explain_func m b) as [m1 [v|e]]; cbn in *.
    + destruct Hstep as (scores & _ & Hres).
      destruct (IH m1) as [added Hadded].
      exists (scores ++ added). rewrite Hadded, Hres, app_assoc.
      reflexivity.
    + subst m1. exists []. rewrite app_nil_r. reflexivity.
Qed.

End FocusFacts.

(** C6.  A call of the Focus metric whose mosaic batch is absent or empty
    fails with a [ValueError]; no score, and no sentinel score either, is
    returned or recorded. *)
Theorem focus_rejects_missing_mosaics
        (explain_func : option (list ndarray -> list Z
                                -> result (list ndarray)))
        (m : Focus) (b : batch) :
  x_batch b = None \/ x_batch b = Some [] ->
  exists msg, evaluate explain_func m b = (m, Raise (ValueError msg)).
Proof.
  intros Hx. unfold evaluate, call_scores.
  destruct (prepare_missing_mosaics explain_func (params m) b Hx)
    as [msg ->].
  exists msg. reflexivity.
Qed.

Lemma focus_rejects_missing_mosaics_witness :
  exists msg,
    evaluate None (new plain_config) absent_batch
    = (new plain_config, Raise (ValueError msg)).
Proof.
  apply (focus_rejects_missing_mosaics None (new plain_config) absent_batch).
  left. reflexivity.
Defined.

(** C7.  Over any sequence of successful mini-batch calls on one Focus
    instance the accumulated results only grow: every call appends its
    scores, one per sample of the call and in input order, so that after
    the last call the accumulated sequence is the earlier results followed
    by one score per sample of the whole batch, in batch order.  Nothing is
    ever taken away, also when a call fails. *)
Theorem focus_results_accumulate
        (explain_func : option (list ndarray -> list Z
                                -> result (list ndarray)))
        (m : Focus) (calls : list batch) :
  (forall m' : Focus,
     evaluate_all explain_func m calls = (m', Ok tt) ->
     exists per_call : list (list Q),
       Forall2 (scored explain_func (params m)) calls per_call
       /\ last_results m' = last_results m ++ concat per_call
       /\ length (last_results m')
          = (length (last_results m)
             + fold_right Nat.add 0 (map batch_size calls))%nat)
  /\ (exists added : list Q,
        last_results (fst (evaluate_all explain_func m calls))
        = last_results m ++ added).
Proof.
  split; [|apply evaluate_all_extends].
  intros m' Hrun.
  destruct (evaluate_all_accumulates explain_func calls m m' Hrun)
    as (_ & per_call & Hall & Hres).
  exists per_call. split; [exact Hall|]. split; [exact Hres|].
  rewrite Hres, length_app. f_equal.
  clear Hres Hrun.
  induction Hall as [|b s calls' per' (a & p & _ & _ & _ & Hlen & _) _ IH];
    cbn.
  - reflexivity.
  - rewrite length_app, Hlen, IH. reflexivity.
Qed.

Lemma focus_results_accumulate_witness :
  length (last_results
            (fst (evaluate_all None (new plain_config) artificial_calls)))
  = 3%nat.
Proof.
  destruct (proj1 (focus_results_accumulate
                     None (new plain_config) artificial_calls)
                  (fst (evaluate_all None (new plain_config)
                                     artificial_calls))
                  eq_refl)
    as (per_call & _ & _ & Hlen).
  exact Hlen.
Defined.

(** The loop of [test_focus] over a batch with supplied attributions: every
    call succeeds, and afterwards the instance holds the earlier results
    followed by the score of every sample of the batch, in batch order. *)
Lemma minibatches_from_total
      (explain_func : option (list ndarray -> list Z
                              -> result (list ndarray)))
      (n : nat) :
  (0 < n)%nat ->
  forall fuel x y a p m,
    (length p <= fuel)%nat ->
    length x = length p -> length y = length p -> length a = length p ->
    evaluate_all explain_func m (minibatches_from fuel n x y a p)
    = ({| params := params m;
          last_results :=
            last_results m
            ++ zip_with focus_score (map (transform (params m)) a) p |},
       Ok tt).
Proof.
  intros Hn. induction fuel as [|fuel IH]; intros x y a p m Hfuel Hx Hy Ha.
  - destruct p; [|cbn in Hfuel; lia].
    cbn. rewrite zip_with_nil_r, app_nil_r. destruct m; reflexivity.
  - destruct p as [|p0 p].
    { cbn. rewrite zip_with_nil_r, app_nil_r. destruct m; reflexivity. }
    cbn [minibatches_from evaluate_all].
    set (ps := p0 :: p) in *.
    assert (Hstep :
      evaluate explain_func m
        {| x_batch := Some (take n x); y_batch := Some (take n y);
           a_batch := Some (take n a); p_batch := Some (take n ps) |}
      = ({| params := params m;
            last_results :=
              last_results m
              ++ zip_with focus_score
                   (map (transform (params m)) (take n a)) (take n ps) |},
         Ok (if return_aggregate (params m)
             then Aggregate (mean (zip_with focus_score
                     (map (transform (params m)) (take n a)) (take n ps)))
             else Scores (zip_with focus_score
                     (map (transform (params m)) (take n a)) (take n ps))))).
    { unfold evaluate, call_scores, prepare. cbn [x_batch y_batch a_batch p_batch].
      destruct (take n x) as [|x0 x'] eqn:Htx.
      { apply (f_equal length) in Htx. rewrite length_take in Htx.
        subst ps. cbn in Hx, Htx. lia. }
      rewrite <- Htx.
      assert (H1 : (length (take n y) =? length (take n x))%nat = true).
      { apply Nat.eqb_eq. rewrite !length_take. lia. }
      assert (H2 : (length (take n ps) =? length (take n x))%nat = true).
      { apply Nat.eqb_eq. rewrite !length_take. lia. }
      assert (H3 : (length (take n a) =? length (take n x))%nat = true).
      { apply Nat.eqb_eq. rewrite !length_take. lia. }
      rewrite H1, H2. cbn [andb negb rbind]. rewrite H3. cbn [negb].
      reflexivity. }
    rewrite Hstep.
    rewrite IH.
    + cbn [params last_results]. f_equal. f_equal.
      rewrite <- app_assoc. f_equal.
      change (map (transform (params m))) with (fmap (M:=list) (transform (params m))).
      rewrite fmap_take, fmap_drop, <- zip_with_take, <- zip_with_drop.
      apply take_drop.
    + rewrite length_drop. subst ps. cbn in Hfuel |- *. lia.
    + rewrite !length_drop. lia.
    + rewrite !length_drop. lia.
    + rewrite !length_drop. lia.
Qed.

(** The test's run on a whole batch, from a new instance. *)
Lemma minibatches_total
      (explain_func : option (list ndarray -> list Z
                              -> result (list ndarray)))
      (c : config) (n : nat) x y a p :
  (0 < n)%nat ->
  length x = length p -> length y = length p -> length a = length p ->
  evaluate_all explain_func (new c) (minibatches n x y a p)
  = ({| params := c;
        last_results := zip_with focus_score (map (transform c) a) p |},
     Ok tt).
Proof.
  intros Hn Hx Hy Ha. unfold minibatches.
  rewrite minibatches_from_total by (assumption || lia). reflexivity.
Qed.

(** The two expectations of [test_focus] on the artificial attributions:
    flags that name the quadrants holding the attribution score 1, the
    complementary flags score 0. *)
Example focus_artificial_hits :
  Forall (fun s => (s == 1)%Q)
         (zip_with focus_score artificial_attributions artificial_flags).
Proof. repeat constructor. Qed.

Example focus_artificial_misses :
  Forall (fun s => (s == 0)%Q)
         (zip_with focus_score artificial_attributions
                   artificial_complement).
Proof. repeat constructor. Qed.

(* ===================================================================== *)
(** * Further properties of the code *)
(* ===================================================================== *)

(** ** [explain]: the method chain *)

Section ExplainChain.

Variable attribute : captum -> Module -> tensor -> tensor -> result tensor.
Variable sobel : ndarray -> ndarray.
Variable cv2_resize : ndarray -> pyval -> pyval -> result ndarray.
Variable normalize_heatmap : tensor -> result array.
Variable random_random : Q.
Variable random_uniform_draw : Q.

(** A call that passes the assertion: the model is switched, the inputs
    are converted, the chain runs and its result is post-processed. *)
Lemma explain_unfold inputs targets kwargs w v :
  kwargs !! "explanation_func" = Some v ->
  explain attribute sobel cv2_resize normalize_heatmap
          random_random random_uniform_draw inputs targets kwargs w
  = (set_net (eval (net w)) w,
     rbind (convert_inputs inputs kwargs) (fun t =>
     rbind (explain_method attribute sobel cv2_resize
                           random_random random_uniform_draw
                           (eval (net w)) v t
                           (convert_targets targets kwargs)
                           (zeros_like t) kwargs)
           (postprocess normalize_heatmap kwargs))).
Proof.
  intros Hv.
  unfold explain, explain_from, explanation_of, bind, model_eval, lift.
  rewrite (kwargs_in_Some _ _ _ Hv).
  replace (kwargs_get kwargs "explanation_func" (PyStr "Gradient"))
    with v by (unfold kwargs_get; rewrite Hv; reflexivity).
  cbn [negb].
  destruct (convert_inputs inputs kwargs) as [t|e]; cbn [rbind];
    [|reflexivity].
  cbn [net set_net].
  destruct (explain_method _ _ _ _ _ _ _ _ _ _ _) as [a|e]; reflexivity.
Qed.

Lemma str_eq_false v s : v <> PyStr s -> str_eq v s = false.
Proof.
  destruct v as [| | | |s'| |]; try reflexivity.
  intros Hne. cbn. apply String.eqb_neq. congruence.
Qed.

(** X1.  A method name outside the ten the chain compares against, be it
    only a different spelling or not a string at all, ends in the
    [KeyError] of the final [else]; by then the model has been switched to
    evaluation mode. *)
Theorem explain_unknown_method_raises
        (t : tensor) (targets : array) (kwargs : gmap string pyval)
        (w : world) (v : pyval) :
  kwargs !! "explanation_func" = Some v ->
  (forall s, In s supported_methods -> v <> PyStr s) ->
  explain attribute sobel cv2_resize normalize_heatmap
          random_random random_uniform_draw
          (TorchTensor t) targets kwargs w
  = ({| net := {| training := false; state_dict := state_dict (net w) |};
        grad_enabled := grad_enabled w |},
     Raise (KeyError "Specify a XAI method that exists.")).
Proof.
  intros Hv Hnew. rewrite (explain_unfold _ _ _ _ _ Hv).
  cbn [convert_inputs rbind]. unfold explain_method.
  rewrite !str_eq_false by (apply Hnew; cbn; tauto).
  reflexivity.
Qed.

Lemma explain_method_occlusion model inputs targets explanation kwargs :
  explain_method attribute sobel cv2_resize random_random random_uniform_draw
                 model (PyStr "Occlusion") inputs targets explanation kwargs
  = if negb (kwargs_in "sliding_window" kwargs) then
      Raise (AssertionError
        "Provide kwargs, 'oc_sliding_window' e.g., (4, 4) to compute an Occlusion explanation.")
    else
      rbind (kwargs_item kwargs "oc_sliding_window") (fun sw =>
      rbind (attribute (Occlusion sw) model inputs targets) tsum_axis1).
Proof. reflexivity. Qed.

(** X2.  The Occlusion branch asserts the key "sliding_window" but reads
    the key "oc_sliding_window".  Options with only the read key fail the
    assertion; options with only the asserted key fail with a [KeyError];
    with both present, captum is handed the value of "oc_sliding_window",
    and only then can the call return a map. *)
Theorem explain_occlusion_needs_both_keys
        (t : tensor) (targets : array) (kwargs : gmap string pyval)
        (w : world) :
  kwargs !! "explanation_func" = Some (PyStr "Occlusion") ->
  let run := explain attribute sobel cv2_resize normalize_heatmap
                     random_random random_uniform_draw
                     (TorchTensor t) targets kwargs w in
  (kwargs !! "sliding_window" = None ->
   exists msg, snd run = Raise (AssertionError msg))
  /\ (kwargs !! "sliding_window" <> None ->
      kwargs !! "oc_sliding_window" = None ->
      snd run = Raise (KeyError "oc_sliding_window"))
  /\ (forall a, snd run = Ok a ->
      kwargs !! "sliding_window" <> None
      /\ exists sw g,
           kwargs !! "oc_sliding_window" = Some sw
           /\ attribute (Occlusion sw) (eval (net w)) t
                        (convert_targets targets kwargs) = Ok g).
Proof.
  intros Hv run. subst run. rewrite (explain_unfold _ _ _ _ _ Hv).
  cbn [convert_inputs rbind snd]. rewrite explain_method_occlusion.
  unfold kwargs_in, kwargs_item.
  split; [|split].
  - intros ->. cbn. eexists. reflexivity.
  - intros Hsw ->. destruct (kwargs !! "sliding_window"); [|congruence].
    reflexivity.
  - intros a.
    destruct (kwargs !! "sliding_window") as [x|]; cbn [negb rbind];
      [|discriminate].
    destruct (kwargs !! "oc_sliding_window") as [sw|]; cbn [rbind];
      [|discriminate].
    destruct (attribute (Occlusion sw) _ _ _) as [g|e] eqn:Hg; cbn [rbind];
      [|discriminate].
    intros _. split; [congruence|]. exists sw, g. split; [reflexivity|].
    exact Hg.
Qed.

End ExplainChain.

Lemma explain_unknown_method_raises_witness :
  explain stub_attribute stub_sobel stub_resize stub_normalize 0 0
          (TorchTensor one_pixel) (NdArray targets_2) lowercase_kwargs
          train_world
  = (eval_world, Raise (KeyError "Specify a XAI method that exists.")).
Proof.
  apply (explain_unknown_method_raises
           stub_attribute stub_sobel stub_resize stub_normalize 0 0
           one_pixel (NdArray targets_2) lowercase_kwargs train_world
           (PyStr "gradient")).
  - reflexivity.
  - intros s Hs. cbn in Hs.
    repeat (destruct Hs as [<- | Hs]; [discriminate|]). contradiction.
Defined.

Lemma explain_occlusion_needs_both_keys_witness :
  (exists msg,
     snd (explain stub_attribute stub_sobel stub_resize stub_normalize 0 0
                  (TorchTensor one_pixel) (NdArray targets_2)
                  occlusion_read_key eval_world)
     = Raise (AssertionError msg))
  /\ snd (explain stub_attribute stub_sobel stub_resize stub_normalize 0 0
                  (TorchTensor one_pixel) (NdArray targets_2)
                  occlusion_checked_key eval_world)
     = Raise (KeyError "oc_sliding_window").
Proof.
  split.
  - apply (proj1 (explain_occlusion_needs_both_keys
                    stub_attribute stub_sobel stub_resize stub_normalize 0 0
                    one_pixel (NdArray targets_2) occlusion_read_key
                    eval_world eq_refl)).
    reflexivity.
  - apply (proj1 (proj2 (explain_occlusion_needs_both_keys
                    stub_attribute stub_sobel stub_resize stub_normalize 0 0
                    one_pixel (NdArray targets_2) occlusion_checked_key
                    eval_world eq_refl))).
    + discriminate.
    + reflexivity.
Defined.

(** ** [explain]: the constant control variant *)

Lemma to_ndarray_tensor (t : tensor) : to_ndarray (TorchTensor t) = Ok (values t).
Proof.
  unfold to_ndarray, numpy, cpu, detach.
  destruct (requires_grad t) eqn:Hg; cbn; rewrite ?Hg; reflexivity.
Qed.

(** With nothing requested, the post-processing only converts to numpy. *)
Lemma postprocess_untransformed
      (normalize_heatmap : tensor -> result array)
      (kwargs : gmap string pyval) (e : tensor) :
  untransformed kwargs ->
  postprocess normalize_heatmap kwargs e = Ok (values e).
Proof.
  unfold untransformed, flag. intros (Ha & Hp & Hn & Hz).
  rewrite postprocess_fused. cbv zeta. rewrite Ha, Hp, Hn, Hz.
  cbn [rbind]. rewrite tmap_id. apply to_ndarray_tensor.
Qed.

Lemma fold_min_zeros (l : list Q) :
  fold_left Qmin (map (fun _ => 0%Q) l) 0%Q = 0%Q.
Proof. induction l as [|x l IH]; cbn; [reflexivity | exact IH]. Qed.

Lemma fold_max_zeros (l : list Q) :
  fold_left Qmax (map (fun _ => 0%Q) l) 0%Q = 0%Q.
Proof. induction l as [|x l IH]; cbn; [reflexivity | exact IH]. Qed.

(** [explanation] is all zeros when the branch runs, so its minimum and
    maximum are 0, or undefined when the batch holds no value. *)
Lemma tmin_zeros_like (t : tensor) :
  tmin (zeros_like t)
  = match data (values t) with
    | [] => Raise (RuntimeError
                     "min(): Expected reduction dim to be specified")
    | _ :: _ => Ok 0%Q
    end.
Proof.
  unfold tmin, zeros_like, map_values. cbn.
  destruct (data (values t)) as [|x l]; cbn; [reflexivity|].
  rewrite fold_min_zeros. reflexivity.
Qed.

Lemma tmax_zeros_like (t : tensor) :
  tmax (zeros_like t)
  = match data (values t) with
    | [] => Raise (RuntimeError
                     "max(): Expected reduction dim to be specified")
    | _ :: _ => Ok 0%Q
    end.
Proof.
  unfold tmax, zeros_like, map_values. cbn.
  destruct (data (values t)) as [|x l]; cbn; [reflexivity|].
  rewrite fold_max_zeros. reflexivity.
Qed.

Section ExplainConstant.

Variable attribute : captum -> Module -> tensor -> tensor -> result tensor.
Variable sobel : ndarray -> ndarray.
Variable cv2_resize : ndarray -> pyval -> pyval -> result ndarray.
Variable normalize_heatmap : tensor -> result array.
Variable random_random : Q.
Variable random_uniform_draw : Q.

Lemma explain_method_constant model inputs targets explanation kwargs :
  explain_method attribute sobel cv2_resize random_random random_uniform_draw
                 model (PyStr "Control Var. Constant")
                 inputs targets explanation kwargs
  = if negb (kwargs_in "fill_value" kwargs) then
      Raise (AssertionError
        "Specify a 'fill_value' e.g., 0.0 or 'black' for pixel replacement.")
    else
      rbind (fill_value_of random_random random_uniform_draw
                           kwargs explanation)
            (fun fill_value =>
               new_full (shape (values explanation)) fill_value).
Proof. reflexivity. Qed.

(** The fill value on a batch that holds at least one value. *)
Lemma fill_value_of_zeros (t : tensor) (kwargs : gmap string pyval) fv :
  data (values t) <> [] ->
  kwargs !! "fill_value" = Some fv ->
  fill_value_of random_random random_uniform_draw kwargs (zeros_like t)
  = match fv with
    | PyFloat q => Ok (FloatScalar q)
    | PyInt z => Ok (IntScalar z)
    | PyBool b => Ok (IntScalar (Z.b2z b))
    | PyStr s =>
        let key := lower s in
        if String.eqb key "random" then Ok (FloatScalar random_random)
        else if String.eqb key "uniform"
             then Ok (FloatScalar (random_uniform random_uniform_draw 0 0))
        else if String.eqb key "black" then Ok (FloatScalar 0%Q)
        else if String.eqb key "white" then Ok (FloatScalar 0%Q)
        else Raise (KeyError key)
    | _ => Raise (AttributeError "object has no attribute 'lower'")
    end.
Proof.
  intros Hdata Hfv. unfold fill_value_of, kwargs_item.
  rewrite tmin_zeros_like, tmax_zeros_like, Hfv.
  destruct (data (values t)); [contradiction|]. reflexivity.
Qed.

(** The whole call on a torch batch with at least one value. *)
Lemma explain_constant_unfold t targets kwargs w fv :
  kwargs !! "explanation_func" = Some (PyStr "Control Var. Constant") ->
  kwargs !! "fill_value" = Some fv ->
  data (values t) <> [] ->
  explain attribute sobel cv2_resize normalize_heatmap
          random_random random_uniform_draw
          (TorchTensor t) targets kwargs w
  = (set_net (eval (net w)) w,
     rbind (fill_value_of random_random random_uniform_draw
                          kwargs (zeros_like t))
           (fun fill_value =>
              rbind (new_full (shape (values t)) fill_value)
                    (postprocess normalize_heatmap kwargs))).
Proof.
  intros Hv Hfv Hdata.
  rewrite (explain_unfold _ _ _ _ _ _ _ _ _ _ _ Hv).
  cbn [convert_inputs rbind]. rewrite explain_method_constant.
  rewrite (kwargs_in_Some _ _ _ Hfv). cbn [negb].
  destruct (fill_value_of _ _ _ _) as [fill_value|e]; [|reflexivity].
  cbn [rbind zeros_like values map_values shape].
  destruct (new_full _ _); reflexivity.
Qed.

(** Integers of up to 24 bits, and [2 ^ 24] itself, are float32 values. *)
Lemma float32_of_int_exact (z : Z) :
  (Z.abs z <= 2 ^ 24)%Z -> float32_of_int z = z.
Proof.
  intros Hz. unfold float32_of_int.
  destruct (Z.eq_dec (Z.abs z) (2 ^ 24)%Z) as [Heq|Hne].
  - destruct (Z.abs_eq_or_opp z) as [H|H]; rewrite H in Heq.
    + subst z. reflexivity.
    + assert (z = (- 2 ^ 24)%Z) as -> by lia. reflexivity.
  - destruct (Z.eq_dec (Z.abs z) 0%Z) as [H0|H0].
    + rewrite H0. reflexivity.
    + assert (Hlog : (Z.log2 (Z.abs z) < 24)%Z)
        by (apply Z.log2_lt_pow2; lia).
      cbv zeta.
      destruct (Z.leb_spec (Z.log2 (Z.abs z) + 1) 24); [reflexivity|lia].
Qed.

(** X3.  On a torch batch that holds at least one value, the constant
    control variant with an [int] or [bool] [fill_value] and no transform
    behaves as follows.  A value from [-2^63] up to [2^64 - 1] gives a map
    of the inputs' own shape whose every entry is the float32 nearest to
    that integer; this is the integer itself when its magnitude is at most
    [2^24], while 16777217 is stored as 16777216.  A value outside that
    range makes the call raise an [OverflowError]. *)
Theorem explain_constant_numeric_fill
        (t : tensor) (targets : array) (kwargs : gmap string pyval)
        (w : world) (fv : pyval) (z : Z) :
  kwargs !! "explanation_func" = Some (PyStr "Control Var. Constant") ->
  kwargs !! "fill_value" = Some fv ->
  as_int fv = Ok z ->
  data (values t) <> [] ->
  untransformed kwargs ->
  let outcome :=
    snd (explain attribute sobel cv2_resize normalize_heatmap
                 random_random random_uniform_draw
                 (TorchTensor t) targets kwargs w) in
  let filled (v : Z) :=
    Ok {| shape := shape (values t);
          data := repeat (inject_Z v) (numel (shape (values t))) |} in
  ((- 2 ^ 63 <= z < 2 ^ 64)%Z -> outcome = filled (float32_of_int z))
  /\ ((Z.abs z <= 2 ^ 24)%Z -> outcome = filled z)
  /\ (z = 16777217%Z -> outcome = filled 16777216%Z)
  /\ ((z < - 2 ^ 63)%Z \/ (2 ^ 64 <= z)%Z ->
      exists msg, outcome = Raise (OverflowError msg)).
Proof.
  intros Hv Hfv Hnum Hdata Hplain outcome filled.
  assert (Hout : outcome
                 = rbind (new_full (shape (values t)) (IntScalar z))
                         (postprocess normalize_heatmap kwargs)).
  { subst outcome.
    rewrite (explain_constant_unfold _ _ _ _ _ Hv Hfv Hdata). cbn [snd].
    rewrite (fill_value_of_zeros _ _ _ Hdata Hfv).
    destruct fv; try discriminate; injection Hnum as <-; reflexivity. }
  assert (Hrange : (- 2 ^ 63 <= z < 2 ^ 64)%Z ->
                   outcome = filled (float32_of_int z)).
  { intros Hz. rewrite Hout. unfold new_full.
    destruct (Z.ltb_spec z (- 2 ^ 63)); [lia|].
    destruct (Z.leb_spec (2 ^ 64) z); [lia|].
    cbn [rbind]. rewrite postprocess_untransformed by assumption.
    reflexivity. }
  split; [exact Hrange|]. split; [|split].
  - intros Hz. rewrite Hrange by lia.
    rewrite float32_of_int_exact by assumption. reflexivity.
  - intros ->. rewrite Hrange by lia. reflexivity.
  - intros Hz. rewrite Hout. unfold new_full.
    destruct (Z.ltb_spec z (- 2 ^ 63)).
    + eexists. reflexivity.
    + destruct (Z.leb_spec (2 ^ 64) z); [|lia].
      eexists. reflexivity.
Qed.

(** X4.  The named fill values do not look at the inputs: the dictionary
    is computed from [explanation], which is all zeros at that point.  So
    "black", "white" and "uniform", in any letter case, all fill the map
    with 0, and "random" fills it with the one number drawn for the whole
    batch. *)
Theorem explain_constant_named_fill
        (t : tensor) (targets : array) (kwargs : gmap string pyval)
        (w : world) (s : string) :
  kwargs !! "explanation_func" = Some (PyStr "Control Var. Constant") ->
  kwargs !! "fill_value" = Some (PyStr s) ->
  data (values t) <> [] ->
  untransformed kwargs ->
  let outcome :=
    snd (explain attribute sobel cv2_resize normalize_heatmap
                 random_random random_uniform_draw
                 (TorchTensor t) targets kwargs w) in
  let filled (q : Q) :=
    Ok {| shape := shape (values t);
          data := repeat q (numel (shape (values t))) |} in
  (lower s = "black" \/ lower s = "white" \/ lower s = "uniform" ->
   exists q, (q == 0)%Q /\ outcome = filled q)
  /\ (lower s = "random" -> outcome = filled random_random).
Proof.
  intros Hv Hfv Hdata Hplain outcome filled. subst outcome filled.
  rewrite (explain_constant_unfold _ _ _ _ _ Hv Hfv Hdata). cbn [snd].
  rewrite (fill_value_of_zeros _ _ _ Hdata Hfv). cbv zeta.
  split.
  - intros [-> | [-> | ->]];
      cbn [String.eqb Ascii.eqb Bool.eqb rbind new_full];
      rewrite postprocess_untransformed by assumption.
    + exists 0%Q. split; reflexivity.
    + exists 0%Q. split; reflexivity.
    + exists (random_uniform random_uniform_draw 0 0).
      split; [|reflexivity]. unfold random_uniform. ring.
  - intros ->. cbn [String.eqb Ascii.eqb Bool.eqb rbind new_full].
    rewrite postprocess_untransformed by assumption. reflexivity.
Qed.

(** X5.  A [fill_value] that is neither a number nor one of the four names
    of [fill_dict] makes the call raise: a string gives the [KeyError] of
    the dictionary lookup, for the lower-cased name, and any other value
    the [AttributeError] of the missing [lower]. *)
Theorem explain_constant_bad_fill
        (t : tensor) (targets : array) (kwargs : gmap string pyval)
        (w : world) (fv : pyval) :
  kwargs !! "explanation_func" = Some (PyStr "Control Var. Constant") ->
  kwargs !! "fill_value" = Some fv ->
  data (values t) <> [] ->
  numeric_value fv = None ->
  let outcome :=
    snd (explain attribute sobel cv2_resize normalize_heatmap
                 random_random random_uniform_draw
                 (TorchTensor t) targets kwargs w) in
  match fv with
  | PyStr s =>
      ~ In (lower s) fill_names -> outcome = Raise (KeyError (lower s))
  | _ => exists msg, outcome = Raise (AttributeError msg)
  end.
Proof.
  intros Hv Hfv Hdata Hnum outcome. subst outcome.
  rewrite (explain_constant_unfold _ _ _ _ _ Hv Hfv Hdata). cbn [snd].
  rewrite (fill_value_of_zeros _ _ _ Hdata Hfv).
  destruct fv as [| | | |s| |]; try discriminate;
    try (eexists; reflexivity).
  intros Hnot. cbv zeta. unfold fill_names in Hnot. cbn [In] in Hnot.
  destruct (String.eqb_spec (lower s) "random") as [He|_];
    [symmetry in He; tauto|].
  destruct (String.eqb_spec (lower s) "uniform") as [He|_];
    [symmetry in He; tauto|].
  destruct (String.eqb_spec (lower s) "black") as [He|_];
    [symmetry in He; tauto|].
  destruct (String.eqb_spec (lower s) "white") as [He|_];
    [symmetry in He; tauto|].
  reflexivity.
Qed.

(** X6.  On a batch without any value the constant control variant raises
    whatever [fill_value] is given, a number included: building
    [fill_dict] takes the minimum of an empty tensor first. *)
Theorem explain_constant_empty_batch
        (t : tensor) (targets : array) (kwargs : gmap string pyval)
        (w : world) (fv : pyval) :
  kwargs !! "explanation_func" = Some (PyStr "Control Var. Constant") ->
  kwargs !! "fill_value" = Some fv ->
  data (values t) = [] ->
  exists msg,
    snd (explain attribute sobel cv2_resize normalize_heatmap
                 random_random random_uniform_draw
                 (TorchTensor t) targets kwargs w)
    = Raise (RuntimeError msg).
Proof.
  intros Hv Hfv Hdata.
  rewrite (explain_unfold _ _ _ _ _ _ _ _ _ _ _ Hv).
  cbn [convert_inputs rbind snd]. rewrite explain_method_constant.
  rewrite (kwargs_in_Some _ _ _ Hfv). cbn [negb].
  unfold fill_value_of. rewrite tmin_zeros_like, Hdata. cbn [rbind].
  eexists. reflexivity.
Qed.

End ExplainConstant.

Lemma explain_constant_numeric_fill_witness :
  snd (explain stub_attribute stub_sobel stub_resize stub_normalize 0 0
               (TorchTensor two_pixels) (NdArray targets_2)
               constant_number eval_world)
  = Ok {| shape := [1; 1; 1; 2]%nat; data := [7%Q; 7%Q] |}
  /\ snd (explain stub_attribute stub_sobel stub_resize stub_normalize 0 0
                  (TorchTensor two_pixels) (NdArray targets_2)
                  constant_rounded eval_world)
     = Ok {| shape := [1; 1; 1; 2]%nat;
             data := [16777216%Q; 16777216%Q] |}
  /\ exists msg,
       snd (explain stub_attribute stub_sobel stub_resize stub_normalize 0 0
                    (TorchTensor two_pixels) (NdArray targets_2)
                    constant_huge eval_world)
       = Raise (OverflowError msg).
Proof.
  split; [|split].
  - refine (proj1 (proj2 (explain_constant_numeric_fill
             stub_attribute stub_sobel stub_resize stub_normalize 0 0
             two_pixels (NdArray targets_2) constant_number eval_world
             (PyInt 7) 7 _ _ _ _ _)) _);
      first [reflexivity | discriminate | repeat split; reflexivity].
  - refine (proj1 (proj2 (proj2 (explain_constant_numeric_fill
             stub_attribute stub_sobel stub_resize stub_normalize 0 0
             two_pixels (NdArray targets_2) constant_rounded eval_world
             (PyInt 16777217) 16777217 _ _ _ _ _))) _);
      first [reflexivity | discriminate | repeat split; reflexivity].
  - refine (proj2 (proj2 (proj2 (explain_constant_numeric_fill
             stub_attribute stub_sobel stub_resize stub_normalize 0 0
             two_pixels (NdArray targets_2) constant_huge eval_world
             (PyInt (2 ^ 64)) (2 ^ 64) _ _ _ _ _))) _);
      first [reflexivity | discriminate | repeat split; reflexivity | idtac].
    right. lia.
Defined.

Lemma explain_constant_named_fill_witness :
  exists q,
    (q == 0)%Q
    /\ snd (explain stub_attribute stub_sobel stub_resize stub_normalize
                    (1 # 3) (1 # 5)
                    (TorchTensor two_pixels) (NdArray targets_2)
                    constant_black eval_world)
       = Ok {| shape := [1; 1; 1; 2]%nat; data := [q; q] |}.
Proof.
  refine (proj1 (explain_constant_named_fill
                   stub_attribute stub_sobel stub_resize stub_normalize
                   (1 # 3) (1 # 5)
                   two_pixels (NdArray targets_2) constant_black eval_world
                   "BLACK" _ _ _ _) _).
  - reflexivity.
  - reflexivity.
  - discriminate.
  - repeat split; reflexivity.
  - left. reflexivity.
Defined.

Lemma explain_constant_bad_fill_witness :
  snd (explain stub_attribute stub_sobel stub_resize stub_normalize 0 0
               (TorchTensor two_pixels) (NdArray targets_2)
               constant_grey eval_world)
  = Raise (KeyError "grey")
  /\ exists msg,
       snd (explain stub_attribute stub_sobel stub_resize stub_normalize 0 0
                    (TorchTensor two_pixels) (NdArray targets_2)
                    constant_none eval_world)
       = Raise (AttributeError msg).
Proof.
  split.
  - apply (explain_constant_bad_fill
             stub_attribute stub_sobel stub_resize stub_normalize 0 0
             two_pixels (NdArray targets_2) constant_grey eval_world
             (PyStr "grey")).
    + reflexivity.
    + reflexivity.
    + discriminate.
    + reflexivity.
    + cbn. intros [H | [H | [H | [H | []]]]]; discriminate.
  - apply (explain_constant_bad_fill
             stub_attribute stub_sobel stub_resize stub_normalize 0 0
             two_pixels (NdArray targets_2) constant_none eval_world
             PyNone).
    + reflexivity.
    + reflexivity.
    + discriminate.
    + reflexivity.
Defined.

Lemma explain_constant_empty_batch_witness :
  exists msg,
    snd (explain stub_attribute stub_sobel stub_resize stub_normalize 0 0
                 (TorchTensor no_samples) (NdArray targets_2)
                 constant_number eval_world)
    = Raise (RuntimeError msg).
Proof.
  apply (explain_constant_empty_batch
           stub_attribute stub_sobel stub_resize stub_normalize 0 0
           no_samples (NdArray targets_2) constant_number eval_world
           (PyInt 7)); reflexivity.
Defined.

(** ** [explain]: the conversion of numpy inputs *)




(** ** [explain]: the value transforms *)

(** What the post-processing does once the transforms are fused: [z] is
    the tensor that reaches the normalisation step. *)
Lemma postprocess_reaches
      (normalize_heatmap : tensor -> result array)
      (kwargs : gmap string pyval) (e : tensor) :
  exists f : Q -> Q,
    (forall x,
       f x = (let a := if flag kwargs "abs" false then Qabs x else x in
              let p := if flag kwargs "pos_only" false
                       then (if Qlt_le_dec a 0 then 0%Q else a) else a in
              if flag kwargs "neg_only" false
              then (if Qlt_le_dec 0 p then 0%Q else p) else p))
    /\ postprocess normalize_heatmap kwargs e
       = rbind (if flag kwargs "normalize" true
                then normalize_heatmap (tmap f e)
                else Ok (TorchTensor (tmap f e)))
               to_ndarray.
Proof.
  eexists. split; [|apply postprocess_fused]. intros x. reflexivity.
Qed.

Lemma Forall_tmap (P : Q -> Prop) (f : Q -> Q) (e : tensor) :
  (forall x, P (f x)) -> Forall P (data (values (tmap f e))).
Proof.
  intros HP. unfold tmap, map_values. cbn.
  induction (data (values e)) as [|x l IH]; cbn; constructor; auto.
Qed.

(** X8.  Asking for negative values only together with absolute values or
    with positive values only leaves nothing: every value that reaches the
    normalisation step, and with normalisation off every value returned,
    is zero.  The shape is kept. *)
Theorem postprocess_opposite_flags_zero
        (normalize_heatmap : tensor -> result array)
        (kwargs : gmap string pyval) (e : tensor) :
  flag kwargs "neg_only" false = true ->
  flag kwargs "abs" false = true \/ flag kwargs "pos_only" false = true ->
  exists z : tensor,
    postprocess normalize_heatmap kwargs e
    = rbind (if flag kwargs "normalize" true
             then normalize_heatmap z else Ok (TorchTensor z))
            to_ndarray
    /\ shape (values z) = shape (values e)
    /\ length (data (values z)) = length (data (values e))
    /\ Forall (fun x => (x == 0)%Q) (data (values z))
    /\ (flag kwargs "normalize" true = false ->
        postprocess normalize_heatmap kwargs e = Ok (values z)).
Proof.
  intros Hneg Hother.
  destruct (postprocess_reaches normalize_heatmap kwargs e)
    as (f & Hf & Hpost).
  exists (tmap f e). split; [exact Hpost|]. split; [reflexivity|].
  split; [unfold tmap, map_values; cbn; apply length_map|]. split.
  - apply Forall_tmap. intros x. rewrite Hf, Hneg. cbv zeta.
    destruct Hother as [Habs | Hpos].
    + rewrite Habs. pose proof (Qabs_nonneg x) as Hx.
      destruct (flag kwargs "pos_only" false);
        [destruct (Qlt_le_dec (Qabs x) 0) as [Hlt|Hle]|].
      * destruct (Qlt_le_dec 0 0); reflexivity.
      * destruct (Qlt_le_dec 0 (Qabs x)) as [|Hle']; [reflexivity|].
        apply Qle_antisym; assumption.
      * destruct (Qlt_le_dec 0 (Qabs x)) as [|Hle']; [reflexivity|].
        apply Qle_antisym; assumption.
    + rewrite Hpos.
      set (a := if flag kwargs "abs" false then Qabs x else x).
      destruct (Qlt_le_dec a 0) as [Hlt|Hle].
      * destruct (Qlt_le_dec 0 0); reflexivity.
      * destruct (Qlt_le_dec 0 a) as [|Hle']; [reflexivity|].
        apply Qle_antisym; assumption.
  - intros Hnorm. rewrite Hpost, Hnorm. apply to_ndarray_tensor.
Qed.

(** X9.  The sign of what is returned: with [neg_only] set no value is
    positive; with [pos_only] or [abs] set and [neg_only] not set no value
    is negative.  This holds for every value that reaches the
    normalisation step, and for every value returned when normalisation is
    off. *)
Theorem postprocess_signs
        (normalize_heatmap : tensor -> result array)
        (kwargs : gmap string pyval) (e : tensor) :
  exists z : tensor,
    postprocess normalize_heatmap kwargs e
    = rbind (if flag kwargs "normalize" true
             then normalize_heatmap z else Ok (TorchTensor z))
            to_ndarray
    /\ shape (values z) = shape (values e)
    /\ (flag kwargs "neg_only" false = true ->
        Forall (fun x => (x <= 0)%Q) (data (values z)))
    /\ (flag kwargs "neg_only" false = false ->
        flag kwargs "abs" false = true \/ flag kwargs "pos_only" false = true ->
        Forall (fun x => (0 <= x)%Q) (data (values z)))
    /\ (flag kwargs "normalize" true = false ->
        postprocess normalize_heatmap kwargs e = Ok (values z)).
Proof.
  destruct (postprocess_reaches normalize_heatmap kwargs e)
    as (f & Hf & Hpost).
  exists (tmap f e). split; [exact Hpost|]. split; [reflexivity|].
  split; [|split].
  - intros Hneg. apply Forall_tmap. intros x. rewrite Hf, Hneg. cbv zeta.
    match goal with
    | |- context [Qlt_le_dec 0 ?p] => destruct (Qlt_le_dec 0 p) as [|Hle]
    end; [apply Qle_refl | exact Hle].
  - intros Hneg Hother. apply Forall_tmap. intros x.
    rewrite Hf, Hneg. cbv zeta.
    destruct Hother as [Habs | Hpos].
    + rewrite Habs. pose proof (Qabs_nonneg x) as Hx.
      destruct (flag kwargs "pos_only" false); [|exact Hx].
      destruct (Qlt_le_dec (Qabs x) 0); [apply Qle_refl | exact Hx].
    + rewrite Hpos.
      match goal with
      | |- context [Qlt_le_dec ?a 0] => destruct (Qlt_le_dec a 0) as [|Hle]
      end; [apply Qle_refl | exact Hle].
  - intros Hnorm. rewrite Hpost, Hnorm. apply to_ndarray_tensor.
Qed.

Lemma postprocess_opposite_flags_zero_witness :
  exists z : tensor,
    postprocess stub_normalize both_clips two_pixels = Ok (values z)
    /\ Forall (fun x => (x == 0)%Q) (data (values z)).
Proof.
  destruct (postprocess_opposite_flags_zero
              stub_normalize both_clips two_pixels eq_refl
              (or_intror eq_refl))
    as (z & _ & _ & _ & Hzero & Hret).
  exists z. split; [apply Hret; reflexivity | exact Hzero].
Defined.

Lemma postprocess_signs_witness :
  exists z : tensor,
    postprocess stub_normalize positive_only two_pixels = Ok (values z)
    /\ Forall (fun x => (0 <= x)%Q) (data (values z)).
Proof.
  destruct (postprocess_signs stub_normalize positive_only two_pixels)
    as (z & _ & _ & _ & Hpos & Hret).
  exists z. split.
  - apply Hret. reflexivity.
  - apply Hpos; [reflexivity | right; reflexivity].
Defined.

(** ** [explain]: the captum methods *)






Lemma postprocess_shape
      (normalize_heatmap : tensor -> result array)
      (kwargs : gmap string pyval) (e : tensor) :
  flag kwargs "normalize" true = false ->
  exists a, postprocess normalize_heatmap kwargs e = Ok a
            /\ shape a = shape (values e).
Proof.
  intros Hnorm.
  destruct (postprocess_reaches normalize_heatmap kwargs e)
    as (f & _ & Hpost).
  rewrite Hpost, Hnorm. cbn [rbind]. rewrite to_ndarray_tensor.
  eexists. split; reflexivity.
Qed.

Section ExplainCaptum.

Variable attribute : captum -> Module -> tensor -> tensor -> result tensor.
Variable sobel : ndarray -> ndarray.
Variable cv2_resize : ndarray -> pyval -> pyval -> result ndarray.
Variable normalize_heatmap : tensor -> result array.
Variable random_random : Q.
Variable random_uniform_draw : Q.




End ExplainCaptum.



(** ** [shape_input]: what a returned array looks like *)

(** X12.  Whenever [shape_input] returns, the wrapper is channel-first and
    the result holds the values of the input, unchanged and as many, under
    a shape [(1, k, img_size, img_size)] with [img_size] not negative.
    [k] is [nr_channels] when that is not negative, and then the input
    holds [nr_channels * img_size * img_size] values; a negative
    [nr_channels], whatever its value, lets numpy infer [k] from the number
    of values.  Nothing of the model is touched. *)
Theorem shape_input_returns
        (itemsize : ndarray -> Z)
        (self : PyTorchModel) (x x' : ndarray) (img_size nr_channels : Z)
        (w w' : world) :
  shape_input itemsize self x img_size nr_channels w = (w', Ok x') ->
  w' = w
  /\ channel_first self = true
  /\ data x' = data x
  /\ numel (shape x') = numel (shape x)
  /\ (0 <= img_size)%Z
  /\ exists k : nat,
       shape x' = [1%nat; k; Z.to_nat img_size; Z.to_nat img_size]
       /\ ((0 <= nr_channels)%Z ->
           k = Z.to_nat nr_channels
           /\ Z.of_nat (numel (shape x))
              = (nr_channels * img_size * img_size)%Z
           /\ (itemsize x * nonzero nr_channels
               * nonzero img_size * nonzero img_size <= NPY_MAX_INTP)%Z)
       /\ ((nr_channels < 0)%Z ->
           (0 < img_size)%Z
           /\ (k * (Z.to_nat img_size * Z.to_nat img_size))%nat
              = numel (shape x)).
Proof.
  unfold shape_input, bind, lift.
  destruct (np_reshape _ _ x) as [r|e] eqn:Hr; [|discriminate].
  destruct (channel_first self); [|discriminate].
  unfold ret. intros [= <- <-].
  apply np_reshape_image_inv in Hr. cbv zeta in Hr.
  destruct Hr as (Hs & Hdata
                  & [(Hc & Hn & Hfit & Hsh) | (Hc & Hs' & Hmod & Hsh)]).
  - repeat split; try assumption.
    + rewrite Hsh. cbn [numel fold_right]. nia.
    + exists (Z.to_nat nr_channels). rewrite Hsh.
      repeat split; try assumption; lia.
  - assert (Hk : (Z.to_nat (Z.of_nat (numel (shape x))
                             / (img_size * img_size))
                  * (Z.to_nat img_size * Z.to_nat img_size))%nat
                 = numel (shape x)).
    { pose proof (Z.div_mod (Z.of_nat (numel (shape x)))
                            (img_size * img_size) ltac:(nia)) as Hdm.
      rewrite Hmod, Z.add_0_r in Hdm.
      assert (0 <= Z.of_nat (numel (shape x)) / (img_size * img_size))%Z
        by (apply Z.div_pos; nia).
      nia. }
    repeat split; try assumption.
    + rewrite Hsh. cbn [numel fold_right]. lia.
    + eexists. rewrite Hsh. repeat split; try reflexivity; try lia.
Qed.

Lemma shape_input_returns_witness :
  exists k : nat,
    shape {| shape := [1; 2; 2; 2]%nat; data := data eight |}
    = [1%nat; k; Z.to_nat 2; Z.to_nat 2]
    /\ (k * (Z.to_nat 2 * Z.to_nat 2))%nat = numel (shape eight).
Proof.
  destruct (shape_input_returns
              float64_itemsize wrapper eight
              {| shape := [1; 2; 2; 2]%nat; data := data eight |}
              2 (-2) eval_world eval_world eq_refl)
    as (_ & _ & _ & _ & _ & k & Hshape & _ & Hinferred).
  exists k. split; [exact Hshape|]. apply Hinferred. reflexivity.
Defined.

(** ** The random layer generator *)

Import RandomLayers.

Section GeneratorFacts.

Variable named_modules : list named_module.
Variable reset_parameters :
  string -> list (string * ndarray) -> list (string * ndarray).

Lemma iterate_suspended order original modules : forall fuel m w,
  (length modules < fuel)%nat ->
  iterate named_modules reset_parameters fuel
          (Suspended order original m modules) w
  = rounds reset_parameters order original m modules.
Proof.
  induction modules as [|module rest IH]; intros fuel m w Hfuel;
    destruct fuel as [|fuel]; cbn in Hfuel; try lia.
  - reflexivity.
  - cbn [iterate next resume yielded_model rounds].
    rewrite IH by lia. reflexivity.
Qed.

Lemma visited_length order : (length (visited named_modules order) <= length named_modules)%nat.
Proof.
  unfold visited.
  pose proof (filter_length_le has_reset_parameters named_modules).
  destruct (String.eqb order "top_down"); rewrite ?length_rev; assumption.
Qed.

Lemma iterate_created order w :
  iterate named_modules reset_parameters (S (length named_modules))
          (Created order) w
  = rounds reset_parameters order (state_dict (net w)) (net w) (visited named_modules order).
Proof.
  pose proof (visited_length order) as Hlen.
  fold (visited named_modules order) in *.
  destruct (visited named_modules order) as [|module rest] eqn:Hv.
  - cbn [iterate next]. fold (visited named_modules order). rewrite Hv. reflexivity.
  - cbn [iterate next]. fold (visited named_modules order). rewrite Hv.
    cbn [resume yielded_model rounds].
    rewrite iterate_suspended by (cbn in Hlen; lia). reflexivity.
Qed.

Lemma rounds_names order original modules : forall m,
  map fst (rounds reset_parameters order original m modules) = map module_name modules.
Proof.
  induction modules as [|module rest IH]; intros m; cbn; [reflexivity|].
  rewrite IH. reflexivity.
Qed.

(** X13.  Iterating the generator yields one name per submodule that has a
    [reset_parameters] method, and no other: in the order of
    [named_modules()], and in the reverse of it exactly when [order] is
    "top_down".  Any other value of [order], "independent" included,
    visits the modules first to last. *)
Theorem generator_names (order : string) (w : world) :
  map fst (iterate named_modules reset_parameters
                   (S (length named_modules)) (Created order) w)
  = let names :=
      map module_name (List.filter has_reset_parameters named_modules) in
    if String.eqb order "top_down" then rev names else names.
Proof.
  rewrite iterate_created, rounds_names. unfold visited. cbv zeta.
  destruct (String.eqb order "top_down"); [apply map_rev | reflexivity].
Qed.

Lemma rounds_independent original : forall modules m,
  rounds reset_parameters "independent" original m modules
  = map (fun module =>
           (module_name module,
            {| training := training m;
               state_dict :=
                 reset_parameters (module_name module) original |}))
        modules.
Proof.
  induction modules as [|module rest IH]; intros m; cbn [rounds map];
    [reflexivity|].
  change (String.eqb "independent" "independent") with true. cbv iota zeta.
  rewrite IH. reflexivity.
Qed.

(** X14.  With [order="independent"] every yielded model is the wrapped
    model with the parameters of exactly the yielded submodule reset:
    before each reset the original parameters are loaded again, so no
    earlier reset survives.  The mode of the model is the original's. *)
Theorem generator_independent (w : world) :
  iterate named_modules reset_parameters
          (S (length named_modules)) (Created "independent") w
  = map (fun module =>
           (module_name module,
            {| training := training (net w);
               state_dict :=
                 reset_parameters (module_name module)
                                  (state_dict (net w)) |}))
        (List.filter has_reset_parameters named_modules).
Proof.
  rewrite iterate_created, rounds_independent. reflexivity.
Qed.

Lemma rounds_cascade order original : forall modules m,
  String.eqb order "independent" = false ->
  rounds reset_parameters order original m modules
  = cascade reset_parameters m (map module_name modules).
Proof.
  induction modules as [|module rest IH]; intros m Hord; cbn [rounds map cascade];
    [reflexivity|].
  rewrite Hord. cbv zeta. rewrite IH by assumption. reflexivity.
Qed.

(** X15.  With any other [order] the resets pile up: each yielded model
    is the one yielded before it with one more submodule reset, starting
    from the wrapped model; "top_down" starts with the module listed
    last. *)
Theorem generator_cascading (order : string) (w : world) :
  order <> "independent" ->
  iterate named_modules reset_parameters
          (S (length named_modules)) (Created order) w
  = cascade reset_parameters (net w)
            (let names :=
               map module_name
                   (List.filter has_reset_parameters named_modules) in
             if String.eqb order "top_down" then rev names else names).
Proof.
  intros Hord. rewrite iterate_created.
  rewrite rounds_cascade by (apply String.eqb_neq; exact Hord).
  unfold visited. cbv zeta.
  destruct (String.eqb order "top_down"); [rewrite map_rev|]; reflexivity.
Qed.

Lemma last_nonempty {A} (l : list A) : forall x d d',
  List.last (x :: l) d = List.last (x :: l) d'.
Proof.
  induction l as [|y l IH]; intros x d d'; [reflexivity|].
  change (List.last (y :: l) d = List.last (y :: l) d'). apply IH.
Qed.

Lemma last_cons_default {A} (l : list A) (x d : A) :
  List.last (x :: l) d = List.last l x.
Proof.
  destruct l as [|y l]; [reflexivity|].
  change (List.last (y :: l) d = List.last (y :: l) x). apply last_nonempty.
Qed.

Lemma exhaust_suspended order original modules : forall fuel m w,
  (length modules < fuel)%nat ->
  exhaust named_modules reset_parameters fuel
          (Suspended order original m modules) w
  = Finished (List.last (map snd (rounds reset_parameters order original m modules)) m).
Proof.
  induction modules as [|module rest IH]; intros fuel m w Hfuel;
    destruct fuel as [|fuel]; cbn in Hfuel; try lia.
  - reflexivity.
  - cbn [exhaust next resume]. rewrite IH by lia.
    cbn [rounds map snd]. rewrite last_cons_default. reflexivity.
Qed.

(** X16.  The yields hand out one and the same model object.  Once the
    loop is over that object holds the state of the last yield (or the
    untouched copy, when nothing was yielded), whichever yield handed it
    out; and the generator stays exhausted. *)
Theorem generator_yields_one_object (order : string) (w : world) :
  let yields :=
    iterate named_modules reset_parameters
            (S (length named_modules)) (Created order) w in
  let after :=
    exhaust named_modules reset_parameters
            (S (S (length named_modules))) (Created order) w in
  yielded_model after = Some (List.last (map snd yields) (net w))
  /\ next named_modules reset_parameters after w = (None, after).
Proof.
  cbv zeta. rewrite iterate_created.
  pose proof (visited_length order) as Hlen.
  assert (Hafter :
    exhaust named_modules reset_parameters
            (S (S (length named_modules))) (Created order) w
    = Finished (List.last (map snd (rounds reset_parameters order (state_dict (net w))
                                           (net w) (visited named_modules order)))
                          (net w))).
  { change (exhaust named_modules reset_parameters
                    (S (S (length named_modules))) (Created order) w)
      with (match next named_modules reset_parameters (Created order) w with
            | (Some _, g') =>
                exhaust named_modules reset_parameters
                        (S (length named_modules)) g' w
            | (None, g') => g'
            end).
    unfold next. fold (visited named_modules order).
    destruct (visited named_modules order) as [|module rest] eqn:Hv.
    - reflexivity.
    - unfold resume. rewrite exhaust_suspended by (cbn in Hlen; lia).
      cbn [rounds map snd]. rewrite last_cons_default. reflexivity. }
  rewrite Hafter. split; reflexivity.
Qed.

End GeneratorFacts.

Lemma generator_cascading_witness :
  iterate small_architecture zero_reset 5 (Created "top_down") small_world
  = [("fc",
      {| training := false;
         state_dict := [("conv", pixel);
                        ("fc", {| shape := [1%nat]; data := [0%Q] |})] |});
     ("conv",
      {| training := false;
         state_dict := [("conv", {| shape := [1%nat]; data := [0%Q] |});
                        ("fc", {| shape := [1%nat]; data := [0%Q] |})] |})].
Proof.
  apply (generator_cascading small_architecture zero_reset
                             "top_down" small_world).
  discriminate.
Defined.

(** ** The mosaic fixture of the tests *)

Import Fixture.

Lemma shape_eqb_refl (s : list nat) : shape_eqb s s = true.
Proof. unfold shape_eqb. destruct (decide (s = s)); congruence. Qed.

(** Reading a value out of two arrays laid side by side, row by row. *)
Lemma lookup_interleaved (m : nat) : forall (n : nat) (X Y : list Q) (r c : nat),
  (n * m <= length X)%nat -> (n * m <= length Y)%nat ->
  (r < n)%nat -> (c < m)%nat ->
  concat (zip_with app (chunk n m X) (chunk n m Y)) !! (r * (2 * m) + c)%nat
  = X !! (r * m + c)%nat
  /\ concat (zip_with app (chunk n m X) (chunk n m Y))
       !! (r * (2 * m) + (m + c))%nat
     = Y !! (r * m + c)%nat.
Proof.
  induction n as [|n IH]; intros X Y r c HX HY Hr Hc; [lia|].
  cbn [chunk zip_with concat].
  assert (HlenX : length (take m X) = m) by (rewrite length_take; nia).
  assert (HlenY : length (take m Y) = m) by (rewrite length_take; nia).
  destruct r as [|r].
  - cbn [Nat.mul Nat.add]. split.
    + rewrite lookup_app_l by (rewrite length_app; lia).
      rewrite lookup_app_l by lia. apply lookup_take_lt. exact Hc.
    + rewrite lookup_app_l by (rewrite length_app; lia).
      rewrite lookup_app_r by lia. rewrite HlenX.
      replace (m + c - m)%nat with c by lia.
      apply lookup_take_lt. exact Hc.
  - destruct (IH (drop m X) (drop m Y) r c) as [H1 H2];
      try (rewrite length_drop; nia); try lia.
    split.
    + rewrite lookup_app_r by (rewrite length_app; nia).
      rewrite length_app, HlenX, HlenY.
      replace (S r * (2 * m) + c - (m + m))%nat with (r * (2 * m) + c)%nat
        by nia.
      rewrite H1, lookup_drop. f_equal. nia.
    + rewrite lookup_app_r by (rewrite length_app; nia).
      rewrite length_app, HlenX, HlenY.
      replace (S r * (2 * m) + (m + c) - (m + m))%nat
        with (r * (2 * m) + (m + c))%nat by nia.
      rewrite H2, lookup_drop. f_equal. nia.
Qed.

(** Stacking two tiles along the second axis puts one after the other. *)
Lemma concatenate_rows (a b : ndarray) (h w : nat) :
  shape a = [1; h; w]%nat -> shape b = [1; h; w]%nat -> wf a -> wf b ->
  concatenate a b 1
  = Ok {| shape := [1; h + h; w]%nat; data := data a ++ data b |}.
Proof.
  intros Ha Hb Hwa Hwb. unfold concatenate, wf in *.
  rewrite Ha, Hb in *. cbn [length Nat.leb take drop nth numel fold_right] in *.
  rewrite !shape_eqb_refl. cbn [andb negb app Nat.mul Nat.add].
  cbn [chunk zip_with concat].
  rewrite !take_ge by lia. rewrite app_nil_r. reflexivity.
Qed.

(** X17.  The mosaic built from four tiles of the same height and width
    puts the tile named first in the top left quadrant, the second in the
    bottom left, the third in the top right and the fourth in the bottom
    right: what the code calls [first_row] is the left column. *)
Theorem mosaic_of_layout
        (images : list ndarray) (i0 i1 i2 i3 : nat)
        (t0 t1 t2 t3 : ndarray) (h w : nat) :
  images !! i0 = Some t0 -> images !! i1 = Some t1 ->
  images !! i2 = Some t2 -> images !! i3 = Some t3 ->
  Forall (fun t => shape t = [1; h; w]%nat /\ wf t) [t0; t1; t2; t3] ->
  exists m : ndarray,
    mosaic_of images (i0, i1, i2, i3) = Ok m
    /\ shape m = [1; h + h; w + w]%nat
    /\ wf m
    /\ forall r c : nat, (r < h)%nat -> (c < w)%nat ->
         data m !! (r * (2 * w) + c)%nat = data t0 !! (r * w + c)%nat
         /\ data m !! ((h + r) * (2 * w) + c)%nat
            = data t1 !! (r * w + c)%nat
         /\ data m !! (r * (2 * w) + (w + c))%nat
            = data t2 !! (r * w + c)%nat
         /\ data m !! ((h + r) * (2 * w) + (w + c))%nat
            = data t3 !! (r * w + c)%nat.
Proof.
  intros H0 H1 H2 H3 Htiles.
  apply Forall_cons in Htiles as [[Hs0 Hw0] Htiles].
  apply Forall_cons in Htiles as [[Hs1 Hw1] Htiles].
  apply Forall_cons in Htiles as [[Hs2 Hw2] Htiles].
  apply Forall_cons in Htiles as [[Hs3 Hw3] _].
  unfold mosaic_of, image. rewrite H0, H1, H2, H3. cbn [rbind].
  rewrite (concatenate_rows t0 t1 h w), (concatenate_rows t2 t3 h w)
    by assumption.
  cbn [rbind]. unfold concatenate.
  cbn [shape data length Nat.leb take drop nth numel fold_right].
  rewrite !shape_eqb_refl. cbn [andb negb app].
  unfold wf in *. rewrite Hs0 in Hw0. rewrite Hs1 in Hw1.
  rewrite Hs2 in Hw2. rewrite Hs3 in Hw3.
  cbn [numel fold_right] in *.
  replace (1 * ((h + h) * 1))%nat with (h + h)%nat by lia.
  replace (w * 1)%nat with w by lia.
  set (X := data t0 ++ data t1). set (Y := data t2 ++ data t3).
  assert (HX : length X = ((h + h) * w)%nat)
    by (subst X; rewrite length_app; nia).
  assert (HY : length Y = ((h + h) * w)%nat)
    by (subst Y; rewrite length_app; nia).
  eexists. split; [reflexivity|]. split; [reflexivity|]. split.
  - cbn [shape data numel fold_right].
    assert (Hblocks : forall n X Y,
               (n * w <= length X)%nat -> (n * w <= length Y)%nat ->
               length (concat (zip_with app (chunk n w X) (chunk n w Y)))
               = (n * (w + w))%nat).
    { clear. induction n as [|n IH]; intros X Y HX HY; [reflexivity|].
      cbn [chunk zip_with concat]. rewrite !length_app, !length_take.
      rewrite IH by (rewrite length_drop; nia). nia. }
    rewrite Hblocks by lia. nia.
  - intros r c Hr Hc. cbn [data].
    destruct (lookup_interleaved w (h + h) X Y r c) as [Ha Hb];
      try lia.
    destruct (lookup_interleaved w (h + h) X Y (h + r) c) as [Hc' Hd];
      try lia.
    rewrite Ha, Hb, Hc', Hd. subst X Y.
    repeat split.
    + apply lookup_app_l. nia.
    + rewrite lookup_app_r by nia. f_equal. nia.
    + apply lookup_app_l. nia.
    + rewrite lookup_app_r by nia. f_equal. nia.
Qed.

Lemma mosaic_of_layout_witness :
  exists m : ndarray,
    mosaic_of four_tiles (0, 1, 2, 3)%nat = Ok m
    /\ shape m = [1; 4; 2]%nat
    /\ data m !! 1%nat = Some 5%Q
    /\ data m !! 4%nat = Some 3%Q.
Proof.
  destruct (mosaic_of_layout four_tiles 0 1 2 3
                             (tile 1 2) (tile 3 4) (tile 5 6) (tile 7 8)
                             2 1 eq_refl eq_refl eq_refl eq_refl)
    as (m & Hm & Hshape & _ & Hlayout).
  - repeat constructor.
  - exists m. split; [exact Hm|]. split; [exact Hshape|].
    destruct (Hlayout 0%nat 0%nat) as (_ & Hbl & Htr & _); [lia | lia |].
    split; [exact Htr | exact Hbl].
Defined.

(** The fixture itself: four mosaics of 56 by 56 values. *)
Example load_artificial_attribution_shapes :
  exists mosaics,
    load_artificial_attribution = Ok mosaics
    /\ map shape mosaics = repeat [1; 56; 56]%nat 4.
Proof. eexists. split; [vm_compute|]; reflexivity. Qed.

(** ** The mini-batch loop of [test_focus] *)

Import Focus.




(** ** [explain]: the Sobel control variant *)

Lemma infer_size_plane (n a b : Z) :
  (0 <= a)%Z -> (0 <= b)%Z ->
  infer_size n [a; b]
  = if (a * b =? n)%Z then Some [Z.to_nat a; Z.to_nat b] else None.
Proof.
  intros Ha Hb. unfold infer_size, count_inferred, known_product. cbn.
  assert (Ha1 : (a <? -1)%Z = false) by lia.
  assert (Hb1 : (b <? -1)%Z = false) by lia.
  assert (Ha2 : (a =? -1)%Z = false) by lia.
  assert (Hb2 : (b =? -1)%Z = false) by lia.
  rewrite Ha1, Hb1, Ha2, Hb2. cbn.
  replace (a * (b * 1))%Z with (a * b)%Z by lia.
  destruct (a * b =? n)%Z; reflexivity.
Qed.

Lemma nth_drop_shift (b : nat) : forall (l : list Q) (k : nat),
  nth k (drop b l) 0%Q = nth (b + k) l 0%Q.
Proof.
  induction b as [|b IH]; intros l k; [reflexivity|].
  destruct l as [|x l]; cbn [drop Nat.add nth].
  - destruct k; reflexivity.
  - apply IH.
Qed.

Lemma map_nth_seq (l : list Q) : forall b,
  (b <= length l)%nat -> map (fun w => nth w l 0%Q) (seq 0 b) = take b l.
Proof.
  induction l as [|x l IH]; intros b Hb.
  - cbn in Hb. assert (b = 0)%nat as -> by lia. reflexivity.
  - destruct b as [|b]; [reflexivity|].
    cbn [seq map nth take]. f_equal.
    rewrite <- seq_shift, map_map. apply IH. cbn in Hb. lia.
Qed.

Lemma rows_take (b : nat) : forall (a : nat) (vd : list Q),
  (a * b <= length vd)%nat ->
  flat_map (fun h => map (fun w => nth (h * b + w) vd 0%Q) (seq 0 b))
           (seq 0 a)
  = take (a * b) vd.
Proof.
  induction a as [|a IH]; intros vd Hlen; [reflexivity|].
  rewrite Nat.mul_succ_l in Hlen.
  cbn [seq flat_map]. rewrite <- seq_shift.
  rewrite flat_map_concat_map, map_map, <- flat_map_concat_map.
  rewrite (flat_map_ext _
             (fun h => map (fun w => nth (h * b + w) (drop b vd) 0%Q)
                           (seq 0 b))).
  2:{ intros h. apply map_ext. intros w. rewrite nth_drop_shift.
      f_equal. lia. }
  rewrite IH by (rewrite length_drop; lia).
  cbn [Nat.mul Nat.add]. rewrite map_nth_seq; [|lia].
  apply take_take_drop.
Qed.

Lemma broadcast2_same (a b : nat) (vd : list Q) :
  length vd = (a * b)%nat -> broadcast2 a b a b vd = vd.
Proof.
  intros Hlen. unfold broadcast2.
  rewrite flat_map_concat_map.
  rewrite (map_ext_in _
             (fun h => map (fun w => nth (h * b + w) vd 0%Q) (seq 0 b))).
  - rewrite <- flat_map_concat_map, rows_take by lia.
    apply firstn_all2. lia.
  - intros h Hh. apply in_seq in Hh. apply map_ext_in. intros w Hw.
    apply in_seq in Hw. f_equal.
    destruct (Nat.eqb_spec a 1) as [->|_]; destruct (Nat.eqb_spec b 1) as [->|_];
      lia.
Qed.

Lemma chunk_full_lengths (r : nat) : forall (c : nat) (l : list Q),
  (c * r <= length l)%nat ->
  Forall (fun blk => length blk = r) (chunk c r l).
Proof.
  induction c as [|c IH]; intros l Hlen; cbn [chunk]; constructor.
  - rewrite Nat.mul_succ_l in Hlen. apply length_take_le. lia.
  - apply IH. rewrite Nat.mul_succ_l in Hlen. rewrite length_drop. lia.
Qed.

Lemma vsum_length (r : nat) (blocks : list (list Q)) :
  Forall (fun blk => length blk = r) blocks -> length (vsum r blocks) = r.
Proof.
  unfold vsum. induction 1 as [|blk blocks Hblk _ IH]; cbn [fold_right].
  - apply repeat_length.
  - rewrite length_zip_with, IH, Hblk. lia.
Qed.

Lemma concat_repeat_length (p : list Q) (k : nat) :
  length (concat (repeat p k)) = (k * length p)%nat.
Proof.
  induction k as [|k IH]; [reflexivity|].
  cbn [repeat concat]. rewrite length_app, IH. lia.
Qed.

Section SobelValues.

Variable sobel : ndarray -> ndarray.
Variable kwargs : gmap string pyval.
Variable inputs : tensor.
Variables n c s : nat.

Hypothesis Hsobel : forall a, shape (sobel a) = shape a.
Hypothesis Hwf : forall a, wf a -> wf (sobel a).
Hypothesis Hsize :
  kwargs_get kwargs "img_size" (PyInt 224) = PyInt (Z.of_nat s).
Hypothesis Hgrad : requires_grad inputs = false.
Hypothesis Hshape : shape (values inputs) = [n; c; s; s].
Hypothesis Hinputs : wf (values inputs).

Lemma index0_wf (i : nat) :
  (i < n)%nat ->
  shape (values (index0 inputs i)) = [c; s; s]
  /\ wf (values (index0 inputs i)).
Proof.
  intros Hi. unfold index0, wf. cbn [values shape data].
  rewrite Hshape. cbn [tail]. split; [reflexivity|].
  unfold wf in Hinputs. rewrite Hshape in Hinputs.
  change (numel [n; c; s; s]) with (n * numel [c; s; s])%nat in Hinputs.
  apply length_take_le. rewrite length_drop, Hinputs.
  assert (S i * numel [c; s; s] <= n * numel [c; s; s])%nat
    by (apply Nat.mul_le_mono_r; lia).
  rewrite Nat.mul_succ_l in H. lia.
Qed.

Lemma sobel_plane_length (i : nat) :
  (i < n)%nat -> length (sobel_plane sobel inputs i) = (s * s)%nat.
Proof.
  intros Hi. destruct (index0_wf i Hi) as [Hsh Hw].
  unfold sobel_plane, mean_axis0. cbn [clip map_values shape data].
  rewrite Hsobel, Hsh. cbn [data]. rewrite length_map.
  cbn [numel fold_right]. rewrite Nat.mul_1_r.
  apply vsum_length, chunk_full_lengths. rewrite length_map.
  specialize (Hwf _ Hw). unfold wf in Hwf. rewrite Hwf, Hsobel, Hsh.
  cbn [numel fold_right]. rewrite Nat.mul_1_r. lia.
Qed.

Lemma sobel_map_values (i : nat) :
  (i < n)%nat ->
  sobel_map sobel kwargs (index0 inputs i)
  = Ok {| values := {| shape := [s; s];
                       data := sobel_plane sobel inputs i |};
          requires_grad := false |}.
Proof.
  intros Hi. destruct (index0_wf i Hi) as [Hsh Hw].
  unfold sobel_map, sobel_plane, numpy, cpu.
  replace (requires_grad (index0 inputs i)) with false
    by (symmetry; exact Hgrad).
  cbn [rbind]. unfold mean_axis0. cbn [clip map_values shape].
  rewrite Hsobel, Hsh. cbn [rbind].
  unfold reshape_img. rewrite Hsize. cbn [as_int rbind].
  unfold torch_reshape, reshape. cbn [values torch_Tensor shape data].
  rewrite infer_size_plane by lia.
  replace (Z.of_nat s * Z.of_nat s =? Z.of_nat (numel [s; s]))%Z with true
    by (symmetry; apply Z.eqb_eq; cbn [numel fold_right]; lia).
  cbn [rbind map]. rewrite !Nat2Z.id. reflexivity.
Qed.

(** One round of the loop: the slot of sample [i] is overwritten with the
    plane of that sample, once per channel. *)
Lemma sobel_round (i : nat) (e : tensor) :
  (i < n)%nat ->
  shape (values e) = [n; c; s; s] ->
  rbind (sobel_map sobel kwargs (index0 inputs i))
        (fun v => setitem0 e i v)
  = Ok {| values :=
            {| shape := [n; c; s; s];
               data := take (i * (c * (s * s))) (data (values e))
                       ++ concat (repeat (sobel_plane sobel inputs i) c)
                       ++ drop ((i + 1) * (c * (s * s))) (data (values e)) |};
          requires_grad := requires_grad e |}.
Proof.
  intros Hi He. rewrite sobel_map_values by assumption. cbn [rbind].
  unfold setitem0. cbn [values shape data]. rewrite He.
  cbn [tail rev app]. rewrite !Nat.eqb_refl. cbn [orb andb].
  rewrite broadcast2_same by (apply sobel_plane_length; exact Hi).
  cbn [numel fold_right]. rewrite !Nat.mul_1_r. reflexivity.
Qed.

Lemma sobel_rounds : forall (m k : nat) (e : tensor),
  (k + m = n)%nat ->
  shape (values e) = [n; c; s; s] ->
  length (data (values e)) = (n * (c * (s * s)))%nat ->
  fold_left
    (fun acc i =>
       rbind acc (fun explanation =>
       rbind (sobel_map sobel kwargs (index0 inputs i)) (fun v =>
       setitem0 explanation i v)))
    (seq k m) (Ok e)
  = Ok {| values :=
            {| shape := [n; c; s; s];
               data := take (k * (c * (s * s))) (data (values e))
                       ++ flat_map
                            (fun i => concat (repeat (sobel_plane sobel inputs i) c))
                            (seq k m)
                       ++ drop ((k + m) * (c * (s * s))) (data (values e)) |};
          requires_grad := requires_grad e |}.
Proof.
  induction m as [|m IH]; intros k e Hkm He Hlen.
  - cbn [seq fold_left flat_map app]. rewrite Nat.add_0_r, take_drop.
    destruct e as [[sh d] g]. cbn in *. subst sh. reflexivity.
  - cbn [seq fold_left]. cbn [rbind].
    rewrite sobel_round by (assumption || lia).
    assert (Hblk : length (concat (repeat (sobel_plane sobel inputs k) c))
                   = (c * (s * s))%nat).
    { rewrite concat_repeat_length, sobel_plane_length by lia.
      reflexivity. }
    cbn [flat_map].
    remember (c * (s * s))%nat as slot eqn:Hslot in *.
    remember (concat (repeat (sobel_plane sobel inputs k) c)) as blk
      eqn:Hb in *.
    clear Hslot Hb.
    assert (Hk : (k * slot + slot <= n * slot)%nat).
    { assert (S k * slot <= n * slot)%nat
        by (apply Nat.mul_le_mono_r; lia).
      rewrite Nat.mul_succ_l in H. exact H. }
    assert (Htake : length (take (k * slot) (data (values e)))
                    = (k * slot)%nat)
      by (apply length_take_le; lia).
    rewrite IH; cbn [values shape data requires_grad].
    + f_equal. f_equal.
      replace (S k * slot)%nat with (k * slot + slot)%nat by lia.
      rewrite (app_assoc (take _ _) blk).
      rewrite take_app_length' by (rewrite length_app; lia).
      rewrite <- !app_assoc. f_equal. f_equal. f_equal.
      rewrite app_assoc.
      rewrite drop_app_ge by (rewrite length_app; lia).
      rewrite length_app, Htake, Hblk.
      rewrite drop_drop.
      replace ((k + 1) * slot)%nat with (k * slot + slot)%nat by lia.
      replace ((S k + m) * slot)%nat with (k * slot + slot + m * slot)%nat
        by lia.
      replace ((k + S m) * slot)%nat with (k * slot + slot + m * slot)%nat
        by lia.
      match goal with
      | |- _ ++ drop ?x _ = _ ++ drop ?y _ => replace x with y by lia
      end.
      reflexivity.
    + lia.
    + reflexivity.
    + rewrite !length_app, Htake, Hblk, length_drop. lia.
Qed.

End SobelValues.

Section ExplainSobel.

Variable attribute : captum -> Module -> tensor -> tensor -> result tensor.
Variable sobel : ndarray -> ndarray.
Variable cv2_resize : ndarray -> pyval -> pyval -> result ndarray.
Variable normalize_heatmap : tensor -> result array.
Variable random_random : Q.
Variable random_uniform_draw : Q.

Lemma explain_method_sobel model inputs targets explanation kwargs :
  explain_method attribute sobel cv2_resize random_random random_uniform_draw
                 model (PyStr "Control Var. Sobel Filter")
                 inputs targets explanation kwargs
  = if (length (shape (values explanation)) =? 4)%nat
    then sobel_loop sobel kwargs inputs explanation
    else sobel_map sobel kwargs inputs.
Proof. reflexivity. Qed.

(** The plane computed for one sample of a batch of square images. *)
Lemma sobel_map_plane (kwargs : gmap string pyval) (t : tensor)
      (c s : nat) :
  (forall a, shape (sobel a) = shape a) ->
  kwargs_get kwargs "img_size" (PyInt 224) = PyInt (Z.of_nat s) ->
  requires_grad t = false ->
  shape (values t) = [c; s; s] ->
  exists v, sobel_map sobel kwargs t = Ok v
            /\ shape (values v) = [s; s].
Proof.
  intros Hsobel Hsize Hgrad Hshape.
  unfold sobel_map, numpy, cpu. rewrite Hgrad. cbn [rbind].
  unfold mean_axis0. cbn [clip map_values shape].
  rewrite Hsobel, Hshape. cbn [rbind].
  unfold reshape_img. rewrite Hsize. cbn [as_int rbind].
  unfold torch_reshape, reshape. cbn [values torch_Tensor shape].
  rewrite infer_size_plane by lia.
  replace (Z.of_nat s * Z.of_nat s =? Z.of_nat (numel [s; s]))%Z with true
    by (symmetry; apply Z.eqb_eq; cbn [numel fold_right]; lia).
  cbn [rbind]. eexists. split; [reflexivity|].
  cbn [values shape]. rewrite !Nat2Z.id. reflexivity.
Qed.

Lemma sobel_loop_shape (kwargs : gmap string pyval) (inputs : tensor)
      (n c s : nat) :
  (forall a, shape (sobel a) = shape a) ->
  kwargs_get kwargs "img_size" (PyInt 224) = PyInt (Z.of_nat s) ->
  requires_grad inputs = false ->
  shape (values inputs) = [n; c; s; s] ->
  forall (indices : list nat) (e : tensor),
    shape (values e) = [n; c; s; s] ->
    exists e',
      fold_left
        (fun acc i =>
           rbind acc (fun explanation =>
           rbind (sobel_map sobel kwargs (index0 inputs i)) (fun v =>
           setitem0 explanation i v)))
        indices (Ok e)
      = Ok e'
      /\ shape (values e') = [n; c; s; s].
Proof.
  intros Hsobel Hsize Hgrad Hshape.
  induction indices as [|i indices IH]; intros e He; cbn [fold_left].
  - exists e. split; [reflexivity | exact He].
  - cbn [rbind].
    destruct (sobel_map_plane kwargs (index0 inputs i) c s Hsobel Hsize)
      as (v & -> & Hv).
    + exact Hgrad.
    + unfold index0. cbn [values shape]. rewrite Hshape. reflexivity.
    + cbn [rbind]. unfold setitem0. rewrite Hv, He.
      cbn [tail rev app]. rewrite !Nat.eqb_refl. cbn [orb andb].
      apply IH. reflexivity.
Qed.

(** X19.  On a batch of [n] square images with [c] channels, given as a
    torch tensor outside autograd and with [img_size] their side, the
    Sobel control variant returns a map of the batch's full shape
    [(n, c, s, s)].  With no value transform requested, its values are,
    sample after sample, the plane of that sample (the filter output
    clipped to [0, 1] and averaged over the channels, [s * s] values)
    written once for each of the [c] channels. *)
Theorem explain_sobel_plane_over_channels
        (t : tensor) (targets : array) (kwargs : gmap string pyval)
        (w : world) (n c s : nat) :
  kwargs !! "explanation_func" = Some (PyStr "Control Var. Sobel Filter") ->
  (forall a, shape (sobel a) = shape a) ->
  kwargs_get kwargs "img_size" (PyInt 224) = PyInt (Z.of_nat s) ->
  requires_grad t = false ->
  shape (values t) = [n; c; s; s] ->
  flag kwargs "normalize" true = false ->
  exists a : ndarray,
    snd (explain attribute sobel cv2_resize normalize_heatmap
                 random_random random_uniform_draw
                 (TorchTensor t) targets kwargs w)
    = Ok a
    /\ shape a = [n; c; s; s]
    /\ (wf (values t) -> (forall x, wf x -> wf (sobel x)) ->
        flag kwargs "abs" false = false ->
        flag kwargs "pos_only" false = false ->
        flag kwargs "neg_only" false = false ->
        data a = flat_map (fun i => concat (repeat (sobel_plane sobel t i) c))
                          (seq 0 n)
        /\ forall i, (i < n)%nat ->
                     length (sobel_plane sobel t i) = (s * s)%nat).
Proof.
  intros Hv Hsobel Hsize Hgrad Hshape Hnorm.
  rewrite (explain_unfold _ _ _ _ _ _ _ _ _ _ _ Hv).
  cbn [convert_inputs rbind snd]. rewrite explain_method_sobel.
  assert (Hz : shape (values (zeros_like t)) = [n; c; s; s])
    by (unfold zeros_like, map_values; cbn; exact Hshape).
  rewrite Hz. cbn [length Nat.eqb]. unfold sobel_loop. rewrite Hz.
  cbn [hd].
  destruct (sobel_loop_shape kwargs t n c s Hsobel Hsize Hgrad Hshape
                             (seq 0 n) (zeros_like t) Hz)
    as (e' & Hfold & He').
  rewrite Hfold. cbn [rbind].
  destruct (postprocess_shape normalize_heatmap kwargs e' Hnorm)
    as (a & Hpost & Ha).
  rewrite Hpost.
  exists a. split; [reflexivity|]. split; [congruence|].
  intros Hwft Hwf Habs Hpos Hneg.
  split; [|intros i Hi; eapply sobel_plane_length; eassumption].
  rewrite postprocess_untransformed in Hpost
    by (unfold untransformed; auto).
  injection Hpost as <-.
  assert (Hlen : length (data (values (zeros_like t)))
                 = (n * (c * (s * s)))%nat).
  { unfold zeros_like, map_values. cbn [values data].
    rewrite length_map. unfold wf in Hwft. rewrite Hwft, Hshape.
    cbn [numel fold_right]. rewrite Nat.mul_1_r. reflexivity. }
  rewrite (sobel_rounds sobel kwargs t n c s Hsobel Hwf Hsize Hgrad Hshape
                        Hwft n 0 (zeros_like t) eq_refl Hz Hlen) in Hfold.
  injection Hfold as <-. cbn [values data].
  cbn [Nat.mul Nat.add take app].
  rewrite drop_ge; [apply app_nil_r|].
  unfold zeros_like, map_values in Hlen. cbn [values data] in Hlen.
  rewrite Hlen. apply Nat.le_refl.
Qed.

(** X20.  The Sobel control variant converts its inputs with [numpy()]
    without detaching them, so a batch that takes part in autograd makes
    it raise a [RuntimeError]: for a batch of four axes as soon as it
    holds a sample, for any other number of axes always. *)
Theorem explain_sobel_rejects_tracked_inputs
        (t : tensor) (targets : array) (kwargs : gmap string pyval)
        (w : world) :
  kwargs !! "explanation_func" = Some (PyStr "Control Var. Sobel Filter") ->
  requires_grad t = true ->
  length (shape (values t)) <> 4%nat
  \/ (exists n rest, shape (values t) = S n :: rest) ->
  exists msg,
    snd (explain attribute sobel cv2_resize normalize_heatmap
                 random_random random_uniform_draw
                 (TorchTensor t) targets kwargs w)
    = Raise (RuntimeError msg).
Proof.
  intros Hv Hgrad Hcase.
  rewrite (explain_unfold _ _ _ _ _ _ _ _ _ _ _ Hv).
  cbn [convert_inputs rbind snd]. rewrite explain_method_sobel.
  assert (Hz : shape (values (zeros_like t)) = shape (values t))
    by reflexivity.
  rewrite Hz.
  assert (Hfirst : forall u, requires_grad u = true ->
            exists msg, sobel_map sobel kwargs u = Raise (RuntimeError msg)).
  { intros u Hu. unfold sobel_map, numpy, cpu. rewrite Hu.
    eexists. reflexivity. }
  destruct (Nat.eqb_spec (length (shape (values t))) 4) as [H4|H4].
  - destruct Hcase as [Hne | (n & rest & Hshape)]; [contradiction|].
    unfold sobel_loop. rewrite Hz, Hshape. cbn [hd seq fold_left rbind].
    destruct (Hfirst (index0 t 0)) as [msg ->]; [exact Hgrad|].
    cbn [rbind].
    assert (Hstuck : forall l e,
              fold_left
                (fun acc i =>
                   rbind acc (fun explanation =>
                   rbind (sobel_map sobel kwargs (index0 t i)) (fun v =>
                   setitem0 explanation i v)))
                l (Raise e)
              = Raise e).
    { induction l as [|i l IH]; intros e; [reflexivity|]. cbn. apply IH. }
    rewrite Hstuck. cbn [rbind]. eexists. reflexivity.
  - destruct (Hfirst t Hgrad) as [msg ->]. cbn [rbind].
    eexists. reflexivity.
Qed.

End ExplainSobel.

Lemma explain_sobel_plane_over_channels_witness :
  exists a : ndarray,
    snd (explain stub_attribute stub_sobel stub_resize stub_normalize 0 0
                 (TorchTensor (torch_Tensor batch_2x3x2x2))
                 (NdArray targets_2) sobel_kwargs eval_world)
    = Ok a
    /\ shape a = [2; 3; 2; 2]%nat
    /\ data a
       = flat_map
           (fun i =>
              concat (repeat (sobel_plane stub_sobel
                                          (torch_Tensor batch_2x3x2x2) i) 3))
           (seq 0 2).
Proof.
  destruct (explain_sobel_plane_over_channels
              stub_attribute stub_sobel stub_resize stub_normalize 0 0
              (torch_Tensor batch_2x3x2x2) (NdArray targets_2) sobel_kwargs
              eval_world 2 3 2
              eq_refl (fun a => eq_refl) eq_refl eq_refl eq_refl eq_refl)
    as (a & Hrun & Hshape & Hdata).
  exists a. split; [exact Hrun|]. split; [exact Hshape|].
  apply Hdata; first [reflexivity | intros x Hx; exact Hx].
Defined.

Lemma explain_sobel_rejects_tracked_inputs_witness :
  exists msg,
    snd (explain stub_attribute stub_sobel stub_resize stub_normalize 0 0
                 (TorchTensor tracked_batch) (NdArray targets_2)
                 sobel_kwargs eval_world)
    = Raise (RuntimeError msg).
Proof.
  refine (explain_sobel_rejects_tracked_inputs
            stub_attribute stub_sobel stub_resize stub_normalize 0 0
            tracked_batch (NdArray targets_2) sobel_kwargs eval_world
            _ _ _).
  - reflexivity.
  - reflexivity.
  - right. exists 1%nat, [3; 2; 2]%nat. reflexivity.
Defined.
